(** * Reviewer assignment service: a shallow embedding and its properties

    The Go service keeps all of its state in PostgreSQL.  The tables are
    modelled as lists of rows, every repository method as a function on the
    database state, and the service layer as a small state-and-error monad
    over those functions.  Randomness ([math/rand]) and the clock
    ([time.Now], SQL [NOW()]) are explicit arguments.

    A statement sent to the database fails only when it breaks a
    constraint of the schema, and a transaction that fails is rolled back
    as a whole; a lost connection or a cancelled context is not part of the
    model.  Commands run one after the other: the interleaving of
    concurrent requests is left to the isolation the database provides. *)

From Stdlib Require Import String ZArith NArith Bool Arith Lia List.
From Stdlib Require Import Permutation Sorted.
Import ListNotations.

Local Open Scope string_scope.
Local Open Scope list_scope.
Local Open Scope nat_scope.

(** ** [internal/domain] *)

(** [uuid.UUID] is a 16-byte array; it is read here as the number it
    encodes, [uuid.Nil] being zero. *)
Definition UUID : Type := N.
Definition uuid_Nil : UUID := 0%N.
Definition uuid_eqb (a b : UUID) : bool := N.eqb a b.

(** [time.Time] as a number of nanoseconds. *)
Definition Timestamp : Type := Z.

Inductive StatusPR : Type :=
| StatusOpen
| StatusMerged.

Definition StatusPR_eqb (a b : StatusPR) : bool :=
  match a, b with
  | StatusOpen, StatusOpen | StatusMerged, StatusMerged => true
  | _, _ => false
  end.

Record User : Type := mkUser {
  u_ID : UUID;
  u_Username : string;
  u_IsActive : bool;
  u_TeamName : string
}.

Record Team : Type := mkTeam {
  t_Name : string;
  t_Members : list User
}.

Record PullRequest : Type := mkPullRequest {
  pr_ID : string;
  pr_Name : string;
  pr_Status : StatusPR;
  pr_AuthorID : UUID;
  pr_AssignedReviewers : list UUID;
  pr_CreatedAt : Timestamp;
  pr_MergedAt : option Timestamp
}.

Record Reassignment : Type := mkReassignment {
  ra_PullRequestID : string;
  ra_OldUserID : UUID;
  ra_NewUserID : UUID
}.

Record UserReviewStat : Type := mkUserReviewStat {
  st_UserID : UUID;
  st_Username : string;
  st_IsActive : bool;
  st_ReviewCount : nat
}.

(** The sentinel errors of the domain package, the wrapping done by
    [fmt.Errorf("...: %w", err)], and the errors raised by the storage
    driver. *)
Inductive error : Type :=
| ErrNotFound
| ErrOneOfParametersNil
| ErrUserIDNil
| ErrTeamExists
| ErrPRExists
| ErrPRNotExist
| ErrAuthorCannotDelete
| ErrNoCandidate
| ErrPRMerged
| ErrUserNotAssigned
| ErrAuthorIsInactive
| ErrDriver (msg : string)
| Errorf (msg : string) (wrapped : error).

Fixpoint error_eqb (a b : error) : bool :=
  match a, b with
  | ErrNotFound, ErrNotFound
  | ErrOneOfParametersNil, ErrOneOfParametersNil
  | ErrUserIDNil, ErrUserIDNil
  | ErrTeamExists, ErrTeamExists
  | ErrPRExists, ErrPRExists
  | ErrPRNotExist, ErrPRNotExist
  | ErrAuthorCannotDelete, ErrAuthorCannotDelete
  | ErrNoCandidate, ErrNoCandidate
  | ErrPRMerged, ErrPRMerged
  | ErrUserNotAssigned, ErrUserNotAssigned
  | ErrAuthorIsInactive, ErrAuthorIsInactive => true
  | ErrDriver m, ErrDriver m' => String.eqb m m'
  | Errorf m e, Errorf m' e' => String.eqb m m' && error_eqb e e'
  | _, _ => false
  end.

(** [errors.Is]: the target is looked for along the chain of wrapped
    errors. *)
Fixpoint errors_Is (err target : error) : bool :=
  error_eqb err target ||
  match err with
  | Errorf _ e => errors_Is e target
  | _ => false
  end.

(** ** The database *)

(** A row of [pull_requests]. *)
Record PRRow : Type := mkPRRow {
  row_id : string;
  row_name : string;
  row_status : StatusPR;
  row_author_id : UUID;
  row_created_at : Timestamp;
  row_merged_at : option Timestamp
}.

(** A [TIMESTAMPTZ] column keeps whole microseconds: of the instant the
    driver is given, the microsecond it falls in is what the database
    stores and gives back. *)
Definition timestamptz (t : Timestamp) : Timestamp := (t / 1000 * 1000)%Z.

(** The four tables.  [pull_request_reviewers] holds pairs
    [(pull_request_id, reviewer_id)]. *)
Record DB : Type := mkDB {
  users : list User;
  teams : list string;
  pull_requests : list PRRow;
  pull_request_reviewers : list (string * UUID)
}.

Definition empty_db : DB := mkDB [] [] [] [].

Definition set_users (db : DB) (us : list User) : DB :=
  mkDB us (teams db) (pull_requests db) (pull_request_reviewers db).
Definition set_teams (db : DB) (ts : list string) : DB :=
  mkDB (users db) ts (pull_requests db) (pull_request_reviewers db).
Definition set_pull_requests (db : DB) (ps : list PRRow) : DB :=
  mkDB (users db) (teams db) ps (pull_request_reviewers db).
Definition set_pull_request_reviewers (db : DB) (rs : list (string * UUID)) : DB :=
  mkDB (users db) (teams db) (pull_requests db) rs.

(** ** Results and the state monad of the service *)

Inductive result (A : Type) : Type :=
| Ok (a : A)
| Err (e : error)
| Panicked.
Arguments Ok {A} a.
Arguments Err {A} e.
Arguments Panicked {A}.

Definition M (A : Type) : Type := DB -> DB * result A.

Definition ret {A} (a : A) : M A := fun db => (db, Ok a).
Definition fail {A} (e : error) : M A := fun db => (db, Err e).
Definition bind {A B} (c : M A) (k : A -> M B) : M B :=
  fun db =>
    match c db with
    | (db', Ok a) => k a db'
    | (db', Err e) => (db', Err e)
    | (db', Panicked) => (db', Panicked)
    end.

(** [if err != nil { return nil, h(err) }]. *)
Definition on_err {A} (c : M A) (h : error -> error) : M A :=
  fun db =>
    match c db with
    | (db', Err e) => (db', Err (h e))
    | r => r
    end.

(** A query that only reads. *)
Definition read {A} (q : DB -> result A) : M A := fun db => (db, q db).

Notation "x <- c ;; k" := (bind c (fun x => k))
  (at level 61, c at next level, right associativity).
Notation "c ;;; k" := (bind c (fun _ => k))
  (at level 61, right associativity).

Definition is_ok {A} (r : result A) : bool :=
  match r with Ok _ => true | _ => false end.

(** ** [math/rand]: the shuffle *)

(** [rnd i] stands for the number drawn when the loop of [Shuffle] is at
    index [i]; [Int31n (i + 1)] brings it into [0 .. i]. *)
Definition Rand : Type := nat -> nat.

Fixpoint update {A} (l : list A) (i : nat) (x : A) : list A :=
  match l, i with
  | [], _ => []
  | _ :: t, O => x :: t
  | h :: t, S i' => h :: update t i' x
  end.

(** [users[i], users[j] = users[j], users[i]]; an index out of range
    would panic, which [Shuffle] never provokes. *)
Definition swap {A} (l : list A) (i j : nat) : list A :=
  match nth_error l i, nth_error l j with
  | Some a, Some b => update (update l i b) j a
  | _, _ => l
  end.

(** [for i := n - 1; i > 0; i-- { j := r.int31n(i + 1); swap(i, j) }] *)
Fixpoint Shuffle_loop {A} (rnd : Rand) (i : nat) (l : list A) : list A :=
  match i with
  | O => l
  | S i' => Shuffle_loop rnd i' (swap l i (rnd i mod (i + 1)))
  end.

Definition Shuffle {A} (rnd : Rand) (n : nat) (l : list A) : list A :=
  Shuffle_loop rnd (n - 1) l.

(** ** [internal/repository/postgres] *)

Section Program.

(** The DDL of [pull_request_reviewers] is not part of the source tree, so
    whatever constraints the table carries (keys, foreign keys) are left
    open: [reviewer_row_ok db pr r] says whether the database accepts the
    row [(pr, r)] in state [db]. *)
Variable reviewer_row_ok : DB -> string -> UUID -> bool.

(** *** users *)

Definition user_has_id (id : UUID) (u : User) : bool := uuid_eqb (u_ID u) id.

(** [INSERT ... ON CONFLICT (id) DO UPDATE SET username, is_active,
    team_name]: [id] is the primary key of [users]. *)
Fixpoint upsert_user (us : list User) (u : User) : list User :=
  match us with
  | [] => [u]
  | x :: t => if user_has_id (u_ID u) x then u :: t else x :: upsert_user t u
  end.

Definition team_known (db : DB) (name : string) : bool :=
  existsb (String.eqb name) (teams db).

(** [saveUserQuery]; [team_name] references [teams(name)]. *)
Definition exec_saveUserQuery (db : DB) (u : User) : option DB :=
  if team_known db (u_TeamName u)
  then Some (set_users db (upsert_user (users db) u))
  else None.

Definition UserRepository_SaveUser (user : User) : M unit := fun db =>
  match exec_saveUserQuery db user with
  | Some db' => (db', Ok tt)
  | None => (db, Err (Errorf "error saving user" (ErrDriver "foreign key violation")))
  end.

Definition UserRepository_GetUserByID (id : UUID) (db : DB) : result User :=
  match find (user_has_id id) (users db) with
  | Some user => Ok user
  | None => Err ErrNotFound
  end.

(** [WHERE team_name = $1 AND is_active = true AND id != ALL($2)] *)
Definition active_member (teamName : string) (excludeIDs : list UUID) (u : User) : bool :=
  String.eqb (u_TeamName u) teamName && u_IsActive u &&
  negb (existsb (uuid_eqb (u_ID u)) excludeIDs).

Definition UserRepository_GetActiveTeamMembers
    (teamName : string) (excludeIDs : list UUID) (db : DB) : result (list User) :=
  Ok (filter (active_member teamName excludeIDs) (users db)).

Definition set_is_active (isActive : bool) (id : UUID) (u : User) : User :=
  if user_has_id id u
  then mkUser (u_ID u) (u_Username u) isActive (u_TeamName u)
  else u.

Definition UserRepository_SetIsActive (id : UUID) (isActive : bool) : M unit := fun db =>
  let rowsAffected := length (filter (user_has_id id) (users db)) in
  if rowsAffected =? 0
  then (db, Err ErrNotFound)
  else (set_users db (map (set_is_active isActive id) (users db)), Ok tt).

(** *** teams *)

Definition TeamRepository_ExistsTeam (name : string) (db : DB) : result bool :=
  Ok (team_known db name).

(** Modelled from the spec: the DDL of [teams] is not part of the source
    tree; the team name is its unique key, so [saveTeamQuery] is refused
    for a name already present. *)
Definition exec_saveTeamQuery (db : DB) (name : string) : option DB :=
  if team_known db name then None else Some (set_teams db (teams db ++ [name])).

(** [CreateTeamWithMembersTx]: the loop over [team.Members] inside the
    transaction.  [member.TeamName = team.Name] precedes every insert. *)
Fixpoint save_members (db : DB) (teamName : string) (members : list User) : option DB :=
  match members with
  | [] => Some db
  | member :: rest =>
      let member' := mkUser (u_ID member) (u_Username member) (u_IsActive member) teamName in
      match exec_saveUserQuery db member' with
      | Some db' => save_members db' teamName rest
      | None => None
      end
  end.

(** A failed statement leaves the deferred [tx.Rollback] to restore the
    state the transaction started from. *)
Definition Store_CreateTeamWithMembersTx (team : Team) : M unit := fun db =>
  match exec_saveTeamQuery db (t_Name team) with
  | None => (db, Err (Errorf "failed to save team" (ErrDriver "unique violation")))
  | Some db1 =>
      match save_members db1 (t_Name team) (t_Members team) with
      | None => (db, Err (Errorf "failed to save user" (ErrDriver "foreign key violation")))
      | Some db2 => (db2, Ok tt)
      end
  end.

(** *** pull_requests and pull_request_reviewers *)

Definition row_has_id (id : string) (r : PRRow) : bool := String.eqb (row_id r) id.

Definition reviewer_of (id : string) (x : string * UUID) : bool := String.eqb (fst x) id.

Definition is_row (id : string) (reviewer : UUID) (x : string * UUID) : bool :=
  String.eqb (fst x) id && uuid_eqb (snd x) reviewer.

Definition PullRequestRepository_Exists (id : string) (db : DB) : result bool :=
  Ok (existsb (row_has_id id) (pull_requests db)).

(** [createPullRequestQuery]: [id] is the primary key and [author_id]
    references [users(id)]; [created_at] is a [TIMESTAMPTZ] column, so of
    [pr.CreatedAt], taken from [time.Now()], whole microseconds are kept. *)
Definition exec_createPullRequestQuery (db : DB) (pr : PullRequest) : option DB :=
  if existsb (row_has_id (pr_ID pr)) (pull_requests db) then None
  else if negb (existsb (user_has_id (pr_AuthorID pr)) (users db)) then None
  else Some (set_pull_requests db
               (pull_requests db ++
                [mkPRRow (pr_ID pr) (pr_Name pr) (pr_Status pr) (pr_AuthorID pr)
                         (timestamptz (pr_CreatedAt pr)) None])).

(** [insertSpecificReviewerQuery] *)
Definition exec_insertSpecificReviewerQuery (db : DB) (id : string) (reviewer : UUID) : option DB :=
  if reviewer_row_ok db id reviewer
  then Some (set_pull_request_reviewers db (pull_request_reviewers db ++ [(id, reviewer)]))
  else None.

(** [tx.CopyFrom] of the rows [(pr.ID, reviewerID)]. *)
Fixpoint copy_reviewers (db : DB) (id : string) (reviewers : list UUID) : option DB :=
  match reviewers with
  | [] => Some db
  | reviewerID :: rest =>
      match exec_insertSpecificReviewerQuery db id reviewerID with
      | Some db' => copy_reviewers db' id rest
      | None => None
      end
  end.

Definition PullRequestRepository_Create (pr : PullRequest) : M unit := fun db =>
  match exec_createPullRequestQuery db pr with
  | None => (db, Err (Errorf "failed to insert pull request" (ErrDriver "constraint violation")))
  | Some db1 =>
      if 0 <? length (pr_AssignedReviewers pr) then
        match copy_reviewers db1 (pr_ID pr) (pr_AssignedReviewers pr) with
        | None => (db, Err (Errorf "failed to copy reviewers" (ErrDriver "constraint violation")))
        | Some db2 => (db2, Ok tt)
        end
      else (db1, Ok tt)
  end.

(** [getReviewersForPRQuery] *)
Definition reviewers_of (db : DB) (id : string) : list UUID :=
  map snd (filter (reviewer_of id) (pull_request_reviewers db)).

Definition PullRequestRepository_GetPRByID (id : string) (db : DB) : result PullRequest :=
  match find (row_has_id id) (pull_requests db) with
  | None => Err ErrNotFound
  | Some r =>
      Ok (mkPullRequest (row_id r) (row_name r) (row_status r) (row_author_id r)
                        (reviewers_of db id) (row_created_at r) (row_merged_at r))
  end.

(** [ReassignReviewer]: delete, look at the number of rows deleted, insert,
    commit. *)
Definition PullRequestRepository_ReassignReviewer (reasReviewer : Reassignment) : M unit :=
  fun db =>
    let id := ra_PullRequestID reasReviewer in
    let rows := pull_request_reviewers db in
    let kept := filter (fun x => negb (is_row id (ra_OldUserID reasReviewer) x)) rows in
    let rowsAffected := length rows - length kept in
    if rowsAffected =? 0 then (db, Err ErrUserNotAssigned)
    else
      match exec_insertSpecificReviewerQuery
              (set_pull_request_reviewers db kept) id (ra_NewUserID reasReviewer) with
      | None => (db, Err (Errorf "failed to insert new reviewer" (ErrDriver "constraint violation")))
      | Some db' => (db', Ok tt)
      end.

(** [UPDATE pull_requests SET status = $1, merged_at = NOW() WHERE id = $2];
    [now] is what [NOW()] gives, the clock of the database. *)
Definition set_merged (now : Timestamp) (id : string) (r : PRRow) : PRRow :=
  if row_has_id id r
  then mkPRRow (row_id r) (row_name r) StatusMerged (row_author_id r)
               (row_created_at r) (Some now)
  else r.

Definition PullRequestRepository_SetMerge (now : Timestamp) (id : string) : M unit := fun db =>
  let rowsAffected := length (filter (row_has_id id) (pull_requests db)) in
  if rowsAffected =? 0
  then (db, Err ErrNotFound)
  else (set_pull_requests db (map (set_merged now id) (pull_requests db)), Ok tt).

(** *** review statistics *)

(** The inner [SELECT reviewer_id, COUNT( * ) ... GROUP BY reviewer_id],
    seen from one user: the number of rows of [pull_request_reviewers]
    naming that user; [COALESCE] gives 0 to a user without a group, which is
    what the length of an empty selection is. *)
Definition review_count (db : DB) (id : UUID) : nat :=
  length (filter (fun x => uuid_eqb (snd x) id) (pull_request_reviewers db)).

(** [users u LEFT JOIN pr_counts]: one row per user. *)
Definition stats_rows (db : DB) : list UserReviewStat :=
  map (fun u => mkUserReviewStat (u_ID u) (u_Username u) (u_IsActive u)
                                 (review_count db (u_ID u)))
      (users db).

(** [ORDER BY review_count DESC]: the name is that of the output column,
    the count after [COALESCE].  Rows with equal counts keep the order in
    which the join produced them. *)
Fixpoint insert_desc (s : UserReviewStat) (l : list UserReviewStat) : list UserReviewStat :=
  match l with
  | [] => [s]
  | x :: t =>
      if st_ReviewCount s <? st_ReviewCount x
      then x :: insert_desc s t
      else s :: l
  end.

Fixpoint order_by_review_count_desc (l : list UserReviewStat) : list UserReviewStat :=
  match l with
  | [] => []
  | x :: t => insert_desc x (order_by_review_count_desc t)
  end.

Definition StatsRepository_GetUserReviewStats (db : DB) : result (list UserReviewStat) :=
  Ok (order_by_review_count_desc (stats_rows db)).

(** ** [internal/service] *)

(** *** UserService *)

Definition UserService_GetUserByID (id : UUID) : M User :=
  if uuid_eqb id uuid_Nil then fail ErrOneOfParametersNil
  else
    on_err (read (UserRepository_GetUserByID id))
           (fun err => if errors_Is err ErrNotFound then ErrNotFound
                       else Errorf "failed to get user" err).

(** A nil slice of ids is [None]. *)
Definition UserService_GetActiveTeamMembers
    (teamName : string) (excludeIDs : option (list UUID)) : M (list User) :=
  if String.eqb teamName "" then fail ErrOneOfParametersNil
  else
    match excludeIDs with
    | None => fail ErrOneOfParametersNil
    | Some ids =>
        on_err (read (UserRepository_GetActiveTeamMembers teamName ids))
               (Errorf "failed to get active team members")
    end.

Definition UserService_SetIsActive (id : UUID) (isActive : bool) : M User :=
  if uuid_eqb id uuid_Nil then fail ErrOneOfParametersNil
  else
    on_err (UserRepository_SetIsActive id isActive)
           (fun err => if errors_Is err ErrNotFound then ErrNotFound
                       else Errorf "failed to set is_active" err) ;;;
    on_err (read (UserRepository_GetUserByID id)) (Errorf "failed to get user").

(** *** TeamService *)

(** The team handed back is the argument itself: the assignment to
    [member.TeamName] in the repository acts on a copy. *)
Definition TeamService_CreateTeamWithMembers (team : Team) : M Team :=
  if String.eqb (t_Name team) "" then fail ErrOneOfParametersNil
  else if length (t_Members team) =? 0 then fail ErrOneOfParametersNil
  else
    exists_ <- on_err (read (TeamRepository_ExistsTeam (t_Name team)))
                      (Errorf "failed to check if team exists") ;;
    if (exists_ : bool) then fail ErrTeamExists
    else
      on_err (Store_CreateTeamWithMembersTx team) (Errorf "failed to create team") ;;;
      ret team.

(** *** StatsService *)

Definition StatsService_GetUserReviewStats : M (list UserReviewStat) :=
  on_err (read StatsRepository_GetUserReviewStats) (Errorf "failed to get stats from repo").

(** *** PullRequestService *)

Definition countReviewers : Z := 2.
Definition countReassignReviewer : Z := 1.

(** [getRandomReviewers].  The slice [users] shares its array with the
    caller, so the function is given as the pair of what that array holds
    once the call is over and of the ids returned.  [None] is the run-time
    panic of [make] on a negative length. *)
Definition getRandomReviewers (rnd : Rand) (users : list User) (count : Z)
  : option (list User * list UUID) :=
  if length users =? 0 then Some (users, [])
  else
    let users' := Shuffle rnd (length users) users in
    let numToAssign :=
      if (Z.of_nat (length users') <? count)%Z then Z.of_nat (length users') else count in
    if (numToAssign <? 0)%Z then None
    else Some (users', map u_ID (firstn (Z.to_nat numToAssign) users')).

Definition call_getRandomReviewers (rnd : Rand) (users : list User) (count : Z)
  : M (list UUID) :=
  fun db =>
    match getRandomReviewers rnd users count with
    | Some (_, reviewers) => (db, Ok reviewers)
    | None => (db, Panicked)
    end.

Definition PullRequestService_CreatePR
    (rnd : Rand) (now : Timestamp) (prID prName : string) (authorID : UUID)
  : M PullRequest :=
  exists_ <- on_err (read (PullRequestRepository_Exists prID))
                    (Errorf "failed to check pr existence") ;;
  if (exists_ : bool) then fail ErrPRExists
  else
    author <- on_err (UserService_GetUserByID authorID)
                     (fun err => if errors_Is err ErrNotFound then ErrNotFound
                                 else Errorf "failed to get author by author id" err) ;;
    if negb (u_IsActive author) then fail ErrAuthorIsInactive
    else
      let excludeID := [u_ID author] in
      activeMembers <- on_err (UserService_GetActiveTeamMembers (u_TeamName author) (Some excludeID))
                              (Errorf "failed to get active team members") ;;
      reviewers <- call_getRandomReviewers rnd activeMembers countReviewers ;;
      let pullRequest :=
        mkPullRequest prID prName StatusOpen authorID reviewers now None in
      on_err (PullRequestRepository_Create pullRequest)
             (Errorf "failed to create pull request") ;;;
      ret pullRequest.

(** The second component of the answer is [newReviewerID.String()] in the
    source; the id itself is kept here. *)
Definition PullRequestService_ReassignmentReviewers
    (rnd : Rand) (prID : string) (oldUserID : UUID)
  : M (PullRequest * UUID) :=
  exists_ <- on_err (read (PullRequestRepository_Exists prID))
                    (Errorf "failed to check pr existence") ;;
  if negb exists_ then fail ErrPRExists
  else
    pullRequest <- on_err (read (PullRequestRepository_GetPRByID prID))
                          (Errorf "failed to get pull request") ;;
    if StatusPR_eqb (pr_Status pullRequest) StatusMerged then fail ErrPRMerged
    else
      author <- on_err (UserService_GetUserByID (pr_AuthorID pullRequest))
                       (fun err => if errors_Is err ErrNotFound then ErrNotFound
                                   else Errorf "failed to get user by author id" err) ;;
      if uuid_eqb (u_ID author) oldUserID then fail ErrAuthorCannotDelete
      else
        let excludeIDs := pr_AssignedReviewers pullRequest ++ [u_ID author] in
        candidates <- on_err (UserService_GetActiveTeamMembers (u_TeamName author) (Some excludeIDs))
                             (Errorf "failed to get active team members") ;;
        newReviewerIDs <- call_getRandomReviewers rnd candidates countReassignReviewer ;;
        match newReviewerIDs with
        | [] => fail ErrNoCandidate
        | newReviewerID :: _ =>
            let reassignment := mkReassignment prID oldUserID newReviewerID in
            on_err (PullRequestRepository_ReassignReviewer reassignment)
                   (fun err => if errors_Is err ErrUserNotAssigned then ErrUserNotAssigned
                               else Errorf "failed to update Pull request" err) ;;;
            updatedPullRequest <- on_err (read (PullRequestRepository_GetPRByID prID))
                                         (Errorf "failed to get updated pull request") ;;
            ret (updatedPullRequest, newReviewerID)
        end.

Definition PullRequestService_SetMerge (now : Timestamp) (prID : string) : M PullRequest :=
  exists_ <- on_err (read (PullRequestRepository_Exists prID))
                    (Errorf "failed to check pr existence") ;;
  if negb exists_ then fail ErrPRNotExist
  else
    on_err (PullRequestRepository_SetMerge now prID)
           (Errorf "failed to set pull request merge") ;;;
    on_err (read (PullRequestRepository_GetPRByID prID)) (Errorf "failed to get pull request").

(** ** [internal/transport/http/handler] *)

Definition codeInternalError := "INTERNAL_ERROR".
Definition codeNotFound := "NOT_FOUND".
Definition codePRMerged := "PR_MERGED".
Definition codeNoCandidate := "NO_CANDIDATE".
Definition codeNotAssigned := "NOT_ASSIGNED".

(** [Handler.Reassign], the branch [err != nil]: the HTTP status and the
    machine-readable code written by [responseError]. *)
Definition Reassign_responseError (err : error) : Z * string :=
  if errors_Is err ErrPRNotExist then (404%Z, codeNotFound)
  else if errors_Is err ErrPRMerged then (409%Z, codePRMerged)
  else if errors_Is err ErrNotFound then (404%Z, codeNotFound)
  else if errors_Is err ErrNoCandidate then (409%Z, codeNoCandidate)
  else if errors_Is err ErrUserNotAssigned then (409%Z, codeNotAssigned)
  else (500%Z, codeInternalError).

(** ** Runs of the service *)

(** The commands of the API that write to the store. *)
Inductive command : Type :=
| CmdCreateTeam (team : Team)
| CmdSetUserActive (id : UUID) (isActive : bool)
| CmdCreatePR (rnd : Rand) (now : Timestamp) (prID prName : string) (authorID : UUID)
| CmdReassign (rnd : Rand) (prID : string) (oldUserID : UUID)
| CmdSetMerge (now : Timestamp) (prID : string).

Definition exec (c : command) (db : DB) : DB :=
  match c with
  | CmdCreateTeam team => fst (TeamService_CreateTeamWithMembers team db)
  | CmdSetUserActive id isActive => fst (UserService_SetIsActive id isActive db)
  | CmdCreatePR rnd now prID prName authorID =>
      fst (PullRequestService_CreatePR rnd now prID prName authorID db)
  | CmdReassign rnd prID oldUserID =>
      fst (PullRequestService_ReassignmentReviewers rnd prID oldUserID db)
  | CmdSetMerge now prID => fst (PullRequestService_SetMerge now prID db)
  end.

Definition run (cs : list command) (db : DB) : DB :=
  fold_left (fun d c => exec c d) cs db.

(** The states the service can bring a freshly migrated database to. *)
Definition reachable (db : DB) : Prop := exists cs, db = run cs empty_db.

(** ** Auxiliary notions used in the statements *)

(** The rows of [pull_request_reviewers] once [oldUserID] has been traded
    for [newUserID] on pull request [prID]. *)
Definition reassigned_rows (db : DB) (prID : string) (oldUserID newUserID : UUID)
  : list (string * UUID) :=
  filter (fun x => negb (is_row prID oldUserID x)) (pull_request_reviewers db)
  ++ [(prID, newUserID)].

(** The row [CreatePR] writes to [pull_requests]. *)
Definition created_row (now : Timestamp) (prID prName : string) (authorID : UUID) : PRRow :=
  mkPRRow prID prName StatusOpen authorID (timestamptz now) None.

(** What the schema in the migrations and the checks of the service keep
    true of the store: [users.id] and [pull_requests.id] are keys, no user
    is without a team, every author is a known user with a proper id,
    reviewer rows belong to existing pull requests and are not repeated,
    and no author reviews their own pull request. *)
Record db_inv (db : DB) : Prop := mk_db_inv {
  inv_users_key : NoDup (map u_ID (users db));
  inv_team_names : forall u, In u (users db) -> u_TeamName u <> "";
  inv_author : forall p, In p (pull_requests db) ->
      row_author_id p <> uuid_Nil /\ In (row_author_id p) (map u_ID (users db));
  inv_prs_key : NoDup (map row_id (pull_requests db));
  inv_reviewer_pr : forall x, In x (pull_request_reviewers db) ->
      In (fst x) (map row_id (pull_requests db));
  inv_reviewers_set : NoDup (pull_request_reviewers db);
  inv_no_self_review : forall p, In p (pull_requests db) ->
      ~ In (row_id p, row_author_id p) (pull_request_reviewers db)
}.

(** ** Sample data *)

(** The schema one would expect for [pull_request_reviewers]: the pair is
    the key, and both columns are foreign keys. *)
Definition schema_ok (db : DB) (id : string) (reviewer : UUID) : bool :=
  existsb (fun r => String.eqb (row_id r) id) (pull_requests db) &&
  existsb (fun u => uuid_eqb (u_ID u) reviewer) (users db) &&
  negb (existsb (fun x => String.eqb (fst x) id && uuid_eqb (snd x) reviewer)
                (pull_request_reviewers db)).

(** Members as the transport layer builds them: the team name is left
    empty. *)
Definition alice : User := mkUser 1%N "alice" true "".
Definition bob : User := mkUser 2%N "bob" true "".
Definition carol : User := mkUser 3%N "carol" true "".
Definition dave : User := mkUser 4%N "dave" true "".
Definition erin : User := mkUser 5%N "erin" true "elsewhere".

Definition team_T : Team := mkTeam "T" [alice; bob; carol; dave].
Definition team_S : Team := mkTeam "S" [erin].

(** A source of randomness that always draws 0. *)
Definition draw_zero : Rand := fun _ => 0.

(** Team T is created and alice opens "pr-1". *)
Definition sample_commands : list command :=
  [CmdCreateTeam team_T; CmdCreatePR draw_zero 1500%Z "pr-1" "title" 1%N].

(** Team S is created and erin, its only member, opens "pr-9". *)
Definition solo_commands : list command :=
  [CmdCreateTeam team_S; CmdCreatePR draw_zero 1500%Z "pr-9" "solo" 5%N].

(** The status the store records for a pull request, if it has one. *)
Definition status_of (db : DB) (prID : string) : option StatusPR :=
  option_map row_status (find (row_has_id prID) (pull_requests db)).

(** [ReassignmentReviewers] passes every check that precedes the call of
    [prRepo.ReassignReviewer] and makes that call with [newUserID] as the
    replacement. *)
Definition reaches_mutation
    (rnd : Rand) (prID : string) (oldUserID : UUID) (db : DB) (newUserID : UUID) : Prop :=
  exists r author users' rest,
    find (row_has_id prID) (pull_requests db) = Some r /\
    row_status r = StatusOpen /\
    row_author_id r <> uuid_Nil /\
    find (user_has_id (row_author_id r)) (users db) = Some author /\
    u_ID author <> oldUserID /\
    u_TeamName author <> "" /\
    getRandomReviewers rnd
      (filter (active_member (u_TeamName author)
                 (reviewers_of db prID ++ [u_ID author])) (users db))
      countReassignReviewer = Some (users', newUserID :: rest).

(** The eligible replacements for a reviewer of [prID], in the words of
    the glossary: the active members of the author's team who are neither
    the author nor already assigned. *)
Definition replacement_pool (db : DB) (prID : string) : list User :=
  match find (row_has_id prID) (pull_requests db) with
  | None => []
  | Some r =>
      match find (user_has_id (row_author_id r)) (users db) with
      | None => []
      | Some author =>
          filter (fun u => String.eqb (u_TeamName u) (u_TeamName author)
                           && u_IsActive u
                           && negb (existsb (uuid_eqb (u_ID u)) (reviewers_of db prID))
                           && negb (uuid_eqb (u_ID u) (row_author_id r)))
                 (users db)
      end
  end.

(** The number of pull requests, open or merged, whose reviewers as
    [GetPRByID] reads them include the user [id]: the count section 4.5 of
    the specification asks for, against which the SQL of
    [GetUserReviewStatsQuery] is compared. *)
Definition prs_reviewed_by (db : DB) (id : UUID) : nat :=
  length (filter (fun p => existsb (uuid_eqb id) (reviewers_of db (row_id p)))
                 (pull_requests db)).

(** Ranked by count, largest first. *)
Definition count_desc (a b : UserReviewStat) : Prop :=
  st_ReviewCount b <= st_ReviewCount a.

(** ** Further code of the repository, service and transport layers *)

(** *** [TeamRepository.SaveTeam], [UserService.SaveUser] *)

Definition TeamRepository_SaveTeam (team : Team) : M unit := fun db =>
  match exec_saveTeamQuery db (t_Name team) with
  | Some db' => (db', Ok tt)
  | None => (db, Err (Errorf "failed to save team" (ErrDriver "unique violation")))
  end.

Definition UserService_SaveUser (user : User) : M unit :=
  if uuid_eqb (u_ID user) uuid_Nil then fail ErrUserIDNil
  else on_err (UserRepository_SaveUser user) (Errorf "failed to save user").

(** *** [TeamRepository.GetTeamByName] *)

(** What [rows.Scan] makes of the row that the LEFT JOIN pads with NULLs
    when a team has no user is the driver's business and not written in
    the repository: [None] stands for a scan error, [Some user] for the
    values found in [user] once the scan is over. *)
Variable scan_null_member : option User.

(** [teams t LEFT JOIN users u ON t.name = u.team_name WHERE t.name = $1]:
    for every team row of that name its users, or one row of NULLs when it
    has none. *)
Definition team_join_rows (db : DB) (name : string) : list (string * option User) :=
  flat_map
    (fun t =>
       match filter (fun u => String.eqb t (u_TeamName u)) (users db) with
       | [] => [(t, None)]
       | us => map (fun u => (t, Some u)) us
       end)
    (filter (fun t => String.eqb t name) (teams db)).

(** The loop [for rows.Next()]: [team] is set by the first row, and a
    user is kept unless its id is [uuid.Nil]. *)
Fixpoint scan_team_rows (rows : list (string * option User))
    (team : option string) (members : list User)
  : result (option string * list User) :=
  match rows with
  | [] => Ok (team, members)
  | (teamName, cols) :: rest =>
      match (match cols with Some u => Some u | None => scan_null_member end) with
      | None => Err (Errorf "failed to scan row" (ErrDriver "cannot scan NULL"))
      | Some user =>
          let team' := match team with None => Some teamName | Some _ => team end in
          let members' :=
            if negb (uuid_eqb (u_ID user) uuid_Nil) then members ++ [user] else members in
          scan_team_rows rest team' members'
      end
  end.

Definition TeamRepository_GetTeamByName (name : string) (db : DB) : result Team :=
  match scan_team_rows (team_join_rows db name) None [] with
  | Ok (Some teamName, members) => Ok (mkTeam teamName members)
  | Ok (None, _) => Err ErrNotFound
  | Err e => Err e
  | Panicked => Panicked
  end.

Definition TeamService_GetTeamByName (name : string) : M Team :=
  on_err (read (TeamRepository_GetTeamByName name))
         (fun err => if errors_Is err ErrNotFound then ErrNotFound
                     else Errorf "failed to retrieve team" err).

Definition TeamService_ExistsTeam (name : string) : M bool :=
  if String.eqb name "" then fail ErrOneOfParametersNil
  else on_err (read (TeamRepository_ExistsTeam name))
              (Errorf "failed to check if team exists").

(** *** [PullRequestRepository.GetByReviewerID], [UserService.GetReviewsForUser] *)

(** The six columns of [pull_requests] the queries of the listing scan;
    [AssignedReviewers] is left nil. *)
Definition pr_of_row (p : PRRow) : PullRequest :=
  mkPullRequest (row_id p) (row_name p) (row_status p) (row_author_id p) []
                (row_created_at p) (row_merged_at p).

(** [pull_requests p JOIN pull_request_reviewers prr ON p.id =
    prr.pull_request_id WHERE prr.reviewer_id = $1]: one row for every
    pair of a pull request and a reviewer row of it naming the user. *)
Definition PullRequestRepository_GetByReviewerID (reviewerID : UUID) (db : DB)
  : result (list PullRequest) :=
  Ok (flat_map
        (fun p => map (fun _ => pr_of_row p)
                      (filter (is_row (row_id p) reviewerID) (pull_request_reviewers db)))
        (pull_requests db)).

Definition UserService_GetReviewsForUser (userID : UUID) : M (list PullRequest) :=
  on_err (read (UserRepository_GetUserByID userID))
         (fun err => if errors_Is err ErrNotFound then ErrNotFound
                     else Errorf "failed to check user existence" err) ;;;
  on_err (read (PullRequestRepository_GetByReviewerID userID))
         (Errorf "failed to get pull requests for user").

(** *** [internal/transport/http/dto] *)

Record UserRequest : Type := mkUserRequest {
  ur_UserID : UUID;
  ur_Username : string;
  ur_IsActive : bool
}.

Record CreateTeamDTO : Type := mkCreateTeamDTO {
  ct_Name : string;
  ct_Members : list UserRequest
}.

Definition ToTeamDomain (tr : CreateTeamDTO) : Team :=
  mkTeam (ct_Name tr)
         (map (fun member => mkUser (ur_UserID member) (ur_Username member)
                                    (ur_IsActive member) "")
              (ct_Members tr)).

Definition FromTeamDomain (team : Team) : CreateTeamDTO :=
  mkCreateTeamDTO (t_Name team)
    (map (fun member => mkUserRequest (u_ID member) (u_Username member) (u_IsActive member))
         (t_Members team)).

Definition FromUserDomain (user : User) : UserRequest :=
  mkUserRequest (u_ID user) (u_Username user) (u_IsActive user).

(** *** The other handlers: the status and code written when the service
    fails *)

Definition codeInvalidBody := "INVALID_BODY".
Definition codeParametersIncorrect := "PARAMETERS_INCORRECT".
Definition codeTeamExists := "TEAM_EXISTS".
Definition codePRExists := "PR_EXISTS".
Definition codeAuthorInactive := "AUTHOR_INACTIVE".

Definition CreateTeam_responseError (err : error) : Z * string :=
  if errors_Is err ErrOneOfParametersNil then (400%Z, codeParametersIncorrect)
  else if errors_Is err ErrTeamExists then (409%Z, codeTeamExists)
  else (500%Z, codeInternalError).


Definition SetUserActiveStatus_responseError (err : error) : Z * string :=
  if errors_Is err ErrOneOfParametersNil then (400%Z, codeParametersIncorrect)
  else if errors_Is err ErrNotFound then (404%Z, codeNotFound)
  else (500%Z, codeInternalError).

Definition GetUserReview_responseError (err : error) : Z * string :=
  if errors_Is err ErrNotFound then (404%Z, codeNotFound)
  else (500%Z, codeInternalError).

Definition CreatePR_responseError (err : error) : Z * string :=
  if errors_Is err ErrPRExists then (409%Z, codePRExists)
  else if errors_Is err ErrNotFound then (404%Z, codeNotFound)
  else if errors_Is err ErrAuthorIsInactive then (403%Z, codeAuthorInactive)
  else (500%Z, codeInternalError).

Definition SetMerge_responseError (err : error) : Z * string :=
  if errors_Is err ErrNotFound then (404%Z, codeNotFound)
  else (500%Z, codeInternalError).

(** *** More of what the store keeps true *)

(** [merged_at] is set exactly on merged pull requests; reviewers are
    known users, at most [countReviewers] of them per pull request; every
    user's team is a row of [teams], whose names are distinct and not
    empty. *)
Record db_inv_more (db : DB) : Prop := mk_db_inv_more {
  inv_merged_at : forall p, In p (pull_requests db) ->
      (row_status p = StatusMerged <-> row_merged_at p <> None);
  inv_reviewer_user : forall x, In x (pull_request_reviewers db) ->
      In (snd x) (map u_ID (users db));
  inv_reviewer_bound : forall id,
      (Z.of_nat (length (reviewers_of db id)) <= countReviewers)%Z;
  inv_user_team : forall u, In u (users db) -> In (u_TeamName u) (teams db);
  inv_teams_key : NoDup (teams db)
}.

(** The sum of the counts of a list of statistics. *)
Definition total_reviews (stats : list UserReviewStat) : nat :=
  list_sum (map st_ReviewCount stats).

(** Draws under which [Shuffle] exchanges the cells 0 and [k] and does
    nothing else. *)
Definition draw_to_front (k : nat) : Rand := fun i => if i =? k then 0 else i.

(** The users [GetTeamByName] lists for a team. *)
Definition listed_members (db : DB) (name : string) : list User :=
  filter (fun u => negb (uuid_eqb (u_ID u) uuid_Nil))
         (filter (fun u => String.eqb name (u_TeamName u)) (users db)).

(** Team T is created, alice opens "pr-1" and merges it. *)
Definition merged_commands : list command :=
  sample_commands ++ [CmdSetMerge 20%Z "pr-1"].

(** "pr-1" as it is stored after [sample_commands]. *)
Definition sample_pr : PullRequest :=
  mkPullRequest "pr-1" "title" StatusOpen 1%N [3%N; 4%N] 1000%Z None.

(** The body of the request that creates team T. *)
Definition team_T_request : CreateTeamDTO :=
  mkCreateTeamDTO "T" [mkUserRequest 1%N "alice" true; mkUserRequest 2%N "bob" true;
                       mkUserRequest 3%N "carol" true; mkUserRequest 4%N "dave" true].

(** ** Facts about the shuffle *)

Lemma update_length {A} (l : list A) i x : length (update l i x) = length l.
Proof.
  revert i; induction l as [|h t IH]; intros [|i]; simpl; auto.
Qed.

Lemma update_same {A} (l : list A) i x :
  nth_error l i = Some x -> update l i x = l.
Proof.
  revert i; induction l as [|h t IH]; intros [|i]; simpl; intros H; auto.
  - now inversion H.
  - now rewrite IH.
Qed.

(** Writing [x] over the cell that holds [b] is the same, up to order, as
    trading [b] for [x]. *)
Lemma update_Permutation {A} (l : list A) j x b :
  nth_error l j = Some b -> Permutation (b :: update l j x) (x :: l).
Proof.
  revert j; induction l as [|h t IH]; intros [|j]; simpl; intros H; try discriminate.
  - inversion H; subst. apply perm_swap.
  - specialize (IH _ H).
    eapply perm_trans; [apply perm_swap|].
    eapply perm_trans; [apply perm_skip, IH|].
    apply perm_swap.
Qed.

Lemma swap_Permutation {A} (l : list A) i j : Permutation (swap l i j) l.
Proof.
  unfold swap.
  destruct (nth_error l i) as [a|] eqn:Hi; [|reflexivity].
  destruct (nth_error l j) as [b|] eqn:Hj; [|reflexivity].
  revert i j Hi Hj; induction l as [|h t IH]; intros [|i] [|j]; simpl; intros Hi Hj;
    try discriminate.
  - inversion Hi; inversion Hj; subst. reflexivity.
  - inversion Hi; subst. now apply update_Permutation.
  - inversion Hj; subst. now apply update_Permutation.
  - apply perm_skip. now apply IH.
Qed.

Lemma Shuffle_loop_Permutation {A} rnd i (l : list A) :
  Permutation (Shuffle_loop rnd i l) l.
Proof.
  revert l; induction i as [|i IH]; intros l; simpl.
  - reflexivity.
  - eapply perm_trans; [apply IH | apply swap_Permutation].
Qed.

Lemma Shuffle_Permutation {A} rnd n (l : list A) : Permutation (Shuffle rnd n l) l.
Proof. apply Shuffle_loop_Permutation. Qed.

Lemma Shuffle_short {A} rnd (l : list A) : length l <= 1 -> Shuffle rnd (length l) l = l.
Proof.
  unfold Shuffle. intros H.
  replace (length l - 1) with 0 by lia. reflexivity.
Qed.

(** ** Facts about the candidate selector *)

(** What a call of [getRandomReviewers] that does not panic gives. *)
Lemma getRandomReviewers_Some rnd users count users' ids :
  getRandomReviewers rnd users count = Some (users', ids) ->
  Permutation users' users /\
  exists n, ids = map u_ID (firstn n users') /\
            (users <> [] -> Z.of_nat n = Z.min count (Z.of_nat (length users))) /\
            (users = [] -> n = 0).
Proof.
  unfold getRandomReviewers.
  destruct users as [|u us].
  - simpl. intros H; inversion H; subst. split; [reflexivity|].
    exists 0. repeat split; auto. intros C; contradiction.
  - cbn [length Nat.eqb].
    set (us' := Shuffle rnd (S (length us)) (u :: us)).
    assert (HP : Permutation us' (u :: us)) by apply Shuffle_Permutation.
    assert (HL : length us' = S (length us))
      by (rewrite (Permutation_length HP); reflexivity).
    rewrite HL.
    destruct (Z.ltb_spec (Z.of_nat (S (length us))) count) as [Hlt|Hge].
    + destruct (Z.ltb_spec (Z.of_nat (S (length us))) 0) as [Hn|Hn]; [lia|].
      intros H; inversion H; subst. split; [exact HP|].
      exists (Z.to_nat (Z.of_nat (S (length us)))). repeat split.
      * intros _. rewrite Z2Nat.id by lia. simpl length. lia.
      * intros C; discriminate.
    + destruct (Z.ltb_spec count 0) as [Hn|Hn]; [discriminate|].
      intros H; inversion H; subst. split; [exact HP|].
      exists (Z.to_nat count). repeat split.
      * intros _. rewrite Z2Nat.id by lia. simpl length. lia.
      * intros C; discriminate.
Qed.

Lemma getRandomReviewers_total rnd users count :
  (0 <= count)%Z -> exists users' ids, getRandomReviewers rnd users count = Some (users', ids).
Proof.
  intros Hc. unfold getRandomReviewers.
  destruct (length users =? 0); [eauto|].
  set (n := if (_ <? count)%Z then _ else count).
  assert (Hn : (0 <= n)%Z) by (subst n; destruct (_ <? count)%Z; lia).
  destruct (Z.ltb_spec n 0); [lia|eauto].
Qed.

Lemma In_firstn {A} (x : A) n l : In x (firstn n l) -> In x l.
Proof.
  intros H. rewrite <- (firstn_skipn n l). apply in_or_app. now left.
Qed.

(** Every id the selector returns is the id of one of the users given. *)
Lemma getRandomReviewers_In rnd users count users' ids id :
  getRandomReviewers rnd users count = Some (users', ids) ->
  In id ids -> exists u, In u users /\ u_ID u = id.
Proof.
  intros H Hin.
  destruct (getRandomReviewers_Some _ _ _ _ _ H) as (HP & n & -> & _ & _).
  apply in_map_iff in Hin. destruct Hin as (u & Hu & Hin).
  exists u. split; [|exact Hu].
  eapply Permutation_in; [exact HP|]. eapply In_firstn; eauto.
Qed.

Lemma NoDup_firstn {A} n (l : list A) : NoDup l -> NoDup (firstn n l).
Proof.
  intros H. rewrite <- (firstn_skipn n l) in H. now apply NoDup_app_remove_r in H.
Qed.

Lemma getRandomReviewers_NoDup rnd users count users' ids :
  getRandomReviewers rnd users count = Some (users', ids) ->
  NoDup (map u_ID users) -> NoDup ids.
Proof.
  intros H Hnd.
  destruct (getRandomReviewers_Some _ _ _ _ _ H) as (HP & n & -> & _ & _).
  rewrite <- firstn_map. apply NoDup_firstn.
  eapply Permutation_NoDup; [|exact Hnd].
  apply Permutation_map, Permutation_sym, HP.
Qed.

(** ** Facts about the tables *)

Lemma uuid_eqb_eq a b : uuid_eqb a b = true <-> a = b.
Proof. apply N.eqb_eq. Qed.

Lemma uuid_eqb_neq a b : uuid_eqb a b = false <-> a <> b.
Proof. apply N.eqb_neq. Qed.

Lemma existsb_user_has_id id us :
  existsb (user_has_id id) us = true <-> In id (map u_ID us).
Proof.
  rewrite existsb_exists, in_map_iff. unfold user_has_id.
  split; intros (u & H1 & H2).
  - exists u. split; auto. now apply uuid_eqb_eq.
  - exists u. split; auto. now apply uuid_eqb_eq.
Qed.

Lemma existsb_row_has_id id ps :
  existsb (row_has_id id) ps = true <-> In id (map row_id ps).
Proof.
  rewrite existsb_exists, in_map_iff. unfold row_has_id.
  split; intros (p & H1 & H2).
  - exists p. split; auto. now apply String.eqb_eq.
  - exists p. split; auto. now apply String.eqb_eq.
Qed.

Lemma existsb_uuid id ids : existsb (uuid_eqb id) ids = true <-> In id ids.
Proof.
  rewrite existsb_exists. split.
  - intros (x & H1 & H2). apply uuid_eqb_eq in H2. now subst.
  - intros H. exists id. split; auto. now apply uuid_eqb_eq.
Qed.

Lemma find_user id us u :
  find (user_has_id id) us = Some u -> In u us /\ u_ID u = id.
Proof.
  intros H. apply find_some in H. destruct H as [H1 H2].
  split; auto. now apply uuid_eqb_eq.
Qed.

Lemma find_user_None id us :
  find (user_has_id id) us = None -> ~ In id (map u_ID us).
Proof.
  intros H Hin. apply in_map_iff in Hin. destruct Hin as (u & Hu & Hin).
  apply (find_none _ _ H) in Hin. unfold user_has_id in Hin.
  apply uuid_eqb_neq in Hin. auto.
Qed.

Lemma find_row id ps r :
  find (row_has_id id) ps = Some r -> In r ps /\ row_id r = id.
Proof.
  intros H. apply find_some in H. destruct H as [H1 H2].
  split; auto. now apply String.eqb_eq.
Qed.

Lemma find_row_None id ps :
  find (row_has_id id) ps = None <-> existsb (row_has_id id) ps = false.
Proof.
  induction ps as [|p ps IH]; simpl; [tauto|].
  destruct (row_has_id id p); simpl; [split; discriminate | exact IH].
Qed.

Lemma is_row_true id r x : is_row id r x = true <-> x = (id, r).
Proof.
  unfold is_row. destruct x as [a b]. simpl.
  rewrite andb_true_iff, String.eqb_eq, uuid_eqb_eq.
  split; [intros [-> ->]; reflexivity | intros H; inversion H; auto].
Qed.

Lemma In_reviewers_of db id r :
  In r (reviewers_of db id) <-> In (id, r) (pull_request_reviewers db).
Proof.
  unfold reviewers_of. rewrite in_map_iff. split.
  - intros ([a b] & Hb & Hin). apply filter_In in Hin. destruct Hin as [Hin Ha].
    unfold reviewer_of in Ha. simpl in *. apply String.eqb_eq in Ha. now subst.
  - intros Hin. exists (id, r). split; auto. apply filter_In. split; auto.
    unfold reviewer_of. simpl. apply String.eqb_refl.
Qed.

(** The number of rows a [DELETE] removes is zero exactly when no row
    matches. *)
Lemma filter_length_all {A} (g : A -> bool) l :
  length (filter g l) = length l <-> forall x, In x l -> g x = true.
Proof.
  induction l as [|a l IH].
  - simpl. split; [intros _ x []|auto].
  - pose proof (filter_length_le g l) as Hle.
    cbn [filter]. destruct (g a) eqn:Ha; cbn [length].
    + split.
      * intros H x [<-|Hx]; auto. apply IH; auto.
      * intros H. f_equal. apply IH. intros x Hx. apply H. now right.
    + split; [lia|]. intros H. specialize (H a (or_introl eq_refl)). congruence.
Qed.

Lemma filter_negb_length {A} (f : A -> bool) l :
  length l - length (filter (fun x => negb (f x)) l) = 0 <->
  forall x, In x l -> f x = false.
Proof.
  pose proof (filter_length_le (fun x => negb (f x)) l) as Hle.
  pose proof (filter_length_all (fun x => negb (f x)) l) as Hall.
  split.
  - intros H x Hx. apply negb_true_iff. apply Hall; [lia|exact Hx].
  - intros H. assert (E : length (filter (fun x => negb (f x)) l) = length l).
    { apply Hall. intros x Hx. apply negb_true_iff. auto. }
    lia.
Qed.

Lemma filter_length_zero {A} (f : A -> bool) l :
  length (filter f l) = 0 <-> forall x, In x l -> f x = false.
Proof.
  induction l as [|a l IH]; simpl.
  - split; auto. intros _ x [].
  - destruct (f a) eqn:Ha; simpl.
    + split; [discriminate|]. intros H. specialize (H a (or_introl eq_refl)). congruence.
    + rewrite IH. split.
      * intros H x [<-|Hx]; auto.
      * intros H x Hx. apply H. now right.
Qed.

(** *** users *)

Lemma upsert_user_ids us u id :
  In id (map u_ID (upsert_user us u)) <-> id = u_ID u \/ In id (map u_ID us).
Proof.
  induction us as [|x t IH]; simpl.
  - intuition.
  - destruct (user_has_id (u_ID u) x) eqn:Hx; simpl.
    + unfold user_has_id in Hx. apply uuid_eqb_eq in Hx. rewrite Hx. intuition.
    + rewrite IH. intuition.
Qed.

Lemma upsert_user_NoDup us u :
  NoDup (map u_ID us) -> NoDup (map u_ID (upsert_user us u)).
Proof.
  induction us as [|x t IH]; simpl; intros H.
  - constructor; [intros []|constructor].
  - inversion H as [|? ? Hnin Hnd]; subst.
    destruct (user_has_id (u_ID u) x) eqn:Hx; simpl.
    + unfold user_has_id in Hx. apply uuid_eqb_eq in Hx. rewrite <- Hx.
      now constructor.
    + constructor; [|now apply IH].
      rewrite upsert_user_ids. intros [E|Hin]; [|contradiction].
      unfold user_has_id in Hx. apply uuid_eqb_neq in Hx. auto.
Qed.

Lemma upsert_user_In us u x :
  In x (upsert_user us u) -> x = u \/ In x us.
Proof.
  induction us as [|y t IH]; simpl.
  - intuition.
  - destruct (user_has_id (u_ID u) y); simpl; intuition.
Qed.

Lemma upsert_user_new us u : In u (upsert_user us u).
Proof.
  induction us as [|y t IH]; simpl; [auto|].
  destruct (user_has_id (u_ID u) y); simpl; auto.
Qed.

Lemma upsert_user_keeps us u x :
  In x us -> In x (upsert_user us u) \/ u_ID x = u_ID u.
Proof.
  induction us as [|y t IH]; simpl; [tauto|].
  intros [->|Hin].
  - destruct (user_has_id (u_ID u) x) eqn:Hx; simpl; auto.
    right. now apply uuid_eqb_eq.
  - destruct (user_has_id (u_ID u) y); simpl; [auto|].
    destruct (IH Hin); auto.
Qed.

(** What the loop of [CreateTeamWithMembersTx] does to the tables. *)
Lemma save_members_effect db teamName members db' :
  save_members db teamName members = Some db' ->
  teams db' = teams db /\
  pull_requests db' = pull_requests db /\
  pull_request_reviewers db' = pull_request_reviewers db /\
  (NoDup (map u_ID (users db)) -> NoDup (map u_ID (users db'))) /\
  (forall id, In id (map u_ID (users db)) -> In id (map u_ID (users db'))) /\
  (forall x, In x (users db') -> In x (users db) \/ u_TeamName x = teamName) /\
  (forall m, In m members ->
     exists x, In x (users db') /\ u_ID x = u_ID m /\ u_TeamName x = teamName) /\
  (forall x, In x (users db) -> u_TeamName x = teamName ->
     exists y, In y (users db') /\ u_ID y = u_ID x /\ u_TeamName y = teamName).
Proof.
  revert db; induction members as [|m rest IH]; simpl; intros db H.
  - inversion H; subst. repeat split; auto.
    + intros m [].
    + intros x Hx Ht. exists x. auto.
  - unfold exec_saveUserQuery in H. simpl in H.
    destruct (team_known db teamName); [|discriminate].
    set (m' := mkUser (u_ID m) (u_Username m) (u_IsActive m) teamName) in *.
    apply IH in H. simpl in H.
    destruct H as (Ht & Hp & Hr & Hnd & Hids & Hrows & Hmem & Hkeep).
    repeat split; auto.
    + intros Hd. apply Hnd. now apply upsert_user_NoDup.
    + intros id Hid. apply Hids. apply upsert_user_ids. now right.
    + intros x Hx. destruct (Hrows x Hx) as [Hin|Ht']; auto.
      apply upsert_user_In in Hin. destruct Hin as [->|Hin]; auto.
    + intros m0 [<-|Hin]; [|now apply Hmem].
      destruct (Hkeep m' (upsert_user_new _ _) eq_refl) as (y & Hy1 & Hy2 & Hy3).
      exists y. auto.
    + intros x Hx Hxt.
      destruct (upsert_user_keeps (users db) m' x Hx) as [Hin|Heq].
      * now apply Hkeep.
      * destruct (Hkeep m' (upsert_user_new _ _) eq_refl) as (y & Hy1 & Hy2 & Hy3).
        exists y. repeat split; auto. now rewrite Heq.
Qed.

(** ** The service functions, case by case *)

Ltac unfold_m :=
  unfold bind, on_err, read, fail, ret, call_getRandomReviewers in *.

Lemma StatusPR_eqb_eq a b : StatusPR_eqb a b = true <-> a = b.
Proof. destruct a, b; simpl; split; congruence. Qed.

Lemma copy_reviewers_effect db id ids db' :
  copy_reviewers db id ids = Some db' ->
  db' = set_pull_request_reviewers db
          (pull_request_reviewers db ++ map (pair id) ids).
Proof.
  revert db; induction ids as [|r rest IH]; simpl; intros db H.
  - inversion H; subst. rewrite app_nil_r. now destruct db'.
  - unfold exec_insertSpecificReviewerQuery in H.
    destruct (reviewer_row_ok db id r); [|discriminate].
    apply IH in H. subst db'. unfold set_pull_request_reviewers. simpl.
    now rewrite <- app_assoc.
Qed.

(** A reassignment either succeeds, and then every check of the service
    has passed and the store holds the traded rows, or leaves the store as
    it was: the read that follows the commit finds the pull request, a
    query failing here for no other reason than what the store holds. *)
Lemma ReassignmentReviewers_inv rnd prID oldUserID db db' res :
  PullRequestService_ReassignmentReviewers rnd prID oldUserID db = (db', res) ->
  match res with
  | Ok (updated, newUserID) =>
      exists r author users' rest,
        find (row_has_id prID) (pull_requests db) = Some r /\
        row_status r = StatusOpen /\
        find (user_has_id (row_author_id r)) (users db) = Some author /\
        u_ID author <> oldUserID /\
        getRandomReviewers rnd
          (filter (active_member (u_TeamName author)
                     (reviewers_of db prID ++ [u_ID author])) (users db))
          countReassignReviewer = Some (users', newUserID :: rest) /\
        In (prID, oldUserID) (pull_request_reviewers db) /\
        db' = set_pull_request_reviewers db (reassigned_rows db prID oldUserID newUserID) /\
        PullRequestRepository_GetPRByID prID db' = Ok updated
  | _ => db' = db
  end.
Proof.
  unfold PullRequestService_ReassignmentReviewers, UserService_GetUserByID,
    UserService_GetActiveTeamMembers, PullRequestRepository_Exists,
    UserRepository_GetUserByID, UserRepository_GetActiveTeamMembers,
    PullRequestRepository_ReassignReviewer.
  unfold_m. cbn [negb].
  destruct (existsb (row_has_id prID) (pull_requests db)) eqn:Hex; cbn [negb fst snd];
    [|intros H; inversion H; reflexivity].
  unfold PullRequestRepository_GetPRByID at 1.
  destruct (find (row_has_id prID) (pull_requests db)) as [r|] eqn:Hr;
    cbn [fst snd pr_Status pr_AuthorID pr_AssignedReviewers];
    [|intros H; inversion H; reflexivity].
  destruct (StatusPR_eqb (row_status r) StatusMerged) eqn:Hst;
    [intros H; inversion H; reflexivity|].
  destruct (uuid_eqb (row_author_id r) uuid_Nil) eqn:Hnil;
    [intros H; inversion H; reflexivity|].
  destruct (find (user_has_id (row_author_id r)) (users db)) as [author|] eqn:Hau;
    [|intros H; inversion H; reflexivity].
  destruct (uuid_eqb (u_ID author) oldUserID) eqn:Hold;
    [intros H; inversion H; reflexivity|].
  destruct (String.eqb (u_TeamName author) "") eqn:Hteam;
    [intros H; inversion H; reflexivity|].
  destruct (getRandomReviewers rnd _ countReassignReviewer) as [[users' ids]|] eqn:Hsel;
    [|intros H; inversion H; reflexivity].
  destruct ids as [|newUserID rest]; [intros H; inversion H; reflexivity|].
  cbn [ra_PullRequestID ra_OldUserID ra_NewUserID].
  destruct (_ =? 0) eqn:Hrows; [intros H; inversion H; reflexivity|].
  unfold exec_insertSpecificReviewerQuery.
  destruct (reviewer_row_ok _ prID newUserID) eqn:Hok;
    [|intros H; inversion H; reflexivity].
  cbn [pull_request_reviewers set_pull_request_reviewers users teams pull_requests].
  match goal with
  | |- context [PullRequestRepository_GetPRByID prID ?d] =>
      destruct (PullRequestRepository_GetPRByID prID d) as [updated| |] eqn:Hget
  end;
    try (unfold PullRequestRepository_GetPRByID in Hget;
         cbn [pull_requests set_pull_request_reviewers] in Hget;
         rewrite Hr in Hget; discriminate).
  intros H; inversion H; subst.
  exists r, author, users', rest.
  repeat split; auto.
  - destruct (row_status r); [reflexivity|discriminate].
  - now apply uuid_eqb_neq.
  - apply Nat.eqb_neq in Hrows.
    destruct (existsb (is_row prID oldUserID) (pull_request_reviewers db)) eqn:E.
    + apply existsb_exists in E. destruct E as (x & Hx & E).
      apply is_row_true in E. now subst.
    + exfalso. apply Hrows. apply filter_negb_length.
      intros x Hx. destruct (is_row prID oldUserID x) eqn:E'; [|reflexivity].
      assert (existsb (is_row prID oldUserID) (pull_request_reviewers db) = true)
        by (apply existsb_exists; eauto).
      congruence.
Qed.

Lemma CreatePR_inv rnd now prID prName authorID db db' res :
  PullRequestService_CreatePR rnd now prID prName authorID db = (db', res) ->
  match res with
  | Ok pr =>
      exists author users',
        existsb (row_has_id prID) (pull_requests db) = false /\
        authorID <> uuid_Nil /\
        find (user_has_id authorID) (users db) = Some author /\
        u_IsActive author = true /\
        u_TeamName author <> "" /\
        getRandomReviewers rnd
          (filter (active_member (u_TeamName author) [u_ID author]) (users db))
          countReviewers = Some (users', pr_AssignedReviewers pr) /\
        pr = mkPullRequest prID prName StatusOpen authorID (pr_AssignedReviewers pr) now None /\
        db' = mkDB (users db) (teams db)
                   (pull_requests db ++ [created_row now prID prName authorID])
                   (pull_request_reviewers db ++ map (pair prID) (pr_AssignedReviewers pr))
  | _ => db' = db
  end.
Proof.
  unfold PullRequestService_CreatePR, UserService_GetUserByID,
    UserService_GetActiveTeamMembers, PullRequestRepository_Exists,
    UserRepository_GetUserByID, UserRepository_GetActiveTeamMembers,
    PullRequestRepository_Create.
  unfold_m.
  destruct (existsb (row_has_id prID) (pull_requests db)) eqn:Hex;
    [intros H; inversion H; reflexivity|].
  destruct (uuid_eqb authorID uuid_Nil) eqn:Hnil;
    [intros H; inversion H; reflexivity|].
  destruct (find (user_has_id authorID) (users db)) as [author|] eqn:Hau;
    [|intros H; inversion H; reflexivity].
  destruct (u_IsActive author) eqn:Hact; cbn [negb];
    [|intros H; inversion H; reflexivity].
  destruct (String.eqb (u_TeamName author) "") eqn:Hteam;
    [intros H; inversion H; reflexivity|].
  destruct (getRandomReviewers rnd _ countReviewers) as [[users' ids]|] eqn:Hsel;
    [|intros H; inversion H; reflexivity].
  unfold exec_createPullRequestQuery.
  cbn [pr_ID pr_Name pr_Status pr_AuthorID pr_AssignedReviewers pr_CreatedAt].
  rewrite Hex.
  destruct (existsb (user_has_id authorID) (users db)) eqn:Hfk; cbn [negb];
    [|intros H; inversion H; reflexivity].
  destruct (0 <? length ids) eqn:Hlen.
  - destruct (copy_reviewers _ prID ids) as [db2|] eqn:Hcopy;
      intros H; inversion H; subst; [|reflexivity].
    apply copy_reviewers_effect in Hcopy. subst db'.
    exists author, users'. cbn [pr_AssignedReviewers].
    repeat split; auto.
    + now apply uuid_eqb_neq.
    + now apply String.eqb_neq.
  - intros H; inversion H; subst.
    apply Nat.ltb_ge in Hlen. destruct ids; [|simpl in Hlen; lia].
    exists author, users'. cbn [pr_AssignedReviewers].
    repeat split; auto.
    + now apply uuid_eqb_neq.
    + now apply String.eqb_neq.
    + unfold set_pull_requests. simpl. now rewrite app_nil_r.
Qed.

Lemma row_id_set_merged now id r : row_id (set_merged now id r) = row_id r.
Proof. unfold set_merged. now destruct (row_has_id id r). Qed.

Lemma row_author_id_set_merged now id r :
  row_author_id (set_merged now id r) = row_author_id r.
Proof. unfold set_merged. now destruct (row_has_id id r). Qed.

Lemma find_set_merged now id id' ps :
  find (row_has_id id) (map (set_merged now id') ps) =
  option_map (set_merged now id') (find (row_has_id id) ps).
Proof.
  induction ps as [|p ps IH]; simpl; [reflexivity|].
  unfold row_has_id at 1. rewrite row_id_set_merged.
  fold (row_has_id id p). destruct (row_has_id id p); simpl; auto.
Qed.

Lemma SetMerge_inv now prID db db' res :
  PullRequestService_SetMerge now prID db = (db', res) ->
  match res with
  | Ok pr =>
      existsb (row_has_id prID) (pull_requests db) = true /\
      db' = set_pull_requests db (map (set_merged now prID) (pull_requests db)) /\
      PullRequestRepository_GetPRByID prID db' = Ok pr
  | _ => db' = db
  end.
Proof.
  unfold PullRequestService_SetMerge, PullRequestRepository_Exists,
    PullRequestRepository_SetMerge.
  unfold_m.
  destruct (existsb (row_has_id prID) (pull_requests db)) eqn:Hex; cbn [negb];
    [|intros H; inversion H; reflexivity].
  destruct (_ =? 0) eqn:Hrows; [intros H; inversion H; reflexivity|].
  match goal with
  | |- context [PullRequestRepository_GetPRByID prID ?d] =>
      destruct (PullRequestRepository_GetPRByID prID d) as [pr| |] eqn:Hget
  end.
  - intros H; inversion H; subst. auto.
  - exfalso. unfold PullRequestRepository_GetPRByID in Hget.
    cbn [pull_requests set_pull_requests] in Hget.
    rewrite find_set_merged in Hget.
    destruct (find (row_has_id prID) (pull_requests db)) eqn:Hf; [discriminate|].
    apply find_row_None in Hf. congruence.
  - exfalso. unfold PullRequestRepository_GetPRByID in Hget.
    destruct (find _ _); discriminate.
Qed.

Lemma SetIsActive_effect id isActive db :
  fst (UserService_SetIsActive id isActive db) = db \/
  fst (UserService_SetIsActive id isActive db) =
    set_users db (map (set_is_active isActive id) (users db)).
Proof.
  unfold UserService_SetIsActive, UserRepository_SetIsActive, UserRepository_GetUserByID.
  unfold_m.
  destruct (uuid_eqb id uuid_Nil); [now left|].
  destruct (_ =? 0); [now left|].
  right. destruct (find _ _); reflexivity.
Qed.

Lemma CreateTeamWithMembers_inv team db db' res :
  TeamService_CreateTeamWithMembers team db = (db', res) ->
  match res with
  | Ok t =>
      t = team /\ t_Name team <> "" /\
      save_members (set_teams db (teams db ++ [t_Name team]))
                   (t_Name team) (t_Members team) = Some db'
  | _ => db' = db
  end.
Proof.
  unfold TeamService_CreateTeamWithMembers, TeamRepository_ExistsTeam,
    Store_CreateTeamWithMembersTx, exec_saveTeamQuery.
  unfold_m.
  destruct (String.eqb (t_Name team) "") eqn:Hname;
    [intros H; inversion H; reflexivity|].
  destruct (length (t_Members team) =? 0);
    [intros H; inversion H; reflexivity|].
  destruct (team_known db (t_Name team)) eqn:Hknown;
    [intros H; inversion H; reflexivity|].
  cbv beta iota. rewrite Hknown.
  destruct (save_members _ _ _) as [db2|] eqn:Hsave;
    intros H; inversion H; subst; [|reflexivity].
  repeat split; auto. now apply String.eqb_neq.
Qed.

(** ** The invariant of the store *)

Lemma active_member_In teamName excludeIDs us u :
  In u (filter (active_member teamName excludeIDs) us) ->
  In u us /\ u_TeamName u = teamName /\ u_IsActive u = true /\ ~ In (u_ID u) excludeIDs.
Proof.
  intros H. apply filter_In in H. destruct H as [Hin H].
  unfold active_member in H.
  apply andb_true_iff in H. destruct H as [H Hex].
  apply andb_true_iff in H. destruct H as [Ht Ha].
  repeat split; auto.
  - now apply String.eqb_eq.
  - intros C. apply existsb_uuid in C. rewrite C in Hex. discriminate.
Qed.

Lemma NoDup_map_filter {A B} (f : A -> B) (g : A -> bool) l :
  NoDup (map f l) -> NoDup (map f (filter g l)).
Proof.
  induction l as [|a l IH]; simpl; intros H; [constructor|].
  inversion H as [|? ? Hnin Hnd]; subst.
  destruct (g a); simpl; [|auto].
  constructor; [|auto].
  intros C. apply Hnin. apply in_map_iff in C. destruct C as (x & Hx & Hin).
  apply in_map_iff. exists x. split; auto. apply filter_In in Hin. tauto.
Qed.

Lemma NoDup_map_eq {A B} (f : A -> B) l x y :
  NoDup (map f l) -> In x l -> In y l -> f x = f y -> x = y.
Proof.
  induction l as [|a l IH]; simpl; intros Hnd Hx Hy E; [contradiction|].
  inversion Hnd as [|? ? Hnin Hnd']; subst.
  destruct Hx as [->|Hx], Hy as [->|Hy]; auto.
  - exfalso. apply Hnin. rewrite E. now apply in_map.
  - exfalso. apply Hnin. rewrite <- E. now apply in_map.
Qed.

Lemma NoDup_map_pair {A B} (a : A) (l : list B) : NoDup l -> NoDup (map (pair a) l).
Proof.
  induction 1 as [|x l Hnin Hnd IH]; simpl; constructor; auto.
  intros C. apply in_map_iff in C. destruct C as (y & E & Hy).
  inversion E; subst. contradiction.
Qed.

Lemma NoDup_app_disjoint {A} (l1 l2 : list A) :
  NoDup l1 -> NoDup l2 -> (forall x, In x l1 -> ~ In x l2) -> NoDup (l1 ++ l2).
Proof.
  induction l1 as [|a l1 IH]; simpl; intros H1 H2 Hd; auto.
  inversion H1 as [|? ? Hnin Hnd]; subst.
  constructor.
  - intros C. apply in_app_or in C. destruct C as [C|C]; [auto|].
    apply (Hd a); auto.
  - apply IH; auto.
Qed.

Lemma map_u_ID_set_is_active isActive id us :
  map u_ID (map (set_is_active isActive id) us) = map u_ID us.
Proof.
  rewrite map_map. apply map_ext. intros u. unfold set_is_active.
  now destruct (user_has_id id u).
Qed.

Lemma map_row_id_set_merged now id ps :
  map row_id (map (set_merged now id) ps) = map row_id ps.
Proof. rewrite map_map. apply map_ext. intros p. apply row_id_set_merged. Qed.

Lemma db_inv_empty : db_inv empty_db.
Proof.
  constructor; simpl; try (intros ? []); constructor.
Qed.

Lemma db_inv_CreateTeam team db :
  db_inv db -> db_inv (fst (TeamService_CreateTeamWithMembers team db)).
Proof.
  intros Hinv.
  destruct (TeamService_CreateTeamWithMembers team db) as [db' res] eqn:E.
  apply CreateTeamWithMembers_inv in E. simpl.
  destruct res as [t| |]; try (subst; exact Hinv).
  destruct E as (_ & Hname & Hsave).
  apply save_members_effect in Hsave. simpl in Hsave.
  destruct Hsave as (Ht & Hp & Hr & Hnd & Hids & Hrows & _ & _).
  destruct Hinv as [I1 I2 I3 I4 I5 I6 I7].
  constructor; rewrite ?Hp, ?Hr; auto.
  - intros u Hu. destruct (Hrows u Hu) as [Hin|Hteam]; auto. now rewrite Hteam.
  - intros p Hp'. destruct (I3 p Hp'). split; auto.
Qed.

Lemma db_inv_SetIsActive id isActive db :
  db_inv db -> db_inv (fst (UserService_SetIsActive id isActive db)).
Proof.
  intros Hinv.
  destruct (SetIsActive_effect id isActive db) as [E|E]; rewrite E; [exact Hinv|].
  destruct Hinv as [I1 I2 I3 I4 I5 I6 I7].
  constructor; simpl; auto.
  - now rewrite map_u_ID_set_is_active.
  - intros u Hu. apply in_map_iff in Hu. destruct Hu as (x & <- & Hx).
    unfold set_is_active. destruct (user_has_id id x); simpl; auto.
  - intros p Hp. rewrite map_u_ID_set_is_active. auto.
Qed.

Lemma db_inv_SetMerge now prID db :
  db_inv db -> db_inv (fst (PullRequestService_SetMerge now prID db)).
Proof.
  intros Hinv.
  destruct (PullRequestService_SetMerge now prID db) as [db' res] eqn:E.
  apply SetMerge_inv in E. simpl.
  destruct res as [pr| |]; try (subst; exact Hinv).
  destruct E as (_ & -> & _).
  destruct Hinv as [I1 I2 I3 I4 I5 I6 I7].
  constructor; simpl; rewrite ?map_row_id_set_merged; auto.
  - intros p Hp. apply in_map_iff in Hp. destruct Hp as (x & <- & Hx).
    rewrite row_author_id_set_merged. auto.
  - intros p Hp. apply in_map_iff in Hp. destruct Hp as (x & <- & Hx).
    rewrite row_id_set_merged, row_author_id_set_merged. auto.
Qed.

Lemma db_inv_CreatePR rnd now prID prName authorID db :
  db_inv db -> db_inv (fst (PullRequestService_CreatePR rnd now prID prName authorID db)).
Proof.
  intros Hinv.
  destruct (PullRequestService_CreatePR rnd now prID prName authorID db) as [db' res] eqn:E.
  apply CreatePR_inv in E. simpl.
  destruct res as [pr| |]; try (subst; exact Hinv).
  destruct E as (author & users' & Hex & Hnil & Hau & Hact & Hteam & Hsel & Hpr & ->).
  destruct Hinv as [I1 I2 I3 I4 I5 I6 I7].
  apply find_user in Hau. destruct Hau as [Hauin Hauid].
  assert (Hfresh : ~ In prID (map row_id (pull_requests db))).
  { intros C. apply existsb_row_has_id in C. congruence. }
  assert (Hself : ~ In authorID (pr_AssignedReviewers pr)).
  { intros C. destruct (getRandomReviewers_In _ _ _ _ _ _ Hsel C) as (u & Hu & Hid).
    apply active_member_In in Hu. destruct Hu as (_ & _ & _ & Hnot).
    apply Hnot. left. congruence. }
  constructor; simpl; auto.
  - intros p Hp. apply in_app_or in Hp. destruct Hp as [Hp|[<-|[]]]; auto.
    simpl. split; auto. rewrite <- Hauid. now apply in_map.
  - rewrite map_app. simpl. apply NoDup_app_disjoint; auto.
    + constructor; [intros []|constructor].
    + intros x Hx [<-|[]]. contradiction.
  - intros x Hx. rewrite map_app. apply in_or_app.
    apply in_app_or in Hx. destruct Hx as [Hx|Hx]; [left; auto|].
    right. apply in_map_iff in Hx. destruct Hx as (i & <- & _). simpl. now left.
  - apply NoDup_app_disjoint; auto.
    + apply NoDup_map_pair. eapply getRandomReviewers_NoDup; [exact Hsel|].
      now apply NoDup_map_filter.
    + intros x Hx C. apply in_map_iff in C. destruct C as (i & <- & _).
      apply I5 in Hx. contradiction.
  - intros p Hp C. apply in_app_or in Hp. apply in_app_or in C.
    destruct Hp as [Hp|[<-|[]]].
    + destruct C as [C|C]; [now apply (I7 p)|].
      apply in_map_iff in C. destruct C as (i & Hi & _).
      inversion Hi as [[E1 E2]]. apply Hfresh. rewrite E1. now apply in_map.
    + simpl in C. destruct C as [C|C].
      * apply I5 in C. simpl in C. contradiction.
      * apply in_map_iff in C. destruct C as (i & Hi & Hin). inversion Hi; subst.
        contradiction.
Qed.

Lemma db_inv_Reassign rnd prID oldUserID db :
  db_inv db ->
  db_inv (fst (PullRequestService_ReassignmentReviewers rnd prID oldUserID db)).
Proof.
  intros Hinv.
  destruct (PullRequestService_ReassignmentReviewers rnd prID oldUserID db)
    as [db' res] eqn:E.
  apply ReassignmentReviewers_inv in E. simpl.
  destruct res as [[updated newUserID]| |]; try (subst; exact Hinv).
  destruct E as (r & author & users' & rest & Hr & Hopen & Hau & Hold & Hsel & Hin & -> & _).
  destruct Hinv as [I1 I2 I3 I4 I5 I6 I7].
  apply find_row in Hr. destruct Hr as [Hrin Hrid].
  apply find_user in Hau. destruct Hau as [Hauin Hauid].
  assert (Hnew : ~ In newUserID (reviewers_of db prID ++ [u_ID author])).
  { destruct (getRandomReviewers_In _ _ _ _ _ newUserID Hsel (or_introl eq_refl))
      as (u & Hu & Hid).
    apply active_member_In in Hu. destruct Hu as (_ & _ & _ & Hnot). now rewrite <- Hid. }
  unfold reassigned_rows.
  constructor; simpl; auto.
  - intros x Hx. apply in_app_or in Hx. destruct Hx as [Hx|[<-|[]]].
    + apply filter_In in Hx. apply I5. tauto.
    + simpl. rewrite <- Hrid. now apply in_map.
  - apply NoDup_app_disjoint.
    + now apply NoDup_filter.
    + constructor; [intros []|constructor].
    + intros x Hx [<-|[]]. apply filter_In in Hx. destruct Hx as [Hx _].
      apply Hnew. apply in_or_app. left. now apply In_reviewers_of.
  - intros p Hp C. apply in_app_or in C. destruct C as [C|[C|[]]].
    + apply filter_In in C. apply (I7 p Hp). tauto.
    + inversion C; subst.
      assert (p = r) by (eapply NoDup_map_eq; eauto). subst p.
      apply Hnew. apply in_or_app. right. left. congruence.
Qed.

Lemma db_inv_exec c db : db_inv db -> db_inv (exec c db).
Proof.
  destruct c; simpl.
  - apply db_inv_CreateTeam.
  - apply db_inv_SetIsActive.
  - apply db_inv_CreatePR.
  - apply db_inv_Reassign.
  - apply db_inv_SetMerge.
Qed.

Lemma db_inv_run cs db : db_inv db -> db_inv (run cs db).
Proof.
  revert db; induction cs as [|c cs IH]; simpl; intros db H; auto.
  apply IH. now apply db_inv_exec.
Qed.

Lemma reachable_inv db : reachable db -> db_inv db.
Proof.
  intros [cs ->]. apply db_inv_run, db_inv_empty.
Qed.


(** ** The candidate selector *)

(** C7.  For every list of candidates and every requested count (a count
    is not negative), the selector returns: it gives exactly
    [min count (length candidates)] ids, which are the ids of that many of
    the candidates given (each candidate used at most once); for the empty
    list the answer is the empty list and no error, and for a list shorter
    than the count the answer holds the ids of all its members. *)
Theorem getRandomReviewers_min_count rnd users count :
  (0 <= count)%Z ->
  exists users' ids,
    getRandomReviewers rnd users count = Some (users', ids) /\
    Z.of_nat (length ids) = Z.min count (Z.of_nat (length users)) /\
    (forall id, In id ids -> exists u, In u users /\ u_ID u = id) /\
    (exists others, Permutation (ids ++ others) (map u_ID users)) /\
    (users = [] -> ids = []) /\
    ((Z.of_nat (length users) < count)%Z -> Permutation ids (map u_ID users)).
Proof.
  intros Hc.
  destruct (getRandomReviewers_total rnd users count Hc) as (users' & ids & H).
  exists users', ids. split; [exact H|].
  pose proof (getRandomReviewers_Some _ _ _ _ _ H) as (HP & n & Hids & Hn & Hn0).
  assert (Hlen : length users' = length users) by now apply Permutation_length.
  assert (Hcount : Z.of_nat (length ids) = Z.min count (Z.of_nat (length users))).
  { subst ids. rewrite length_map, length_firstn, Hlen.
    destruct users as [|u us].
    - rewrite (Hn0 eq_refl). simpl. lia.
    - assert (Hne : u :: us <> []) by discriminate. specialize (Hn Hne). lia. }
  split; [exact Hcount|].
  split; [intros id Hid; eapply getRandomReviewers_In; eauto|].
  split.
  { exists (map u_ID (skipn n users')). subst ids.
    rewrite <- map_app, firstn_skipn. now apply Permutation_map. }
  split.
  { intros ->. destruct ids; [reflexivity|]. simpl in Hcount. lia. }
  intros Hshort. subst ids.
  assert (Hall : length users <= n).
  { rewrite length_map, length_firstn, Hlen in Hcount. lia. }
  rewrite firstn_all2 by lia. now apply Permutation_map.
Qed.

(** C8, as the code has it.  The selector shuffles the slice it is given
    in place: whenever it returns, what the caller's slice holds afterwards
    is a rearrangement of what it held before (same elements, each as many
    times, the order possibly different), and a slice of at most one element
    is left exactly as it was. *)
Theorem getRandomReviewers_rearranges_input rnd users count users' ids :
  getRandomReviewers rnd users count = Some (users', ids) ->
  Permutation users users' /\
  length users' = length users /\
  (length users <= 1 -> users' = users).
Proof.
  intros H.
  pose proof (getRandomReviewers_Some _ _ _ _ _ H) as (HP & _).
  split; [now apply Permutation_sym|].
  split; [now apply Permutation_length|].
  intros Hshort. unfold getRandomReviewers in H.
  destruct (length users =? 0); [now inversion H|].
  rewrite (Shuffle_short rnd users Hshort) in H.
  destruct (_ <? 0)%Z; [discriminate|]. now inversion H.
Qed.


(** ** Reviewers and authors *)

(** In a store that satisfies the invariant, no pull request read back by
    [GetPRByID] lists its author among its reviewers. *)
Lemma GetPRByID_no_self_review db id pr :
  db_inv db ->
  PullRequestRepository_GetPRByID id db = Ok pr ->
  ~ In (pr_AuthorID pr) (pr_AssignedReviewers pr).
Proof.
  intros Hinv H. unfold PullRequestRepository_GetPRByID in H.
  destruct (find (row_has_id id) (pull_requests db)) as [r|] eqn:Hr; [|discriminate].
  inversion H; subst; simpl.
  apply find_row in Hr. destruct Hr as [Hin Hid].
  rewrite In_reviewers_of, <- Hid. now apply (inv_no_self_review db Hinv).
Qed.

Lemma find_app_fresh {A} (f : A -> bool) l x :
  find f l = None -> f x = true -> find f (l ++ [x]) = Some x.
Proof.
  induction l as [|a l IH]; simpl; intros Hn Hx.
  - now rewrite Hx.
  - destruct (f a); [discriminate|auto].
Qed.

Lemma find_app_old {A} (f : A -> bool) l l' x :
  find f l = Some x -> find f (l ++ l') = Some x.
Proof.
  induction l as [|a l IH]; simpl; intros H; [discriminate|].
  destruct (f a); auto.
Qed.

Lemma filter_none {A} (f : A -> bool) l :
  (forall x, In x l -> f x = false) -> filter f l = [].
Proof.
  induction l as [|a l IH]; simpl; intros H; [reflexivity|].
  rewrite (H a (or_introl eq_refl)). apply IH. intros x Hx. apply H. now right.
Qed.

Lemma filter_all {A} (f : A -> bool) l :
  (forall x, In x l -> f x = true) -> filter f l = l.
Proof.
  induction l as [|a l IH]; simpl; intros H; [reflexivity|].
  rewrite (H a (or_introl eq_refl)). f_equal. apply IH. intros x Hx. apply H. now right.
Qed.

(** What the store holds once [CreatePR] has succeeded, provided no
    reviewer row was waiting for the id: the pull request handed back,
    its creation time cut down to the microsecond. *)
Lemma CreatePR_stored rnd now prID prName authorID db db' pr :
  (forall x, In x (pull_request_reviewers db) ->
             In (fst x) (map row_id (pull_requests db))) ->
  PullRequestService_CreatePR rnd now prID prName authorID db = (db', Ok pr) ->
  PullRequestRepository_GetPRByID prID db'
  = Ok (mkPullRequest prID prName StatusOpen authorID (pr_AssignedReviewers pr)
          (timestamptz now) None).
Proof.
  intros Hfk H. apply CreatePR_inv in H.
  destruct H as (author & users' & Hex & _ & _ & _ & _ & _ & Hpr & ->).
  unfold PullRequestRepository_GetPRByID. cbn [pull_requests].
  rewrite (find_app_fresh (row_has_id prID) (pull_requests db)
             (created_row now prID prName authorID)).
  - unfold reviewers_of. cbn [pull_request_reviewers created_row row_id row_name
      row_status row_author_id row_created_at row_merged_at].
    rewrite filter_app, map_app.
    rewrite (filter_none (reviewer_of prID) (pull_request_reviewers db)).
    + rewrite filter_all.
      * rewrite map_map. simpl. rewrite map_id. reflexivity.
      * intros x Hx. apply in_map_iff in Hx. destruct Hx as (i & <- & _).
        unfold reviewer_of. simpl. apply String.eqb_refl.
    + intros x Hx. destruct (reviewer_of prID x) eqn:E; [|reflexivity].
      unfold reviewer_of in E. apply String.eqb_eq in E.
      apply Hfk in Hx. rewrite E in Hx. apply existsb_row_has_id in Hx. congruence.
  - now apply find_row_None.
  - unfold row_has_id, created_row. simpl. apply String.eqb_refl.
Qed.

(** C1.  In every state the service can reach, a successful [CreatePR]
    and a successful [ReassignmentReviewers] hand back a pull request whose
    author is not among its assigned reviewers, and so it is of the pull
    request the store holds afterwards.  After [CreatePR] the store holds,
    under the id given, a pull request of the author given whose reviewers
    are those handed back, in whatever order they are read, none of them
    the author; after [ReassignmentReviewers] what is handed back is what
    the store was read to hold. *)
Theorem author_is_never_reviewer db :
  reachable db ->
  (forall rnd now prID prName authorID db' pr,
     PullRequestService_CreatePR rnd now prID prName authorID db = (db', Ok pr) ->
     pr_AuthorID pr = authorID /\
     ~ In (pr_AuthorID pr) (pr_AssignedReviewers pr) /\
     exists stored,
       PullRequestRepository_GetPRByID prID db' = Ok stored /\
       pr_AuthorID stored = authorID /\
       Permutation (pr_AssignedReviewers stored) (pr_AssignedReviewers pr) /\
       ~ In (pr_AuthorID stored) (pr_AssignedReviewers stored)) /\
  (forall rnd prID oldUserID db' updated newUserID,
     PullRequestService_ReassignmentReviewers rnd prID oldUserID db
       = (db', Ok (updated, newUserID)) ->
     ~ In (pr_AuthorID updated) (pr_AssignedReviewers updated) /\
     PullRequestRepository_GetPRByID prID db' = Ok updated).
Proof.
  intros Hreach. pose proof (reachable_inv db Hreach) as Hinv. split.
  - intros rnd now prID prName authorID db' pr H.
    pose proof (CreatePR_stored rnd now prID prName authorID db db' pr
                  (inv_reviewer_pr db Hinv) H) as Hst.
    assert (Hinv' : db_inv db').
    { pose proof (db_inv_CreatePR rnd now prID prName authorID db Hinv) as Hi.
      now rewrite H in Hi. }
    pose proof (GetPRByID_no_self_review db' prID _ Hinv' Hst) as Hself.
    cbn [pr_AuthorID pr_AssignedReviewers] in Hself.
    assert (Hau : pr_AuthorID pr = authorID).
    { apply CreatePR_inv in H. destruct H as (? & ? & _ & _ & _ & _ & _ & _ & -> & _).
      reflexivity. }
    split; [exact Hau|]. split; [now rewrite Hau|].
    eexists. split; [exact Hst|]. cbn [pr_AuthorID pr_AssignedReviewers].
    split; [reflexivity|]. split; [apply Permutation_refl|exact Hself].
  - intros rnd prID oldUserID db' updated newUserID H.
    assert (Hinv' : db_inv db').
    { pose proof (db_inv_Reassign rnd prID oldUserID db Hinv) as Hi.
      now rewrite H in Hi. }
    apply ReassignmentReviewers_inv in H.
    destruct H as (r & author & users' & rest & _ & _ & _ & _ & _ & _ & _ & Hget).
    split; [|exact Hget].
    eapply GetPRByID_no_self_review; eauto.
Qed.

(** C5.  After a successful [ReassignmentReviewers] the new reviewer was
    not among the reviewers the pull request had before the call, is not
    its author, and is a user of the author's team whose [is_active] flag
    is set in the state the candidates were read from. *)
Theorem reassignment_picks_eligible rnd prID oldUserID db db' updated newUserID :
  PullRequestService_ReassignmentReviewers rnd prID oldUserID db
    = (db', Ok (updated, newUserID)) ->
  exists before author,
    PullRequestRepository_GetPRByID prID db = Ok before /\
    UserRepository_GetUserByID (pr_AuthorID before) db = Ok author /\
    ~ In newUserID (pr_AssignedReviewers before) /\
    newUserID <> pr_AuthorID before /\
    (exists u, In u (users db) /\ u_ID u = newUserID /\
               u_IsActive u = true /\ u_TeamName u = u_TeamName author) /\
    In newUserID (pr_AssignedReviewers updated).
Proof.
  intros H. apply ReassignmentReviewers_inv in H.
  destruct H as (r & author & users' & rest & Hr & Hopen & Hau & Hold & Hsel & Hin & -> & Hget).
  exists (mkPullRequest (row_id r) (row_name r) (row_status r) (row_author_id r)
            (reviewers_of db prID) (row_created_at r) (row_merged_at r)), author.
  unfold PullRequestRepository_GetPRByID at 1. unfold UserRepository_GetUserByID.
  rewrite Hr. cbn [pr_AuthorID pr_AssignedReviewers].
  rewrite Hau. split; [reflexivity|]. split; [reflexivity|].
  destruct (getRandomReviewers_In _ _ _ _ _ newUserID Hsel (or_introl eq_refl))
    as (u & Hu & Hid).
  apply active_member_In in Hu. destruct Hu as (Huin & Hteam & Hact & Hnot).
  apply find_user in Hau. destruct Hau as [_ Hauid].
  rewrite Hid in Hnot.
  repeat split.
  - intros C. apply Hnot. apply in_or_app. now left.
  - intros C. apply Hnot. apply in_or_app. right. left. congruence.
  - exists u. auto.
  - unfold PullRequestRepository_GetPRByID in Hget.
    cbn [pull_requests set_pull_request_reviewers] in Hget. rewrite Hr in Hget.
    inversion Hget; subst; simpl.
    apply In_reviewers_of. simpl. unfold reassigned_rows.
    apply in_or_app. right. now left.
Qed.


(** ** Reassignment, check by check *)

(** What [ReassignmentReviewers] does once the pull request is found open
    and its author resolved to somebody other than [oldUserID]. *)
Lemma ReassignmentReviewers_after_checks rnd prID oldUserID db r author :
  find (row_has_id prID) (pull_requests db) = Some r ->
  row_status r = StatusOpen ->
  row_author_id r <> uuid_Nil ->
  find (user_has_id (row_author_id r)) (users db) = Some author ->
  u_ID author <> oldUserID ->
  u_TeamName author <> "" ->
  PullRequestService_ReassignmentReviewers rnd prID oldUserID db =
  match getRandomReviewers rnd
          (filter (active_member (u_TeamName author)
                     (reviewers_of db prID ++ [u_ID author])) (users db))
          countReassignReviewer with
  | None => (db, Panicked)
  | Some (_, []) => (db, Err ErrNoCandidate)
  | Some (_, newUserID :: _) =>
      match PullRequestRepository_ReassignReviewer
              (mkReassignment prID oldUserID newUserID) db with
      | (db1, Ok _) =>
          match PullRequestRepository_GetPRByID prID db1 with
          | Ok updated => (db1, Ok (updated, newUserID))
          | Err e => (db1, Err (Errorf "failed to get updated pull request" e))
          | Panicked => (db1, Panicked)
          end
      | (db1, Err e) =>
          (db1, Err (if errors_Is e ErrUserNotAssigned then ErrUserNotAssigned
                     else Errorf "failed to update Pull request" e))
      | (db1, Panicked) => (db1, Panicked)
      end
  end.
Proof.
  intros Hr Hopen Hnil Hau Hold Hteam.
  unfold PullRequestService_ReassignmentReviewers, UserService_GetUserByID,
    UserService_GetActiveTeamMembers, PullRequestRepository_Exists,
    UserRepository_GetUserByID, UserRepository_GetActiveTeamMembers.
  unfold_m.
  assert (Hex : existsb (row_has_id prID) (pull_requests db) = true).
  { destruct (existsb (row_has_id prID) (pull_requests db)) eqn:E; [reflexivity|].
    apply find_row_None in E. congruence. }
  rewrite Hex. cbn [negb].
  unfold PullRequestRepository_GetPRByID at 1. rewrite Hr.
  cbn [pr_Status pr_AuthorID pr_AssignedReviewers]. rewrite Hopen. cbn [StatusPR_eqb].
  apply uuid_eqb_neq in Hnil. rewrite Hnil. rewrite Hau.
  apply uuid_eqb_neq in Hold. rewrite Hold.
  apply String.eqb_neq in Hteam. rewrite Hteam.
  destruct (getRandomReviewers rnd _ countReassignReviewer) as [[users' ids]|];
    [|reflexivity].
  destruct ids as [|newUserID rest]; [reflexivity|].
  destruct (PullRequestRepository_ReassignReviewer _ db) as [db1 [[]| |]];
    try reflexivity.
  destruct (PullRequestRepository_GetPRByID prID db1); reflexivity.
Qed.

Lemma ReassignReviewer_not_assigned prID oldUserID newUserID db :
  ~ In oldUserID (reviewers_of db prID) ->
  PullRequestRepository_ReassignReviewer (mkReassignment prID oldUserID newUserID) db
    = (db, Err ErrUserNotAssigned).
Proof.
  intros Hnot. unfold PullRequestRepository_ReassignReviewer.
  cbn [ra_PullRequestID ra_OldUserID ra_NewUserID].
  assert (E : length (pull_request_reviewers db) -
              length (filter (fun x => negb (is_row prID oldUserID x))
                             (pull_request_reviewers db)) = 0).
  { apply filter_negb_length. intros x Hx.
    destruct (is_row prID oldUserID x) eqn:Hrow; [|reflexivity].
    apply is_row_true in Hrow. subst x. exfalso. apply Hnot.
    now apply In_reviewers_of. }
  rewrite E. reflexivity.
Qed.

(** The repository either leaves the store alone or trades the two rows,
    and it trades them only when the row of [oldUserID] was there. *)
Lemma ReassignReviewer_effect reasReviewer db :
  fst (PullRequestRepository_ReassignReviewer reasReviewer db) = db \/
  (In (ra_OldUserID reasReviewer) (reviewers_of db (ra_PullRequestID reasReviewer)) /\
   PullRequestRepository_ReassignReviewer reasReviewer db =
     (set_pull_request_reviewers db
        (reassigned_rows db (ra_PullRequestID reasReviewer)
           (ra_OldUserID reasReviewer) (ra_NewUserID reasReviewer)), Ok tt)).
Proof.
  destruct reasReviewer as [prID oldUserID newUserID].
  cbn [ra_PullRequestID ra_OldUserID ra_NewUserID].
  destruct (existsb (uuid_eqb oldUserID) (reviewers_of db prID)) eqn:E.
  - apply existsb_uuid in E.
    unfold PullRequestRepository_ReassignReviewer.
    cbn [ra_PullRequestID ra_OldUserID ra_NewUserID].
    destruct (_ =? 0); [now left|].
    unfold exec_insertSpecificReviewerQuery.
    destruct (reviewer_row_ok _ _ _); [|now left].
    right. split; [exact E|reflexivity].
  - left. rewrite ReassignReviewer_not_assigned; [reflexivity|].
    intros C. apply existsb_uuid in C. congruence.
Qed.

(** C2.  When [oldUserID] is not among the reviewers of the pull request,
    the repository's [ReassignReviewer] answers [ErrUserNotAssigned] and
    leaves the store as it was; the service, whenever it gets as far as
    that call, answers [ErrUserNotAssigned] too, and on no path does it
    succeed or change the store.  The row of the new reviewer is written
    only when the row of the old one was deleted. *)
Theorem unassigned_reviewer_is_rejected rnd prID oldUserID newUserID db :
  ~ In oldUserID (reviewers_of db prID) ->
  PullRequestRepository_ReassignReviewer (mkReassignment prID oldUserID newUserID) db
    = (db, Err ErrUserNotAssigned) /\
  (reaches_mutation rnd prID oldUserID db newUserID ->
   PullRequestService_ReassignmentReviewers rnd prID oldUserID db
     = (db, Err ErrUserNotAssigned)) /\
  fst (PullRequestService_ReassignmentReviewers rnd prID oldUserID db) = db /\
  is_ok (snd (PullRequestService_ReassignmentReviewers rnd prID oldUserID db)) = false /\
  (forall reasReviewer db0,
     fst (PullRequestRepository_ReassignReviewer reasReviewer db0) <> db0 ->
     In (ra_OldUserID reasReviewer) (reviewers_of db0 (ra_PullRequestID reasReviewer))).
Proof.
  intros Hnot.
  split; [now apply ReassignReviewer_not_assigned|].
  split.
  { intros (r & author & users' & rest & Hr & Hopen & Hnil & Hau & Hold & Hteam & Hsel).
    rewrite (ReassignmentReviewers_after_checks rnd prID oldUserID db r author); auto.
    rewrite Hsel.
    rewrite (ReassignReviewer_not_assigned prID oldUserID newUserID db Hnot).
    reflexivity. }
  destruct (PullRequestService_ReassignmentReviewers rnd prID oldUserID db)
    as [db' res] eqn:E.
  apply ReassignmentReviewers_inv in E. simpl.
  split; [|split].
  - destruct res as [[updated new]| |]; auto.
    destruct E as (r & author & users' & rest & _ & _ & _ & _ & _ & Hin & _).
    exfalso. apply Hnot. now apply In_reviewers_of.
  - destruct res as [[updated new]| |]; auto.
    destruct E as (r & author & users' & rest & _ & _ & _ & _ & _ & Hin & _).
    exfalso. apply Hnot. now apply In_reviewers_of.
  - intros reasReviewer db0 Hch.
    destruct (ReassignReviewer_effect reasReviewer db0) as [Hsame|[Hin _]]; tauto.
Qed.


(** ** The lifecycle gate *)

Lemma status_of_merged_find db prID :
  status_of db prID = Some StatusMerged ->
  exists r, find (row_has_id prID) (pull_requests db) = Some r /\
            row_status r = StatusMerged.
Proof.
  unfold status_of. destruct (find _ _) as [r|]; simpl; [|discriminate].
  intros H. inversion H. eauto.
Qed.

Lemma ReassignmentReviewers_merged rnd prID oldUserID db :
  status_of db prID = Some StatusMerged ->
  PullRequestService_ReassignmentReviewers rnd prID oldUserID db = (db, Err ErrPRMerged).
Proof.
  intros H. apply status_of_merged_find in H. destruct H as (r & Hr & Hst).
  unfold PullRequestService_ReassignmentReviewers, PullRequestRepository_Exists.
  unfold_m.
  assert (Hex : existsb (row_has_id prID) (pull_requests db) = true).
  { destruct (existsb (row_has_id prID) (pull_requests db)) eqn:E; [reflexivity|].
    apply find_row_None in E. congruence. }
  rewrite Hex. cbn [negb].
  unfold PullRequestRepository_GetPRByID at 1. rewrite Hr.
  cbn [pr_Status]. rewrite Hst. reflexivity.
Qed.

Lemma ReassignmentReviewers_unknown rnd prID oldUserID db :
  existsb (row_has_id prID) (pull_requests db) = false ->
  PullRequestService_ReassignmentReviewers rnd prID oldUserID db = (db, Err ErrPRExists).
Proof.
  intros Hex.
  unfold PullRequestService_ReassignmentReviewers, PullRequestRepository_Exists.
  unfold_m. rewrite Hex. reflexivity.
Qed.

Lemma status_of_set_merged now prID id db :
  status_of db id = Some StatusMerged ->
  status_of (set_pull_requests db (map (set_merged now prID) (pull_requests db))) id
    = Some StatusMerged.
Proof.
  unfold status_of. cbn [pull_requests set_pull_requests].
  rewrite find_set_merged.
  destruct (find (row_has_id id) (pull_requests db)) as [r|]; simpl; [|discriminate].
  intros H. inversion H as [Hst]. unfold set_merged.
  destruct (row_has_id prID r); simpl; congruence.
Qed.

(** No command takes a pull request out of the MERGED status. *)
Lemma exec_keeps_merged c db id :
  status_of db id = Some StatusMerged ->
  status_of (exec c db) id = Some StatusMerged.
Proof.
  intros Hm. destruct c as [team|uid isActive|rnd now prID prName authorID
                            |rnd prID oldUserID|now prID]; simpl.
  - destruct (TeamService_CreateTeamWithMembers team db) as [db' res] eqn:E.
    apply CreateTeamWithMembers_inv in E. simpl.
    destruct res as [t| |]; try (subst; exact Hm).
    destruct E as (_ & _ & Hsave). apply save_members_effect in Hsave.
    destruct Hsave as (_ & Hp & _). unfold status_of in *. now rewrite Hp.
  - destruct (SetIsActive_effect uid isActive db) as [E|E]; rewrite E; exact Hm.
  - destruct (PullRequestService_CreatePR rnd now prID prName authorID db)
      as [db' res] eqn:E.
    apply CreatePR_inv in E. simpl.
    destruct res as [pr| |]; try (subst; exact Hm).
    destruct E as (author & users' & _ & _ & _ & _ & _ & _ & _ & ->).
    apply status_of_merged_find in Hm. destruct Hm as (r & Hr & Hst).
    unfold status_of. cbn [pull_requests].
    rewrite (find_app_old _ _ _ _ Hr). simpl. now rewrite Hst.
  - destruct (PullRequestService_ReassignmentReviewers rnd prID oldUserID db)
      as [db' res] eqn:E.
    apply ReassignmentReviewers_inv in E. simpl.
    destruct res as [[updated new]| |]; try (subst; exact Hm).
    destruct E as (r & author & users' & rest & _ & _ & _ & _ & _ & _ & -> & _).
    exact Hm.
  - destruct (PullRequestService_SetMerge now prID db) as [db' res] eqn:E.
    apply SetMerge_inv in E. simpl.
    destruct res as [pr| |]; try (subst; exact Hm).
    destruct E as (_ & -> & _). now apply status_of_set_merged.
Qed.

Lemma run_keeps_merged cs db id :
  status_of db id = Some StatusMerged ->
  status_of (run cs db) id = Some StatusMerged.
Proof.
  revert db; induction cs as [|c cs IH]; simpl; intros db H; auto.
  apply IH. now apply exec_keeps_merged.
Qed.

Lemma SetMerge_Ok_merged now prID db db1 pr :
  PullRequestService_SetMerge now prID db = (db1, Ok pr) ->
  status_of db1 prID = Some StatusMerged /\ pr_Status pr = StatusMerged /\
  pull_request_reviewers db1 = pull_request_reviewers db.
Proof.
  intros H. apply SetMerge_inv in H. destruct H as (Hex & -> & Hget).
  unfold PullRequestRepository_GetPRByID in Hget.
  unfold status_of. cbn [pull_requests set_pull_requests] in *.
  rewrite find_set_merged in *.
  destruct (find (row_has_id prID) (pull_requests db)) as [r|] eqn:Hr;
    [|discriminate].
  apply find_row in Hr. destruct Hr as [_ Hid].
  simpl in *. unfold set_merged in *. unfold row_has_id in *.
  rewrite Hid, String.eqb_refl in *. simpl in *.
  inversion Hget; subst; simpl. auto.
Qed.

(** C3.  Once [SetMerge] has succeeded on a pull request, the pull
    request is MERGED and stays so through any further commands; after any
    such commands, a reassignment on it, whoever the reviewer named, is
    answered [ErrPRMerged] and leaves the store as it was.  The merge
    itself does not touch the reviewer rows. *)
Theorem merge_is_final now prID db db1 pr :
  PullRequestService_SetMerge now prID db = (db1, Ok pr) ->
  pr_Status pr = StatusMerged /\
  pull_request_reviewers db1 = pull_request_reviewers db /\
  forall cs rnd oldUserID,
    status_of (run cs db1) prID = Some StatusMerged /\
    PullRequestService_ReassignmentReviewers rnd prID oldUserID (run cs db1)
      = (run cs db1, Err ErrPRMerged).
Proof.
  intros H. apply SetMerge_Ok_merged in H. destruct H as (Hm & Hst & Hrev).
  repeat split; auto.
  - now apply run_keeps_merged.
  - apply ReassignmentReviewers_merged. now apply run_keeps_merged.
Qed.

(** C4, on the code.  For a pull request id the store does not know,
    [ReassignmentReviewers] answers with the sentinel [ErrPRExists] (the
    one [CreatePR] uses for a duplicate id), not with [ErrPRNotExist]; the
    handler, which looks for [ErrPRNotExist], then answers 500
    INTERNAL_ERROR.  [SetMerge], the sibling path, does answer
    [ErrPRNotExist]. *)
Theorem reassign_unknown_pull_request rnd prID oldUserID db :
  existsb (row_has_id prID) (pull_requests db) = false ->
  PullRequestService_ReassignmentReviewers rnd prID oldUserID db = (db, Err ErrPRExists) /\
  errors_Is ErrPRExists ErrPRNotExist = false /\
  Reassign_responseError ErrPRExists = (500%Z, codeInternalError) /\
  Reassign_responseError ErrPRNotExist = (404%Z, codeNotFound) /\
  forall now, PullRequestService_SetMerge now prID db = (db, Err ErrPRNotExist).
Proof.
  intros Hex. split; [now apply ReassignmentReviewers_unknown|].
  repeat split.
  intros now. unfold PullRequestService_SetMerge, PullRequestRepository_Exists.
  unfold_m. rewrite Hex. reflexivity.
Qed.


(** ** Exhausted teams *)

Lemma find_user_Some id us :
  In id (map u_ID us) -> exists u, find (user_has_id id) us = Some u.
Proof.
  intros H. destruct (find (user_has_id id) us) as [u|] eqn:E; [eauto|].
  apply find_user_None in E. contradiction.
Qed.

(** The candidates the service asks the directory for are the pool of the
    glossary. *)
Lemma replacement_pool_candidates db prID r author :
  find (row_has_id prID) (pull_requests db) = Some r ->
  find (user_has_id (row_author_id r)) (users db) = Some author ->
  filter (active_member (u_TeamName author) (reviewers_of db prID ++ [u_ID author]))
         (users db)
  = replacement_pool db prID.
Proof.
  intros Hr Hau. unfold replacement_pool. rewrite Hr, Hau.
  apply find_user in Hau. destruct Hau as [_ Hid].
  apply filter_ext. intros u. unfold active_member.
  rewrite existsb_app. simpl. rewrite orb_false_r, negb_orb, Hid.
  now rewrite andb_assoc.
Qed.

(** C6, as the code has it.  In a state the service can reach, a
    reassignment on an existing open pull request whose pool of eligible
    replacements is empty, asked for a reviewer other than the author, is
    answered [ErrNoCandidate] and the store, the reviewers of the pull
    request among it, is left as it was. *)
Theorem empty_pool_is_no_candidate rnd prID oldUserID db r :
  reachable db ->
  find (row_has_id prID) (pull_requests db) = Some r ->
  row_status r = StatusOpen ->
  oldUserID <> row_author_id r ->
  replacement_pool db prID = [] ->
  PullRequestService_ReassignmentReviewers rnd prID oldUserID db
    = (db, Err ErrNoCandidate) /\
  reviewers_of (fst (PullRequestService_ReassignmentReviewers rnd prID oldUserID db)) prID
    = reviewers_of db prID.
Proof.
  intros Hreach Hr Hopen Hold Hpool.
  pose proof (reachable_inv db Hreach) as Hinv.
  pose proof (find_row _ _ _ Hr) as [Hrin _].
  destruct (inv_author db Hinv r Hrin) as [Hnil Hknown].
  destruct (find_user_Some _ _ Hknown) as [author Hau].
  pose proof (find_user _ _ _ Hau) as [Hauin Hauid].
  assert (E : PullRequestService_ReassignmentReviewers rnd prID oldUserID db
              = (db, Err ErrNoCandidate)).
  { rewrite (ReassignmentReviewers_after_checks rnd prID oldUserID db r author); auto.
    - rewrite (replacement_pool_candidates db prID r author Hr Hau), Hpool.
      reflexivity.
    - congruence.
    - now apply (inv_team_names db Hinv). }
  rewrite E. split; reflexivity.
Qed.

(** ** Team creation *)

(** C10.  After a successful [CreateTeamWithMembers], every member of
    the request has a row in [users] under their id whose [team_name] is the
    name of the team created, whatever team name the member record carried;
    every row the transaction wrote carries that name; and, [users.id] being
    a key, looking a member up by id gives a user of that team. *)
Theorem created_members_join_the_team team db db' t :
  TeamService_CreateTeamWithMembers team db = (db', Ok t) ->
  (forall m, In m (t_Members team) ->
     exists u, In u (users db') /\ u_ID u = u_ID m /\ u_TeamName u = t_Name team) /\
  (forall u, In u (users db') -> In u (users db) \/ u_TeamName u = t_Name team) /\
  (NoDup (map u_ID (users db)) ->
   forall m, In m (t_Members team) ->
     exists u, UserRepository_GetUserByID (u_ID m) db' = Ok u /\
               u_TeamName u = t_Name team).
Proof.
  intros H. apply CreateTeamWithMembers_inv in H. destruct H as (_ & _ & Hsave).
  apply save_members_effect in Hsave. cbn [users set_teams] in Hsave.
  destruct Hsave as (_ & _ & _ & Hnd & _ & Hrows & Hmem & _).
  split; [exact Hmem|]. split; [exact Hrows|].
  intros Hkey m Hm. destruct (Hmem m Hm) as (x & Hx & Hid & Hteam).
  assert (Hin : In (u_ID m) (map u_ID (users db'))).
  { rewrite <- Hid. now apply in_map. }
  destruct (find_user_Some _ _ Hin) as [u Hu].
  unfold UserRepository_GetUserByID. rewrite Hu. exists u. split; [reflexivity|].
  apply find_user in Hu. destruct Hu as [Huin Huid].
  assert (u = x) by (apply (NoDup_map_eq u_ID (users db')); auto; congruence).
  now subst.
Qed.


(** ** Review statistics *)

Lemma insert_desc_Permutation s l : Permutation (insert_desc s l) (s :: l).
Proof.
  induction l as [|x t IH]; simpl; [reflexivity|].
  destruct (st_ReviewCount s <? st_ReviewCount x); [|reflexivity].
  eapply perm_trans; [apply perm_skip, IH | apply perm_swap].
Qed.

Lemma order_by_review_count_desc_Permutation l :
  Permutation (order_by_review_count_desc l) l.
Proof.
  induction l as [|x t IH]; simpl; [reflexivity|].
  eapply perm_trans; [apply insert_desc_Permutation | now apply perm_skip].
Qed.

Lemma insert_desc_Sorted s l :
  Sorted count_desc l -> Sorted count_desc (insert_desc s l).
Proof.
  induction l as [|x t IH]; simpl; intros H.
  - repeat constructor.
  - destruct (Nat.ltb_spec (st_ReviewCount s) (st_ReviewCount x)) as [Hlt|Hge].
    + inversion H as [|? ? Hs Hhd]; subst.
      constructor; [now apply IH|].
      destruct t as [|y t']; simpl.
      * constructor. unfold count_desc. lia.
      * destruct (st_ReviewCount s <? st_ReviewCount y).
        -- inversion Hhd; subst. now constructor.
        -- constructor. unfold count_desc. lia.
    + constructor; [exact H|]. constructor. exact Hge.
Qed.

Lemma order_by_review_count_desc_Sorted l :
  Sorted count_desc (order_by_review_count_desc l).
Proof.
  induction l as [|x t IH]; simpl; [constructor|].
  now apply insert_desc_Sorted.
Qed.

Lemma count_desc_trans : Relations_1.Transitive count_desc.
Proof. intros a b c. unfold count_desc. lia. Qed.

(** Among rows with distinct ids, exactly one more passes the test when
    the row of id [a], which failed it, is let through. *)
Lemma filter_one_more (g : PRRow -> bool) a ps :
  NoDup (map row_id ps) ->
  In a (map row_id ps) ->
  (forall p, In p ps -> row_id p = a -> g p = false) ->
  length (filter (fun p => String.eqb a (row_id p) || g p) ps)
  = S (length (filter g ps)).
Proof.
  induction ps as [|p ps IH]; simpl; intros Hnd Hin Hg; [contradiction|].
  inversion Hnd as [|? ? Hnin Hnd']; subst.
  destruct (String.eqb_spec a (row_id p)) as [E|E]; simpl.
  - rewrite (Hg p (or_introl eq_refl) (eq_sym E)). f_equal. f_equal.
    apply filter_ext_in. intros q Hq.
    destruct (String.eqb_spec a (row_id q)) as [E'|E']; [|reflexivity].
    exfalso. apply Hnin. rewrite <- E, E'. now apply in_map.
  - destruct Hin as [Hin|Hin]; [congruence|].
    assert (IH' := IH Hnd' Hin (fun q Hq => Hg q (or_intror Hq))).
    destruct (g p); simpl; now rewrite IH'.
Qed.

(** Counting the rows that name a reviewer is counting the pull requests
    that have such a row, as long as rows are not repeated and each belongs
    to one pull request. *)
Lemma count_rows_by_pull_request id ps rows :
  NoDup (map row_id ps) ->
  NoDup rows ->
  (forall x, In x rows -> In (fst x) (map row_id ps)) ->
  length (filter (fun x => uuid_eqb (snd x) id) rows)
  = length (filter (fun p => existsb (is_row (row_id p) id) rows) ps).
Proof.
  intros Hps. induction rows as [|x rows IH]; intros Hnd Hfk.
  - simpl. rewrite filter_none; auto.
  - inversion Hnd as [|? ? Hnin Hnd']; subst.
    assert (IH' := IH Hnd' (fun y Hy => Hfk y (or_intror Hy))).
    cbn [filter existsb].
    destruct (uuid_eqb (snd x) id) eqn:Hid.
    + apply uuid_eqb_eq in Hid. destruct x as [a b]. simpl in Hid. subst b.
      cbn [length]. rewrite IH'.
      rewrite <- (filter_one_more (fun p => existsb (is_row (row_id p) id) rows) a ps).
      * f_equal. apply filter_ext. intros p. unfold is_row. simpl.
        now rewrite N.eqb_refl, andb_true_r.
      * exact Hps.
      * apply (Hfk (a, id)). now left.
      * intros p _ Hp. subst a.
        destruct (existsb (is_row (row_id p) id) rows) eqn:E; [|reflexivity].
        apply existsb_exists in E. destruct E as (y & Hy & E).
        apply is_row_true in E. subst y. contradiction.
    + rewrite IH'. f_equal. apply filter_ext. intros p.
      assert (E : is_row (row_id p) id x = false).
      { unfold is_row. rewrite Hid. apply andb_false_r. }
      now rewrite E.
Qed.

Lemma existsb_reviewers_of db prID id :
  existsb (uuid_eqb id) (reviewers_of db prID)
  = existsb (is_row prID id) (pull_request_reviewers db).
Proof.
  apply eq_true_iff_eq.
  rewrite existsb_uuid, In_reviewers_of, existsb_exists. split.
  - intros H. exists (prID, id). split; auto. now apply is_row_true.
  - intros (x & Hx & E). apply is_row_true in E. now subst.
Qed.

Lemma review_count_prs_reviewed_by db id :
  db_inv db -> review_count db id = prs_reviewed_by db id.
Proof.
  intros Hinv. unfold review_count, prs_reviewed_by.
  rewrite (count_rows_by_pull_request id (pull_requests db)).
  - f_equal. apply filter_ext. intros p. symmetry. apply existsb_reviewers_of.
  - apply (inv_prs_key db Hinv).
  - apply (inv_reviewers_set db Hinv).
  - apply (inv_reviewer_pr db Hinv).
Qed.

(** C9.  In every state the service can reach, [GetUserReviewStats]
    answers with one entry per user, each carrying the user's name and flag
    and, as its count, the number of pull requests of any status that list
    the user among their reviewers (0 for a user who reviews none); the
    entries come ranked by count, largest first. *)
Theorem review_stats_count_and_rank db :
  reachable db ->
  exists stats,
    StatsService_GetUserReviewStats db = (db, Ok stats) /\
    Permutation (map st_UserID stats) (map u_ID (users db)) /\
    NoDup (map st_UserID stats) /\
    (forall u, In u (users db) ->
       In (mkUserReviewStat (u_ID u) (u_Username u) (u_IsActive u)
                            (prs_reviewed_by db (u_ID u))) stats) /\
    (forall s, In s stats -> st_ReviewCount s = prs_reviewed_by db (st_UserID s)) /\
    StronglySorted count_desc stats.
Proof.
  intros Hreach. pose proof (reachable_inv db Hreach) as Hinv.
  exists (order_by_review_count_desc (stats_rows db)).
  pose proof (order_by_review_count_desc_Permutation (stats_rows db)) as HP.
  assert (Hids : map st_UserID (stats_rows db) = map u_ID (users db)).
  { unfold stats_rows. rewrite map_map. reflexivity. }
  split; [reflexivity|].
  split; [rewrite <- Hids; now apply Permutation_map|].
  split.
  { eapply Permutation_NoDup.
    - apply Permutation_sym, Permutation_map, HP.
    - rewrite Hids. apply (inv_users_key db Hinv). }
  split.
  { intros u Hu. eapply Permutation_in; [apply Permutation_sym, HP|].
    unfold stats_rows. apply in_map_iff. exists u. split; auto.
    now rewrite review_count_prs_reviewed_by. }
  split.
  { intros s Hs. apply (Permutation_in _ HP) in Hs.
    unfold stats_rows in Hs. apply in_map_iff in Hs. destruct Hs as (u & <- & _).
    simpl. now apply review_count_prs_reviewed_by. }
  apply Sorted_StronglySorted; [apply count_desc_trans|].
  apply order_by_review_count_desc_Sorted.
Qed.


(** ** All or nothing *)

Lemma u_ID_set_is_active isActive id u : u_ID (set_is_active isActive id u) = u_ID u.
Proof. unfold set_is_active. now destruct (user_has_id id u). Qed.

Lemma find_set_is_active isActive id id' us :
  find (user_has_id id) (map (set_is_active isActive id') us) =
  option_map (set_is_active isActive id') (find (user_has_id id) us).
Proof.
  induction us as [|u us IH]; simpl; [reflexivity|].
  unfold user_has_id at 1. rewrite u_ID_set_is_active.
  fold (user_has_id id u). destruct (user_has_id id u); simpl; auto.
Qed.

(** [SetIsActive] either succeeds, having rewritten the flag of the rows
    of that id, or leaves the store as it was: the read that follows the
    update finds the user, a query failing here for no other reason than
    what the store holds. *)
Lemma SetIsActive_inv id isActive db db' res :
  UserService_SetIsActive id isActive db = (db', res) ->
  match res with
  | Ok user =>
      id <> uuid_Nil /\
      (exists before, find (user_has_id id) (users db) = Some before /\
                      user = mkUser (u_ID before) (u_Username before) isActive
                                    (u_TeamName before)) /\
      db' = set_users db (map (set_is_active isActive id) (users db))
  | _ => db' = db
  end.
Proof.
  unfold UserService_SetIsActive, UserRepository_SetIsActive, UserRepository_GetUserByID.
  unfold_m.
  destruct (uuid_eqb id uuid_Nil) eqn:Hnil; [intros H; inversion H; reflexivity|].
  destruct (_ =? 0) eqn:Hrows; [intros H; inversion H; reflexivity|].
  cbn [users set_users]. rewrite find_set_is_active.
  destruct (find (user_has_id id) (users db)) as [before|] eqn:Hf; simpl.
  - intros H; inversion H; subst. split; [now apply uuid_eqb_neq|]. split; [|reflexivity].
    exists before. split; [reflexivity|]. unfold set_is_active.
    pose proof (find_some _ _ Hf) as [_ Hid]. now rewrite Hid.
  - exfalso. apply Nat.eqb_neq in Hrows. apply Hrows. apply filter_length_zero.
    intros x Hx. now apply (find_none _ _ Hf).
Qed.



(** ** Pull requests stay *)

Lemma find_Some_existsb id ps r :
  find (row_has_id id) ps = Some r -> existsb (row_has_id id) ps = true.
Proof.
  intros H. destruct (existsb (row_has_id id) ps) eqn:E; [reflexivity|].
  apply find_row_None in E. congruence.
Qed.

(** No command removes a row of [pull_requests] or touches its id, name,
    author or creation time. *)
Lemma exec_keeps_row c db id r :
  find (row_has_id id) (pull_requests db) = Some r ->
  exists r', find (row_has_id id) (pull_requests (exec c db)) = Some r' /\
             row_id r' = row_id r /\ row_name r' = row_name r /\
             row_author_id r' = row_author_id r /\
             row_created_at r' = row_created_at r.
Proof.
  intros Hr.
  assert (Hsame : exists r', find (row_has_id id) (pull_requests db) = Some r' /\
             row_id r' = row_id r /\ row_name r' = row_name r /\
             row_author_id r' = row_author_id r /\
             row_created_at r' = row_created_at r) by (exists r; auto).
  destruct c as [team|uid isActive|rnd now prID prName authorID
                 |rnd prID oldUserID|now prID]; simpl.
  - destruct (TeamService_CreateTeamWithMembers team db) as [db' res] eqn:E.
    apply CreateTeamWithMembers_inv in E. simpl.
    destruct res as [t| |]; try (subst; exact Hsame).
    destruct E as (_ & _ & Hsave). apply save_members_effect in Hsave.
    destruct Hsave as (_ & Hp & _). now rewrite Hp.
  - destruct (SetIsActive_effect uid isActive db) as [E|E]; rewrite E; exact Hsame.
  - destruct (PullRequestService_CreatePR rnd now prID prName authorID db)
      as [db' res] eqn:E.
    apply CreatePR_inv in E. simpl.
    destruct res as [pr| |]; try (subst; exact Hsame).
    destruct E as (author & users' & _ & _ & _ & _ & _ & _ & _ & ->).
    cbn [pull_requests]. rewrite (find_app_old _ _ _ _ Hr). exists r. auto.
  - destruct (PullRequestService_ReassignmentReviewers rnd prID oldUserID db)
      as [db' res] eqn:E.
    apply ReassignmentReviewers_inv in E. simpl.
    destruct res as [[updated new]| |]; try (subst; exact Hsame).
    destruct E as (r0 & author & users' & rest & _ & _ & _ & _ & _ & _ & -> & _).
    exact Hsame.
  - destruct (PullRequestService_SetMerge now prID db) as [db' res] eqn:E.
    apply SetMerge_inv in E. simpl.
    destruct res as [pr| |]; try (subst; exact Hsame).
    destruct E as (_ & -> & _). cbn [pull_requests set_pull_requests].
    rewrite find_set_merged, Hr. simpl. eexists. split; [reflexivity|].
    unfold set_merged. destruct (row_has_id prID r); simpl; auto.
Qed.

Lemma run_keeps_row cs db id r :
  find (row_has_id id) (pull_requests db) = Some r ->
  exists r', find (row_has_id id) (pull_requests (run cs db)) = Some r' /\
             row_id r' = row_id r /\ row_name r' = row_name r /\
             row_author_id r' = row_author_id r /\
             row_created_at r' = row_created_at r.
Proof.
  revert db r; induction cs as [|c cs IH]; simpl; intros db r Hr.
  - exists r. auto.
  - destruct (exec_keeps_row c db id r Hr) as (r1 & H1 & E1 & E2 & E3 & E4).
    destruct (IH _ _ H1) as (r2 & H2 & F1 & F2 & F3 & F4).
    exists r2. repeat split; congruence.
Qed.

(** X2.  A pull request, once the store holds it, is never lost and
    keeps its id, name, author and creation time through any commands:
    whatever [GetPRByID] reads later agrees with what it read before on
    these four fields. *)
Theorem pull_request_is_permanent id db pr cs :
  PullRequestRepository_GetPRByID id db = Ok pr ->
  exists later,
    PullRequestRepository_GetPRByID id (run cs db) = Ok later /\
    pr_ID later = pr_ID pr /\ pr_Name later = pr_Name pr /\
    pr_AuthorID later = pr_AuthorID pr /\ pr_CreatedAt later = pr_CreatedAt pr.
Proof.
  unfold PullRequestRepository_GetPRByID. intros H.
  destruct (find (row_has_id id) (pull_requests db)) as [r|] eqn:Hr; [|discriminate].
  destruct (run_keeps_row cs db id r Hr) as (r' & Hr' & E1 & E2 & E3 & E4).
  rewrite Hr'. eexists. split; [reflexivity|].
  inversion H; subst; simpl. auto.
Qed.

(** X3.  The id of a pull request is taken for good: after a successful
    [CreatePR], and whatever commands follow, a [CreatePR] under the same
    id, whoever the author, is answered [ErrPRExists], which the handler
    reports as 409 PR_EXISTS, and the store is left as it was. *)
Theorem pull_request_id_stays_taken rnd now prID prName authorID db db1 pr :
  PullRequestService_CreatePR rnd now prID prName authorID db = (db1, Ok pr) ->
  forall cs rnd' now' prName' authorID',
    PullRequestService_CreatePR rnd' now' prID prName' authorID' (run cs db1)
      = (run cs db1, Err ErrPRExists) /\
    CreatePR_responseError ErrPRExists = (409%Z, codePRExists).
Proof.
  intros H cs rnd' now' prName' authorID'.
  apply CreatePR_inv in H.
  destruct H as (author & users' & Hex & _ & _ & _ & _ & _ & _ & ->).
  assert (Hr : find (row_has_id prID)
                 (pull_requests
                    (mkDB (users db) (teams db)
                       (pull_requests db ++ [created_row now prID prName authorID])
                       (pull_request_reviewers db ++
                        map (pair prID) (pr_AssignedReviewers pr))))
               = Some (created_row now prID prName authorID)).
  { cbn [pull_requests]. apply find_app_fresh.
    - now apply find_row_None.
    - unfold row_has_id, created_row. simpl. apply String.eqb_refl. }
  destruct (run_keeps_row cs _ prID _ Hr) as (r' & Hr' & _).
  apply find_Some_existsb in Hr'.
  split; [|reflexivity].
  unfold PullRequestService_CreatePR, PullRequestRepository_Exists. unfold_m.
  rewrite Hr'. reflexivity.
Qed.


(** ** More of the invariant *)

Lemma reviewers_of_app db id extra :
  reviewers_of (set_pull_request_reviewers db (pull_request_reviewers db ++ extra)) id
  = reviewers_of db id ++ map snd (filter (reviewer_of id) extra).
Proof.
  unfold reviewers_of. cbn [pull_request_reviewers set_pull_request_reviewers].
  now rewrite filter_app, map_app.
Qed.

Lemma filter_reviewer_of_pairs id prID ids :
  map snd (filter (reviewer_of id) (map (pair prID) ids))
  = if String.eqb prID id then ids else [].
Proof.
  induction ids as [|i ids IH]; simpl.
  - now destruct (String.eqb prID id).
  - unfold reviewer_of at 1. simpl. destruct (String.eqb prID id); simpl; [now f_equal|exact IH].
Qed.

Lemma filter_filter_comm {A} (f g : A -> bool) l :
  filter f (filter g l) = filter g (filter f l).
Proof.
  induction l as [|a l IH]; simpl; [reflexivity|].
  destruct (f a) eqn:Hf, (g a) eqn:Hg; simpl; rewrite ?Hf, ?Hg, IH; reflexivity.
Qed.

Lemma filter_removes_one {A} (g : A -> bool) l x :
  In x l -> g x = false -> length (filter g l) < length l.
Proof.
  induction l as [|a l IH]; simpl; intros Hin Hg; [contradiction|].
  pose proof (filter_length_le g l) as Hle.
  destruct Hin as [->|Hin].
  - rewrite Hg. lia.
  - specialize (IH Hin Hg). destruct (g a); simpl; lia.
Qed.

(** The reviewers of the pull request once [oldUserID] is traded for
    [newUserID], and those of every other pull request. *)
Lemma reviewers_of_reassigned db prID oldUserID newUserID id :
  reviewers_of (set_pull_request_reviewers db (reassigned_rows db prID oldUserID newUserID)) id
  = if String.eqb prID id
    then filter (fun r => negb (uuid_eqb r oldUserID)) (reviewers_of db id) ++ [newUserID]
    else reviewers_of db id.
Proof.
  unfold reviewers_of, reassigned_rows.
  cbn [pull_request_reviewers set_pull_request_reviewers].
  rewrite filter_app, map_app. cbn [filter map]. unfold reviewer_of at 2. cbn [fst snd].
  destruct (String.eqb_spec prID id) as [->|Hne].
  - cbn [map snd]. f_equal.
    induction (pull_request_reviewers db) as [|[a b] l IH]; simpl; [reflexivity|].
    unfold is_row at 1. unfold reviewer_of at 2. simpl.
    destruct (String.eqb_spec a id) as [->|Ha]; simpl.
    + unfold reviewer_of at 1. simpl.
      destruct (uuid_eqb b oldUserID); simpl.
      * exact IH.
      * rewrite String.eqb_refl. simpl. now f_equal.
    + unfold reviewer_of at 1. simpl.
      destruct (String.eqb_spec a id); [contradiction|]. exact IH.
  - cbn [map]. rewrite app_nil_r. f_equal.
    rewrite filter_filter_comm. apply filter_all.
    intros [a b] Hx. apply filter_In in Hx. destruct Hx as [_ Hx].
    unfold reviewer_of in Hx. simpl in Hx. apply String.eqb_eq in Hx. subst a.
    unfold is_row. simpl.
    destruct (String.eqb_spec id prID); [congruence|reflexivity].
Qed.

Lemma db_inv_more_empty : db_inv_more empty_db.
Proof.
  constructor; simpl.
  - intros ? [].
  - intros ? [].
  - intros _. unfold countReviewers. lia.
  - intros ? [].
  - constructor.
Qed.

Lemma db_inv_more_exec c db :
  db_inv db -> db_inv_more db -> db_inv_more (exec c db).
Proof.
  intros Hinv Hmore.
  destruct Hinv as [I1 I2 I3 I4 I5 I6 I7].
  destruct Hmore as [J1 J2 J3 J4 J5].
  destruct c as [team|uid isActive|rnd now prID prName authorID
                 |rnd prID oldUserID|now prID]; simpl.
  - destruct (TeamService_CreateTeamWithMembers team db) as [db' res] eqn:E.
    pose proof E as E0.
    apply CreateTeamWithMembers_inv in E. simpl.
    destruct res as [t| |]; try (subst; constructor; assumption).
    destruct E as (_ & Hname & Hsave).
    unfold TeamService_CreateTeamWithMembers, TeamRepository_ExistsTeam in E0.
    unfold_m.
    destruct (String.eqb (t_Name team) ""); [discriminate|].
    destruct (length (t_Members team) =? 0); [discriminate|].
    destruct (team_known db (t_Name team)) eqn:Hknown; [discriminate|].
    clear E0.
    apply save_members_effect in Hsave. cbn [users teams pull_requests
      pull_request_reviewers set_teams] in Hsave.
    destruct Hsave as (Ht & Hp & Hr & Hnd & Hids & Hrows & _ & _).
    constructor.
    + rewrite Hp. exact J1.
    + rewrite Hr. intros x Hx. apply Hids. auto.
    + intros id. unfold reviewers_of. rewrite Hr. apply J3.
    + rewrite Ht. intros u Hu. apply in_or_app.
      destruct (Hrows u Hu) as [Hin|Hteam].
      * left. auto.
      * right. left. auto.
    + rewrite Ht. apply NoDup_app_disjoint; auto.
      * constructor; [intros []|constructor].
      * intros x Hx [<-|[]]. unfold team_known in Hknown.
        assert (existsb (String.eqb (t_Name team)) (teams db) = true).
        { apply existsb_exists. exists (t_Name team). split; auto. apply String.eqb_refl. }
        congruence.
  - destruct (SetIsActive_effect uid isActive db) as [E|E]; rewrite E;
      [constructor; assumption|].
    constructor; cbn [users teams pull_requests pull_request_reviewers set_users].
    + exact J1.
    + intros x Hx. rewrite map_u_ID_set_is_active. auto.
    + exact J3.
    + intros u Hu. apply in_map_iff in Hu. destruct Hu as (x & <- & Hx).
      unfold set_is_active. destruct (user_has_id uid x); simpl; auto.
    + exact J5.
  - destruct (PullRequestService_CreatePR rnd now prID prName authorID db)
      as [db' res] eqn:E.
    apply CreatePR_inv in E. simpl.
    destruct res as [pr| |]; try (subst; constructor; assumption).
    destruct E as (author & users' & Hex & Hnil & Hau & Hact & Hteam & Hsel & Hpr & ->).
    assert (Hfresh : ~ In prID (map row_id (pull_requests db))).
    { intros C. apply existsb_row_has_id in C. congruence. }
    constructor; cbn [users teams pull_requests pull_request_reviewers].
    + intros p Hp. apply in_app_or in Hp. destruct Hp as [Hp|[<-|[]]]; auto.
      simpl. split; [discriminate|]. intros C. now contradiction C.
    + intros x Hx. apply in_app_or in Hx. destruct Hx as [Hx|Hx]; auto.
      apply in_map_iff in Hx. destruct Hx as (i & <- & Hi). simpl.
      destruct (getRandomReviewers_In _ _ _ _ _ i Hsel Hi) as (u & Hu & <-).
      apply filter_In in Hu. apply in_map. tauto.
    + intros id.
      change (mkDB (users db) (teams db)
                (pull_requests db ++ [created_row now prID prName authorID])
                (pull_request_reviewers db ++ map (pair prID) (pr_AssignedReviewers pr)))
        with (set_pull_request_reviewers
                (set_pull_requests db
                   (pull_requests db ++ [created_row now prID prName authorID]))
                (pull_request_reviewers
                   (set_pull_requests db
                      (pull_requests db ++ [created_row now prID prName authorID]))
                 ++ map (pair prID) (pr_AssignedReviewers pr))).
      rewrite reviewers_of_app, filter_reviewer_of_pairs.
      change (reviewers_of (set_pull_requests db
                (pull_requests db ++ [created_row now prID prName authorID])) id)
        with (reviewers_of db id).
      destruct (String.eqb_spec prID id) as [<-|Hne].
      * assert (Hnone : reviewers_of db prID = []).
        { destruct (reviewers_of db prID) as [|a l] eqn:El; [reflexivity|].
          exfalso. assert (Hin : In a (reviewers_of db prID)) by (rewrite El; now left).
          apply In_reviewers_of in Hin. apply I5 in Hin. contradiction. }
        rewrite Hnone. simpl.
        destruct (getRandomReviewers_Some _ _ _ _ _ Hsel) as (HP & n & Hids & Hn & Hn0).
        rewrite Hids, length_map, length_firstn.
        destruct (filter (active_member (u_TeamName author) [u_ID author]) (users db))
          as [|c0 cands] eqn:Ec.
        -- rewrite (Hn0 eq_refl). unfold countReviewers. simpl. lia.
        -- assert (Hne : c0 :: cands <> []) by discriminate.
           specialize (Hn Hne). unfold countReviewers in *. lia.
      * rewrite app_nil_r. apply J3.
    + exact J4.
    + exact J5.
  - destruct (PullRequestService_ReassignmentReviewers rnd prID oldUserID db)
      as [db' res] eqn:E.
    apply ReassignmentReviewers_inv in E. simpl.
    destruct res as [[updated newUserID]| |]; try (subst; constructor; assumption).
    destruct E as (r & author & users' & rest & Hr & Hopen & Hau & Hold & Hsel & Hin & -> & _).
    constructor; cbn [users teams pull_requests set_pull_request_reviewers].
    + exact J1.
    + intros x Hx. cbn [pull_request_reviewers] in Hx. unfold reassigned_rows in Hx.
      apply in_app_or in Hx. destruct Hx as [Hx|[<-|[]]].
      * apply filter_In in Hx. apply J2. tauto.
      * simpl.
        destruct (getRandomReviewers_In _ _ _ _ _ newUserID Hsel (or_introl eq_refl))
          as (u & Hu & <-).
        apply filter_In in Hu. apply in_map. tauto.
    + intros id. rewrite reviewers_of_reassigned.
      destruct (String.eqb_spec prID id) as [<-|Hne]; [|apply J3].
      rewrite length_app. simpl.
      assert (Hlt : length (filter (fun r0 => negb (uuid_eqb r0 oldUserID))
                              (reviewers_of db prID))
                    < length (reviewers_of db prID)).
      { apply (filter_removes_one _ _ oldUserID).
        - now apply In_reviewers_of.
        - unfold uuid_eqb. now rewrite N.eqb_refl. }
      specialize (J3 prID). lia.
    + exact J4.
    + exact J5.
  - destruct (PullRequestService_SetMerge now prID db) as [db' res] eqn:E.
    apply SetMerge_inv in E. simpl.
    destruct res as [pr| |]; try (subst; constructor; assumption).
    destruct E as (_ & -> & _).
    constructor; cbn [users teams pull_requests pull_request_reviewers
                      set_pull_requests].
    + intros p Hp. apply in_map_iff in Hp. destruct Hp as (x & <- & Hx).
      unfold set_merged. destruct (row_has_id prID x); simpl; [|auto].
      split; [discriminate|reflexivity].
    + exact J2.
    + exact J3.
    + exact J4.
    + exact J5.
Qed.

Lemma db_inv_more_run cs db :
  db_inv db -> db_inv_more db -> db_inv_more (run cs db).
Proof.
  revert db; induction cs as [|c cs IH]; simpl; intros db H1 H2; auto.
  apply IH; [now apply db_inv_exec | now apply db_inv_more_exec].
Qed.

Lemma reachable_inv_more db : reachable db -> db_inv_more db.
Proof.
  intros [cs ->]. apply db_inv_more_run; [apply db_inv_empty | apply db_inv_more_empty].
Qed.


(** ** What every stored pull request looks like *)

Lemma NoDup_reviewers_of db id :
  NoDup (pull_request_reviewers db) -> NoDup (reviewers_of db id).
Proof.
  unfold reviewers_of.
  induction (pull_request_reviewers db) as [|[a b] l IH]; simpl; intros H;
    [constructor|].
  inversion H as [|? ? Hnin Hnd]; subst.
  unfold reviewer_of at 1. simpl.
  destruct (String.eqb_spec a id) as [->|Hne]; simpl; [|auto].
  constructor; [|auto].
  intros C. apply in_map_iff in C. destruct C as ([a' b'] & Hb & Hin).
  apply filter_In in Hin. destruct Hin as [Hin Hf].
  unfold reviewer_of in Hf. simpl in *. apply String.eqb_eq in Hf. subst. contradiction.
Qed.

(** X4.  In every state the service can reach, a pull request carries
    a merge time exactly when its status is MERGED. *)
Theorem merged_at_iff_merged db id pr :
  reachable db ->
  PullRequestRepository_GetPRByID id db = Ok pr ->
  (pr_Status pr = StatusMerged <-> pr_MergedAt pr <> None).
Proof.
  intros Hreach H. pose proof (reachable_inv_more db Hreach) as Hmore.
  unfold PullRequestRepository_GetPRByID in H.
  destruct (find (row_has_id id) (pull_requests db)) as [r|] eqn:Hr; [|discriminate].
  inversion H; subst; simpl.
  apply find_row in Hr. apply (inv_merged_at db Hmore). tauto.
Qed.

(** X5.  In every state the service can reach, a pull request has at
    most two reviewers, no reviewer twice, and each reviewer, like the
    author, is a user the directory knows. *)
Theorem reviewers_are_few_and_known db id pr :
  reachable db ->
  PullRequestRepository_GetPRByID id db = Ok pr ->
  length (pr_AssignedReviewers pr) <= 2 /\
  NoDup (pr_AssignedReviewers pr) /\
  (forall r, In r (pr_AssignedReviewers pr) ->
     exists u, UserRepository_GetUserByID r db = Ok u /\ u_ID u = r) /\
  (exists a, UserRepository_GetUserByID (pr_AuthorID pr) db = Ok a /\
             u_ID a = pr_AuthorID pr).
Proof.
  intros Hreach H.
  pose proof (reachable_inv db Hreach) as Hinv.
  pose proof (reachable_inv_more db Hreach) as Hmore.
  unfold PullRequestRepository_GetPRByID in H.
  destruct (find (row_has_id id) (pull_requests db)) as [r|] eqn:Hr; [|discriminate].
  inversion H; subst; simpl. clear H.
  apply find_row in Hr. destruct Hr as [Hrin _].
  assert (Hknown : forall i, In i (map u_ID (users db)) ->
            exists u, UserRepository_GetUserByID i db = Ok u /\ u_ID u = i).
  { intros i Hi. destruct (find_user_Some _ _ Hi) as [u Hu].
    unfold UserRepository_GetUserByID. rewrite Hu. exists u. split; [reflexivity|].
    now apply find_user in Hu. }
  repeat split.
  - pose proof (inv_reviewer_bound db Hmore id) as Hb. unfold countReviewers in Hb. lia.
  - apply NoDup_reviewers_of, (inv_reviewers_set db Hinv).
  - intros i Hi. apply Hknown. apply In_reviewers_of in Hi.
    apply (inv_reviewer_user db Hmore (id, i) Hi).
  - apply Hknown. apply (inv_author db Hinv r Hrin).
Qed.

(** ** What [CreatePR] assigns *)

(** X6.  In every state the service can reach, a successful [CreatePR]
    returns an OPEN pull request without merge time, carrying the id, name,
    author and time it was given, with exactly min(2, n) reviewers, n being
    the number of active users of the author's team other than the author;
    the reviewers are distinct and each is one of those users. *)
Theorem CreatePR_assigns_up_to_two rnd now prID prName authorID db db' pr :
  reachable db ->
  PullRequestService_CreatePR rnd now prID prName authorID db = (db', Ok pr) ->
  exists author,
    UserRepository_GetUserByID authorID db = Ok author /\
    u_IsActive author = true /\
    pr = mkPullRequest prID prName StatusOpen authorID (pr_AssignedReviewers pr) now None /\
    Z.of_nat (length (pr_AssignedReviewers pr))
      = Z.min 2 (Z.of_nat (length (filter (active_member (u_TeamName author) [authorID])
                                          (users db)))) /\
    NoDup (pr_AssignedReviewers pr) /\
    (forall r, In r (pr_AssignedReviewers pr) ->
       r <> authorID /\
       exists u, In u (users db) /\ u_ID u = r /\ u_IsActive u = true /\
                 u_TeamName u = u_TeamName author).
Proof.
  intros Hreach H. pose proof (reachable_inv db Hreach) as Hinv.
  apply CreatePR_inv in H.
  destruct H as (author & users' & Hex & Hnil & Hau & Hact & Hteam & Hsel & Hpr & _).
  pose proof (find_user _ _ _ Hau) as [_ Hid]. rewrite Hid in Hsel.
  exists author. unfold UserRepository_GetUserByID. rewrite Hau.
  split; [reflexivity|]. split; [exact Hact|]. split; [exact Hpr|].
  pose proof (getRandomReviewers_Some _ _ _ _ _ Hsel) as (HP & n & Hids & Hn & Hn0).
  repeat split.
  - rewrite Hids, length_map, length_firstn, (Permutation_length HP).
    destruct (filter (active_member (u_TeamName author) [authorID]) (users db))
      as [|c0 cands] eqn:Ec.
    + rewrite (Hn0 eq_refl). simpl. lia.
    + assert (Hne : c0 :: cands <> []) by discriminate.
      specialize (Hn Hne). unfold countReviewers in Hn. lia.
  - eapply getRandomReviewers_NoDup; [exact Hsel|].
    apply NoDup_map_filter, (inv_users_key db Hinv).
  - destruct (getRandomReviewers_In _ _ _ _ _ r Hsel H) as (u & Hu & Heq).
    apply active_member_In in Hu. destruct Hu as (_ & _ & _ & Hnot).
    intros C. apply Hnot. left. congruence.
  - destruct (getRandomReviewers_In _ _ _ _ _ r Hsel H) as (u & Hu & Heq).
    apply active_member_In in Hu. destruct Hu as (Hin & Ht & Ha & _).
    exists u. auto.
Qed.


(** ** What [CreatePR] refuses *)

(** X7.  For an id not yet taken, [CreatePR] refuses, with the store left
    as it was: an author whose id is [uuid.Nil], with a wrapped
    [ErrOneOfParametersNil] that the handler reports as 500; an author the
    directory does not know, with [ErrNotFound], reported as 404; an author
    who is not active, with [ErrAuthorIsInactive], reported as 403. *)
Theorem CreatePR_refuses_bad_author rnd now prID prName authorID db :
  existsb (row_has_id prID) (pull_requests db) = false ->
  (authorID = uuid_Nil ->
   exists err,
     PullRequestService_CreatePR rnd now prID prName authorID db = (db, Err err) /\
     errors_Is err ErrOneOfParametersNil = true /\
     CreatePR_responseError err = (500%Z, codeInternalError)) /\
  (authorID <> uuid_Nil -> ~ In authorID (map u_ID (users db)) ->
   PullRequestService_CreatePR rnd now prID prName authorID db = (db, Err ErrNotFound) /\
   CreatePR_responseError ErrNotFound = (404%Z, codeNotFound)) /\
  (forall author,
     authorID <> uuid_Nil ->
     UserRepository_GetUserByID authorID db = Ok author ->
     u_IsActive author = false ->
     PullRequestService_CreatePR rnd now prID prName authorID db
       = (db, Err ErrAuthorIsInactive) /\
     CreatePR_responseError ErrAuthorIsInactive = (403%Z, codeAuthorInactive)).
Proof.
  intros Hex.
  unfold PullRequestService_CreatePR, UserService_GetUserByID,
    PullRequestRepository_Exists, UserRepository_GetUserByID.
  unfold_m. rewrite Hex.
  split; [|split].
  - intros ->. simpl. eexists. split; [reflexivity|]. split; reflexivity.
  - intros Hnil Hnot. apply uuid_eqb_neq in Hnil. rewrite Hnil.
    destruct (find (user_has_id authorID) (users db)) as [u|] eqn:Hf.
    + exfalso. apply Hnot. apply find_user in Hf. destruct Hf as [Hin <-].
      now apply in_map.
    + split; reflexivity.
  - intros author Hnil Hget Hact. apply uuid_eqb_neq in Hnil. rewrite Hnil.
    destruct (find (user_has_id authorID) (users db)) as [u|] eqn:Hf; [|discriminate].
    inversion Hget; subst u. rewrite Hact. split; reflexivity.
Qed.

(** ** Deactivated users *)

Lemma set_is_active_false_In id us u :
  In u (map (set_is_active false id) us) -> u_ID u = id -> u_IsActive u = false.
Proof.
  intros Hin Hid. apply in_map_iff in Hin. destruct Hin as (x & <- & _).
  unfold set_is_active in *. destruct (user_has_id id x) eqn:E; [reflexivity|].
  simpl in Hid. unfold user_has_id in E. apply uuid_eqb_neq in E. contradiction.
Qed.

(** X8.  Once [SetIsActive id false] has succeeded, the user is out of
    the game in the state it leaves: no [CreatePR] assigns them, no
    reassignment picks them as the replacement, and a [CreatePR] of their
    own, under an id not yet taken, is answered [ErrAuthorIsInactive]. *)
Theorem deactivated_user_is_left_out id db db1 user :
  UserService_SetIsActive id false db = (db1, Ok user) ->
  u_IsActive user = false /\
  (forall rnd now prID prName authorID db2 pr,
     PullRequestService_CreatePR rnd now prID prName authorID db1 = (db2, Ok pr) ->
     ~ In id (pr_AssignedReviewers pr)) /\
  (forall rnd prID oldUserID db2 updated newUserID,
     PullRequestService_ReassignmentReviewers rnd prID oldUserID db1
       = (db2, Ok (updated, newUserID)) ->
     newUserID <> id) /\
  (forall rnd now prID prName,
     existsb (row_has_id prID) (pull_requests db1) = false ->
     PullRequestService_CreatePR rnd now prID prName id db1
       = (db1, Err ErrAuthorIsInactive)).
Proof.
  intros H. apply SetIsActive_inv in H.
  destruct H as (Hnil & (before & Hbefore & ->) & ->).
  split; [reflexivity|].
  assert (Hout : forall teamName excludeIDs u,
            In u (filter (active_member teamName excludeIDs)
                    (map (set_is_active false id) (users db))) ->
            u_ID u <> id).
  { intros teamName excludeIDs u Hu C.
    apply active_member_In in Hu. destruct Hu as (Hin & _ & Hact & _).
    rewrite (set_is_active_false_In id _ u Hin C) in Hact. discriminate. }
  split; [|split].
  - intros rnd now prID prName authorID db2 pr H C.
    apply CreatePR_inv in H.
    destruct H as (author & users' & _ & _ & _ & _ & _ & Hsel & _).
    destruct (getRandomReviewers_In _ _ _ _ _ id Hsel C) as (u & Hu & Hid).
    cbn [users set_users] in Hu. now apply Hout in Hu.
  - intros rnd prID oldUserID db2 updated newUserID H C. subst newUserID.
    apply ReassignmentReviewers_inv in H.
    destruct H as (r & author & users' & rest & _ & _ & _ & _ & Hsel & _).
    destruct (getRandomReviewers_In _ _ _ _ _ id Hsel (or_introl eq_refl))
      as (u & Hu & Hid).
    cbn [users set_users] in Hu. now apply Hout in Hu.
  - intros rnd now prID prName Hex.
    unfold PullRequestService_CreatePR, UserService_GetUserByID,
      PullRequestRepository_Exists, UserRepository_GetUserByID.
    unfold_m. rewrite Hex.
    apply uuid_eqb_neq in Hnil. rewrite Hnil.
    cbn [users set_users]. rewrite find_set_is_active, Hbefore. simpl.
    unfold set_is_active. pose proof (find_some _ _ Hbefore) as [_ Hid].
    rewrite Hid. reflexivity.
Qed.

(** ** [SetIsActive] *)

(** X9.  [SetIsActive] answers [ErrOneOfParametersNil] (400) for the nil
    id and [ErrNotFound] (404) for an id the directory does not know, and
    writes nothing in either case.  For a known id it succeeds: the user
    handed back is the stored one with the flag as asked and name and team
    as before, [GetUserByID] then reads that user, every other user is read
    as before, and teams, pull requests and reviewers are untouched. *)
Theorem SetIsActive_sets_one_flag id isActive db :
  (id = uuid_Nil ->
   UserService_SetIsActive id isActive db = (db, Err ErrOneOfParametersNil) /\
   SetUserActiveStatus_responseError ErrOneOfParametersNil
     = (400%Z, codeParametersIncorrect)) /\
  (id <> uuid_Nil -> ~ In id (map u_ID (users db)) ->
   UserService_SetIsActive id isActive db = (db, Err ErrNotFound) /\
   SetUserActiveStatus_responseError ErrNotFound = (404%Z, codeNotFound)) /\
  (forall before,
     id <> uuid_Nil ->
     UserRepository_GetUserByID id db = Ok before ->
     exists db',
       UserService_SetIsActive id isActive db
         = (db', Ok (mkUser id (u_Username before) isActive (u_TeamName before))) /\
       UserRepository_GetUserByID id db'
         = Ok (mkUser id (u_Username before) isActive (u_TeamName before)) /\
       (forall other, other <> id ->
          UserRepository_GetUserByID other db' = UserRepository_GetUserByID other db) /\
       teams db' = teams db /\
       pull_requests db' = pull_requests db /\
       pull_request_reviewers db' = pull_request_reviewers db).
Proof.
  split; [|split].
  - intros ->. split; reflexivity.
  - intros Hnil Hnot. split; [|reflexivity].
    unfold UserService_SetIsActive, UserRepository_SetIsActive. unfold_m.
    apply uuid_eqb_neq in Hnil. rewrite Hnil.
    assert (E : length (filter (user_has_id id) (users db)) = 0).
    { apply filter_length_zero. intros x Hx.
      destruct (user_has_id id x) eqn:Hid; [|reflexivity].
      exfalso. apply Hnot. unfold user_has_id in Hid. apply uuid_eqb_eq in Hid.
      rewrite <- Hid. now apply in_map. }
    rewrite E. reflexivity.
  - intros before Hnil Hget.
    unfold UserRepository_GetUserByID in Hget.
    destruct (find (user_has_id id) (users db)) as [b|] eqn:Hf; [|discriminate].
    inversion Hget; subst b. clear Hget.
    pose proof (find_user _ _ _ Hf) as [_ Hid].
    exists (set_users db (map (set_is_active isActive id) (users db))).
    assert (Hafter : find (user_has_id id) (map (set_is_active isActive id) (users db))
                     = Some (mkUser id (u_Username before) isActive (u_TeamName before))).
    { rewrite find_set_is_active, Hf. simpl. unfold set_is_active.
      pose proof (find_some _ _ Hf) as [_ Hb]. rewrite Hb, Hid. reflexivity. }
    split.
    { unfold UserService_SetIsActive, UserRepository_SetIsActive,
        UserRepository_GetUserByID. unfold_m.
      apply uuid_eqb_neq in Hnil. rewrite Hnil.
      destruct (_ =? 0) eqn:Hrows.
      - exfalso. apply Nat.eqb_eq in Hrows.
        pose proof (proj1 (filter_length_zero _ _) Hrows before) as C.
        pose proof (find_some _ _ Hf) as [Hin Hb]. specialize (C Hin). congruence.
      - cbn [users set_users]. rewrite Hafter. reflexivity. }
    split.
    { unfold UserRepository_GetUserByID. cbn [users set_users]. now rewrite Hafter. }
    split; [|repeat split].
    intros other Hother. unfold UserRepository_GetUserByID. cbn [users set_users].
    rewrite find_set_is_active.
    destruct (find (user_has_id other) (users db)) as [o|] eqn:Ho; simpl; [|reflexivity].
    unfold set_is_active. destruct (user_has_id id o) eqn:E; [|reflexivity].
    exfalso. apply find_user in Ho. destruct Ho as [_ Ho].
    unfold user_has_id in E. apply uuid_eqb_eq in E. congruence.
Qed.


(** ** [SetMerge] *)

(** X10.  [SetMerge] on a pull request the store holds succeeds whatever
    the status of the pull request: it hands back the pull request with
    status MERGED and the time of this call as merge time (a pull request
    merged before gets the new time), its id, name, author, creation time
    and reviewers as they were; every other pull request is read as
    before, and users, teams and reviewer rows are untouched. *)
Theorem SetMerge_stamps_the_pull_request now prID db before :
  PullRequestRepository_GetPRByID prID db = Ok before ->
  exists db',
    PullRequestService_SetMerge now prID db
      = (db', Ok (mkPullRequest (pr_ID before) (pr_Name before) StatusMerged
                    (pr_AuthorID before) (pr_AssignedReviewers before)
                    (pr_CreatedAt before) (Some now))) /\
    (forall other, other <> prID ->
       PullRequestRepository_GetPRByID other db'
       = PullRequestRepository_GetPRByID other db) /\
    users db' = users db /\ teams db' = teams db /\
    pull_request_reviewers db' = pull_request_reviewers db.
Proof.
  intros H. unfold PullRequestRepository_GetPRByID in H.
  destruct (find (row_has_id prID) (pull_requests db)) as [r|] eqn:Hr; [|discriminate].
  inversion H; subst before; clear H. cbn [pr_ID pr_Name pr_AuthorID
    pr_AssignedReviewers pr_CreatedAt].
  exists (set_pull_requests db (map (set_merged now prID) (pull_requests db))).
  pose proof (find_some _ _ Hr) as [Hin Hid].
  split; [|split; [|repeat split]].
  - unfold PullRequestService_SetMerge, PullRequestRepository_Exists,
      PullRequestRepository_SetMerge. unfold_m.
    rewrite (find_Some_existsb _ _ _ Hr). cbn [negb].
    destruct (_ =? 0) eqn:Hrows.
    + exfalso. apply Nat.eqb_eq in Hrows.
      pose proof (proj1 (filter_length_zero _ _) Hrows r Hin). congruence.
    + unfold PullRequestRepository_GetPRByID.
      cbn [pull_requests set_pull_requests]. rewrite find_set_merged, Hr. simpl.
      unfold set_merged. rewrite Hid. reflexivity.
  - intros other Hother. unfold PullRequestRepository_GetPRByID.
    cbn [pull_requests set_pull_requests]. rewrite find_set_merged.
    destruct (find (row_has_id other) (pull_requests db)) as [o|] eqn:Ho; simpl;
      [|reflexivity].
    unfold set_merged. destruct (row_has_id prID o) eqn:E; [|reflexivity].
    exfalso. apply find_row in Ho. destruct Ho as [_ Ho].
    unfold row_has_id in E. apply String.eqb_eq in E. congruence.
Qed.

(** X11.  A merge asked for an id the store does not know is answered
    [ErrPRNotExist] and writes nothing.  The handler of the merge has a
    case for [ErrNotFound] alone: this answer of the service reaches the
    client as 500 INTERNAL_ERROR, where an error that wraps [ErrNotFound]
    is reported as 404 NOT_FOUND. *)
Theorem SetMerge_unknown_id_is_internal_error now prID db :
  PullRequestRepository_GetPRByID prID db = Err ErrNotFound ->
  PullRequestService_SetMerge now prID db = (db, Err ErrPRNotExist) /\
  errors_Is ErrPRNotExist ErrNotFound = false /\
  SetMerge_responseError ErrPRNotExist = (500%Z, codeInternalError) /\
  forall msg, SetMerge_responseError (Errorf msg ErrNotFound) = (404%Z, codeNotFound).
Proof.
  intros Hget. unfold PullRequestRepository_GetPRByID in Hget.
  destruct (find (row_has_id prID) (pull_requests db)) as [r|] eqn:Hr; [discriminate|].
  apply find_row_None in Hr.
  split; [|repeat split].
  unfold PullRequestService_SetMerge, PullRequestRepository_Exists.
  unfold_m. rewrite Hr. reflexivity.
Qed.


(** ** The reviews of a user *)

(** A row occurs once at most among rows that are not repeated. *)
Lemma filter_is_row_length prID id rows :
  NoDup rows ->
  length (filter (is_row prID id) rows)
  = if existsb (is_row prID id) rows then 1 else 0.
Proof.
  induction rows as [|x rows IH]; simpl; intros Hnd; [reflexivity|].
  inversion Hnd as [|? ? Hnin Hnd']; subst.
  destruct (is_row prID id x) eqn:E; simpl.
  - apply is_row_true in E. subst x. f_equal.
    apply filter_length_zero. intros y Hy.
    destruct (is_row prID id y) eqn:E'; [|reflexivity].
    apply is_row_true in E'. subst y. contradiction.
  - now apply IH.
Qed.

Lemma GetByReviewerID_ids id rows ps pid :
  In pid (map pr_ID
            (flat_map (fun p => map (fun _ => pr_of_row p)
                                    (filter (is_row (row_id p) id) rows)) ps))
  <-> In pid (map row_id ps) /\ In (pid, id) rows.
Proof.
  rewrite in_map_iff. split.
  - intros (pr & Hpid & Hin). apply in_flat_map in Hin.
    destruct Hin as (p & Hp & Hin). apply in_map_iff in Hin.
    destruct Hin as (x & <- & Hx). simpl in Hpid. subst pid.
    apply filter_In in Hx. destruct Hx as [Hx E]. apply is_row_true in E. subst x.
    split; [now apply in_map|exact Hx].
  - intros [Hp Hrow]. apply in_map_iff in Hp. destruct Hp as (p & <- & Hp).
    exists (pr_of_row p). split; [reflexivity|].
    apply in_flat_map. exists p. split; [exact Hp|].
    apply in_map_iff. exists (row_id p, id). split; [reflexivity|].
    apply filter_In. split; [exact Hrow|]. now apply is_row_true.
Qed.

Lemma GetByReviewerID_NoDup id rows ps :
  NoDup rows -> NoDup (map row_id ps) ->
  NoDup (map pr_ID
           (flat_map (fun p => map (fun _ => pr_of_row p)
                                   (filter (is_row (row_id p) id) rows)) ps)).
Proof.
  intros Hrows. induction ps as [|p ps IH]; simpl; intros Hps; [constructor|].
  inversion Hps as [|? ? Hnin Hnd]; subst.
  rewrite map_app. apply NoDup_app_disjoint.
  - pose proof (filter_is_row_length (row_id p) id rows Hrows) as Hlen.
    destruct (filter (is_row (row_id p) id) rows) as [|x [|y l]]; simpl.
    + constructor.
    + constructor; [intros []|constructor].
    + simpl in Hlen. destruct (existsb _ rows); discriminate.
  - now apply IH.
  - intros pid H1 H2. apply GetByReviewerID_ids in H2. destruct H2 as [H2 _].
    apply in_map_iff in H1. destruct H1 as (pr & <- & Hpr).
    apply in_map_iff in Hpr. destruct Hpr as (x & <- & _). simpl in H2. contradiction.
Qed.

Lemma GetByReviewerID_length db id :
  NoDup (pull_request_reviewers db) ->
  length (flat_map (fun p => map (fun _ => pr_of_row p)
                                 (filter (is_row (row_id p) id) (pull_request_reviewers db)))
                   (pull_requests db))
  = prs_reviewed_by db id.
Proof.
  intros Hrows. unfold prs_reviewed_by.
  induction (pull_requests db) as [|p ps IH]; simpl; [reflexivity|].
  rewrite length_app, length_map, IH, (filter_is_row_length _ _ _ Hrows).
  rewrite existsb_reviewers_of.
  destruct (existsb (is_row (row_id p) id) (pull_request_reviewers db)); reflexivity.
Qed.

(** X12.  [GetReviewsForUser] answers [ErrNotFound] (404) for a user the
    directory does not know.  For a known user, in every state the service
    can reach, it lists exactly the pull requests, of any status, that have
    the user among their reviewers, each once and with the id, name, status
    and author the store holds, the reviewers left out; there are as many
    of them as [GetUserReviewStats] counts for that user. *)
Theorem GetReviewsForUser_lists_assignments userID db :
  (~ In userID (map u_ID (users db)) ->
   UserService_GetReviewsForUser userID db = (db, Err ErrNotFound) /\
   GetUserReview_responseError ErrNotFound = (404%Z, codeNotFound)) /\
  (reachable db -> In userID (map u_ID (users db)) ->
   exists prs stats,
     UserService_GetReviewsForUser userID db = (db, Ok prs) /\
     NoDup (map pr_ID prs) /\
     (forall prID, In prID (map pr_ID prs) <-> In userID (reviewers_of db prID)) /\
     (forall pr, In pr prs ->
        pr_AssignedReviewers pr = [] /\
        exists stored,
          PullRequestRepository_GetPRByID (pr_ID pr) db = Ok stored /\
          pr_Name pr = pr_Name stored /\ pr_Status pr = pr_Status stored /\
          pr_AuthorID pr = pr_AuthorID stored) /\
     StatsService_GetUserReviewStats db = (db, Ok stats) /\
     (forall s, In s stats -> st_UserID s = userID -> st_ReviewCount s = length prs)).
Proof.
  split.
  - intros Hnot. split; [|reflexivity].
    unfold UserService_GetReviewsForUser, UserRepository_GetUserByID. unfold_m.
    destruct (find (user_has_id userID) (users db)) as [u|] eqn:Hf; [|reflexivity].
    exfalso. apply Hnot. apply find_user in Hf. destruct Hf as [Hin <-].
    now apply in_map.
  - intros Hreach Hknown. pose proof (reachable_inv db Hreach) as Hinv.
    destruct (find_user_Some _ _ Hknown) as [u Hu].
    eexists _, _. split.
    { unfold UserService_GetReviewsForUser, UserRepository_GetUserByID,
        PullRequestRepository_GetByReviewerID. unfold_m. rewrite Hu. reflexivity. }
    split; [apply GetByReviewerID_NoDup;
            [apply (inv_reviewers_set db Hinv) | apply (inv_prs_key db Hinv)]|].
    split.
    { intros prID. rewrite GetByReviewerID_ids, In_reviewers_of. split; [tauto|].
      intros H. split; [|exact H]. apply (inv_reviewer_pr db Hinv _ H). }
    split.
    { intros pr Hpr. apply in_flat_map in Hpr. destruct Hpr as (p & Hp & Hpr).
      apply in_map_iff in Hpr. destruct Hpr as (x & <- & _).
      split; [reflexivity|]. simpl.
      assert (Hfind : find (row_has_id (row_id p)) (pull_requests db) = Some p).
      { destruct (find (row_has_id (row_id p)) (pull_requests db)) as [q|] eqn:Hq.
        - f_equal. apply find_row in Hq. destruct Hq as [Hqin Hqid].
          apply (NoDup_map_eq row_id (pull_requests db)); auto.
          apply (inv_prs_key db Hinv).
        - exfalso. apply (find_none _ _ Hq) in Hp. unfold row_has_id in Hp.
          rewrite String.eqb_refl in Hp. discriminate. }
      unfold PullRequestRepository_GetPRByID. rewrite Hfind.
      eexists. split; [reflexivity|]. simpl. auto. }
    split; [reflexivity|].
    intros s Hs Hid.
    apply (Permutation_in _ (order_by_review_count_desc_Permutation _)) in Hs.
    unfold stats_rows in Hs. apply in_map_iff in Hs. destruct Hs as (v & <- & _).
    simpl in *. subst userID.
    rewrite (GetByReviewerID_length db (u_ID v) (inv_reviewers_set db Hinv)).
    now apply review_count_prs_reviewed_by.
Qed.

(** ** The counts add up *)

Lemma list_sum_Permutation l l' : Permutation l l' -> list_sum l = list_sum l'.
Proof.
  induction 1; simpl; lia.
Qed.

Lemma filter_user_has_id_one id us :
  NoDup (map u_ID us) -> In id (map u_ID us) ->
  length (filter (user_has_id id) us) = 1.
Proof.
  induction us as [|u us IH]; simpl; intros Hnd Hin; [contradiction|].
  inversion Hnd as [|? ? Hnin Hnd']; subst.
  unfold user_has_id at 1. destruct (uuid_eqb (u_ID u) id) eqn:E; simpl.
  - apply uuid_eqb_eq in E. subst id. f_equal.
    apply filter_length_zero. intros x Hx.
    destruct (user_has_id (u_ID u) x) eqn:Ex; [|reflexivity].
    exfalso. apply Hnin. unfold user_has_id in Ex. apply uuid_eqb_eq in Ex.
    rewrite <- Ex. now apply in_map.
  - apply uuid_eqb_neq in E. destruct Hin as [Hin|Hin]; [contradiction|].
    now apply IH.
Qed.

(** Summing over the users the rows that name each of them counts every
    row once. *)
Lemma sum_of_review_counts us rows :
  NoDup (map u_ID us) ->
  (forall x, In x rows -> In (snd x) (map u_ID us)) ->
  list_sum (map (fun u => length (filter (fun x : string * UUID => uuid_eqb (snd x) (u_ID u))
                                         rows)) us)
  = length rows.
Proof.
  intros Hnd. induction rows as [|x rows IH]; intros Hfk.
  - simpl. clear Hnd Hfk. induction us as [|u us IHu]; simpl; auto.
  - assert (IH' := IH (fun y Hy => Hfk y (or_intror Hy))).
    assert (Hx := Hfk x (or_introl eq_refl)).
    assert (Hstep :
      list_sum (map (fun u => length (filter (fun y : string * UUID =>
                                                uuid_eqb (snd y) (u_ID u)) (x :: rows))) us)
      = length (filter (user_has_id (snd x)) us)
        + list_sum (map (fun u => length (filter (fun y : string * UUID =>
                                                    uuid_eqb (snd y) (u_ID u)) rows)) us)).
    { clear.
      assert (Hc : forall a l, list_sum (a :: l) = a + list_sum l) by reflexivity.
      induction us as [|u us IHu]; [reflexivity|].
      rewrite !map_cons, !Hc, IHu. cbn [filter].
      assert (E : user_has_id (snd x) u = uuid_eqb (snd x) (u_ID u))
        by apply N.eqb_sym.
      rewrite E.
      destruct (uuid_eqb (snd x) (u_ID u)); cbn [length]; lia. }
    rewrite Hstep, IH', (filter_user_has_id_one (snd x) us Hnd Hx). reflexivity.
Qed.

(** X13.  In every state the service can reach, the counts that
    [GetUserReviewStats] reports add up to the number of reviewer
    assignments the store holds: every assignment is counted, for exactly
    one user. *)
Theorem review_counts_add_up db :
  reachable db ->
  exists stats,
    StatsService_GetUserReviewStats db = (db, Ok stats) /\
    total_reviews stats = length (pull_request_reviewers db).
Proof.
  intros Hreach.
  pose proof (reachable_inv db Hreach) as Hinv.
  pose proof (reachable_inv_more db Hreach) as Hmore.
  eexists. split; [reflexivity|].
  unfold total_reviews.
  rewrite (list_sum_Permutation _ (map st_ReviewCount (stats_rows db))).
  - unfold stats_rows. rewrite map_map. simpl. unfold review_count.
    apply sum_of_review_counts.
    + apply (inv_users_key db Hinv).
    + apply (inv_reviewer_user db Hmore).
  - apply Permutation_map, order_by_review_count_desc_Permutation.
Qed.


(** ** Teams *)

Lemma find_upsert_user id us u :
  find (user_has_id id) (upsert_user us u)
  = if uuid_eqb (u_ID u) id then Some u else find (user_has_id id) us.
Proof.
  induction us as [|x t IH]; simpl.
  - unfold user_has_id. now destruct (uuid_eqb (u_ID u) id).
  - destruct (user_has_id (u_ID u) x) eqn:Hx; simpl.
    + unfold user_has_id in *. apply uuid_eqb_eq in Hx.
      destruct (uuid_eqb (u_ID u) id) eqn:E; [reflexivity|].
      rewrite Hx, E. reflexivity.
    + unfold user_has_id in *. rewrite IH.
      destruct (uuid_eqb (u_ID x) id) eqn:Ex; [|reflexivity].
      apply uuid_eqb_eq in Ex. apply uuid_eqb_neq in Hx.
      destruct (uuid_eqb (u_ID u) id) eqn:E; [|reflexivity].
      apply uuid_eqb_eq in E. congruence.
Qed.

(** How the loop of [CreateTeamWithMembersTx] leaves the rows of [users],
    seen through the lookup by id. *)
Lemma save_members_find db teamName members db' :
  save_members db teamName members = Some db' ->
  (forall id, ~ In id (map u_ID members) ->
     find (user_has_id id) (users db') = find (user_has_id id) (users db)) /\
  (NoDup (map u_ID members) ->
   forall m, In m members ->
     find (user_has_id (u_ID m)) (users db')
     = Some (mkUser (u_ID m) (u_Username m) (u_IsActive m) teamName)) /\
  (forall x, In x (users db') ->
     In x (users db) \/
     exists m, In m members /\
               x = mkUser (u_ID m) (u_Username m) (u_IsActive m) teamName).
Proof.
  revert db; induction members as [|m0 rest IH]; simpl; intros db H.
  - inversion H; subst. repeat split; auto. intros _ m [].
  - unfold exec_saveUserQuery in H. simpl in H.
    destruct (team_known db teamName); [|discriminate].
    set (m0' := mkUser (u_ID m0) (u_Username m0) (u_IsActive m0) teamName) in *.
    destruct (IH _ H) as (Hother & Hmem & Hrows).
    cbn [users set_users] in Hother, Hmem, Hrows |- *.
    split; [|split].
    + intros id Hnot. rewrite Hother by (intros C; apply Hnot; now right).
      rewrite find_upsert_user. simpl.
      destruct (uuid_eqb (u_ID m0) id) eqn:E; [|reflexivity].
      apply uuid_eqb_eq in E. exfalso. apply Hnot. now left.
    + intros Hnd m Hm. inversion Hnd as [|? ? Hnin Hnd']; subst.
      destruct Hm as [<-|Hm]; [|now apply Hmem].
      rewrite Hother by exact Hnin. rewrite find_upsert_user. simpl.
      unfold uuid_eqb. now rewrite N.eqb_refl.
    + intros x Hx. destruct (Hrows x Hx) as [Hin|(m & Hm & ->)].
      * apply upsert_user_In in Hin. destruct Hin as [->|Hin]; [|now left].
        right. exists m0. auto.
      * right. exists m. auto.
Qed.

Lemma scan_team_rows_users t us team members :
  scan_team_rows (map (fun u => (t, Some u)) us) team members
  = Ok (match team with
        | Some _ => team
        | None => match us with [] => None | _ => Some t end
        end,
        members ++ filter (fun u => negb (uuid_eqb (u_ID u) uuid_Nil)) us).
Proof.
  revert team members; induction us as [|u us IH]; intros team members; simpl.
  - rewrite app_nil_r. now destruct team.
  - rewrite IH. destruct team; destruct (uuid_eqb (u_ID u) uuid_Nil); simpl;
      rewrite <- ?app_assoc; reflexivity.
Qed.

Lemma filter_eqb_NoDup name ts :
  NoDup ts -> In name ts -> filter (fun t => String.eqb t name) ts = [name].
Proof.
  induction ts as [|t ts IH]; simpl; intros Hnd Hin; [contradiction|].
  inversion Hnd as [|? ? Hnin Hnd']; subst.
  destruct (String.eqb_spec t name) as [->|Hne].
  - f_equal. apply filter_none. intros x Hx.
    destruct (String.eqb_spec x name); [subst; contradiction|reflexivity].
  - destruct Hin as [Hin|Hin]; [contradiction|]. now apply IH.
Qed.

Lemma GetTeamByName_with_members db name u0 :
  NoDup (teams db) -> In name (teams db) ->
  In u0 (users db) -> u_TeamName u0 = name ->
  TeamRepository_GetTeamByName name db = Ok (mkTeam name (listed_members db name)).
Proof.
  intros Hnd Hin Hu0 Ht0.
  unfold TeamRepository_GetTeamByName, team_join_rows.
  rewrite (filter_eqb_NoDup name (teams db) Hnd Hin). simpl. rewrite app_nil_r.
  destruct (filter (fun u => String.eqb name (u_TeamName u)) (users db))
    as [|u us] eqn:Ef.
  - exfalso. assert (Hf : In u0 (filter (fun u => String.eqb name (u_TeamName u)) (users db))).
    { apply filter_In. split; auto. rewrite Ht0. apply String.eqb_refl. }
    rewrite Ef in Hf. contradiction.
  - change ((name, Some u) :: map (fun u1 : User => (name, Some u1)) us)
      with (map (fun u1 : User => (name, Some u1)) (u :: us)).
    rewrite scan_team_rows_users. unfold listed_members. rewrite Ef. reflexivity.
Qed.



Lemma run_app cs cs' db : run (cs ++ cs') db = run cs' (run cs db).
Proof. unfold run. apply fold_left_app. Qed.

Lemma reachable_exec c db : reachable db -> reachable (exec c db).
Proof.
  intros [cs ->]. exists (cs ++ [c]). now rewrite run_app.
Qed.

(** What a successful [CreateTeamWithMembers] has checked. *)
Lemma CreateTeamWithMembers_Ok_checks team db db' t :
  TeamService_CreateTeamWithMembers team db = (db', Ok t) ->
  t_Members team <> [] /\ ~ In (t_Name team) (teams db).
Proof.
  unfold TeamService_CreateTeamWithMembers, TeamRepository_ExistsTeam. unfold_m.
  destruct (String.eqb (t_Name team) ""); [discriminate|].
  destruct (t_Members team) as [|m ms] eqn:Em; [discriminate|].
  cbn [length Nat.eqb].
  destruct (team_known db (t_Name team)) eqn:Hknown; [discriminate|].
  intros _. split; [discriminate|].
  intros C. unfold team_known in Hknown.
  assert (existsb (String.eqb (t_Name team)) (teams db) = true).
  { apply existsb_exists. exists (t_Name team). split; auto. apply String.eqb_refl. }
  congruence.
Qed.

(** X15.  In every state the service can reach, a team that has just
    been created can be read back: [GetTeamByName] hands back its name and,
    as members, exactly the members of the request whose id is not
    [uuid.Nil], each with the name and flag of the request and the name of
    the team as team name. *)
Theorem created_team_is_read_back team db db' t :
  reachable db ->
  TeamService_CreateTeamWithMembers team db = (db', Ok t) ->
  exists got,
    TeamService_GetTeamByName (t_Name team) db' = (db', Ok got) /\
    t_Name got = t_Name team /\
    (forall u, In u (t_Members got) ->
       u_ID u <> uuid_Nil /\
       exists m, In m (t_Members team) /\
                 u = mkUser (u_ID m) (u_Username m) (u_IsActive m) (t_Name team)) /\
    (forall m, In m (t_Members team) -> u_ID m <> uuid_Nil ->
       In (u_ID m) (map u_ID (t_Members got))).
Proof.
  intros Hreach H.
  pose proof (reachable_inv_more db Hreach) as Hmore.
  assert (Hreach' : reachable db').
  { pose proof (reachable_exec (CmdCreateTeam team) db Hreach) as R.
    simpl in R. now rewrite H in R. }
  pose proof (reachable_inv_more db' Hreach') as Hmore'.
  destruct (CreateTeamWithMembers_Ok_checks _ _ _ _ H) as [Hne Hfresh].
  apply CreateTeamWithMembers_inv in H. destruct H as (_ & Hname & Hsave).
  pose proof (save_members_effect _ _ _ _ Hsave) as (_ & _ & _ & _ & _ & _ & Hmem & _).
  pose proof (save_members_find _ _ _ _ Hsave) as (_ & _ & Hrows).
  cbn [users set_teams] in Hrows.
  destruct (t_Members team) as [|m0 ms] eqn:Em; [contradiction|].
  destruct (Hmem m0 (or_introl eq_refl)) as (x0 & Hx0 & _ & Hx0t).
  exists (mkTeam (t_Name team) (listed_members db' (t_Name team))).
  split.
  { unfold TeamService_GetTeamByName. unfold_m.
    rewrite (GetTeamByName_with_members db' (t_Name team) x0); auto.
    - apply (inv_teams_key db' Hmore').
    - rewrite <- Hx0t. now apply (inv_user_team db' Hmore'). }
  split; [reflexivity|]. cbn [t_Members]. split.
  - intros u Hu. unfold listed_members in Hu.
    apply filter_In in Hu. destruct Hu as [Hu Hnil].
    apply filter_In in Hu. destruct Hu as [Hu Hteam].
    apply negb_true_iff, uuid_eqb_neq in Hnil. apply String.eqb_eq in Hteam.
    split; [exact Hnil|].
    destruct (Hrows u Hu) as [Hold|Hnew]; [|exact Hnew].
    exfalso. apply Hfresh. rewrite Hteam. now apply (inv_user_team db Hmore).
  - intros m Hm Hnil. destruct (Hmem m Hm) as (x & Hx & Hid & Hxt).
    rewrite <- Hid. apply in_map. unfold listed_members.
    apply filter_In. split.
    + apply filter_In. split; [exact Hx|]. rewrite Hxt. apply String.eqb_refl.
    + apply negb_true_iff, uuid_eqb_neq. congruence.
Qed.

(** X16.  The two conversions between the request body and the domain
    team undo each other on the body; so the body answered by a successful
    team creation, which converts the team the service hands back, is the
    body of the request, name and members as sent.  The team the service
    hands back is the argument itself: its members still carry the empty
    team name the conversion gave them. *)
Theorem CreateTeam_echoes_the_request req :
  FromTeamDomain (ToTeamDomain req) = req /\
  forall db db' t,
    TeamService_CreateTeamWithMembers (ToTeamDomain req) db = (db', Ok t) ->
    FromTeamDomain t = req /\
    (forall m, In m (t_Members t) -> u_TeamName m = "").
Proof.
  assert (Hround : FromTeamDomain (ToTeamDomain req) = req).
  { destruct req as [name members]. unfold FromTeamDomain, ToTeamDomain. simpl.
    f_equal. rewrite map_map. simpl.
    induction members as [|[i n a] ms IH]; simpl; [reflexivity|]. now rewrite IH. }
  split; [exact Hround|].
  intros db db' t H. apply CreateTeamWithMembers_inv in H. destruct H as (-> & _ & _).
  split; [exact Hround|].
  intros m Hm. unfold ToTeamDomain in Hm. simpl in Hm.
  apply in_map_iff in Hm. destruct Hm as (x & <- & _). reflexivity.
Qed.

Lemma exec_keeps_team c db name :
  In name (teams db) -> In name (teams (exec c db)).
Proof.
  intros Hin.
  destruct c as [team|uid isActive|rnd now prID prName authorID
                 |rnd prID oldUserID|now prID]; simpl.
  - destruct (TeamService_CreateTeamWithMembers team db) as [db' res] eqn:E.
    apply CreateTeamWithMembers_inv in E. simpl.
    destruct res as [t| |]; try (subst; exact Hin).
    destruct E as (_ & _ & Hsave). apply save_members_effect in Hsave.
    destruct Hsave as (Ht & _). rewrite Ht. simpl. apply in_or_app. now left.
  - destruct (SetIsActive_effect uid isActive db) as [E|E]; rewrite E; exact Hin.
  - destruct (PullRequestService_CreatePR rnd now prID prName authorID db)
      as [db' res] eqn:E.
    apply CreatePR_inv in E. simpl.
    destruct res as [pr| |]; try (subst; exact Hin).
    destruct E as (author & users' & _ & _ & _ & _ & _ & _ & _ & ->). exact Hin.
  - destruct (PullRequestService_ReassignmentReviewers rnd prID oldUserID db)
      as [db' res] eqn:E.
    apply ReassignmentReviewers_inv in E. simpl.
    destruct res as [[updated new]| |]; try (subst; exact Hin).
    destruct E as (r0 & author & users' & rest & _ & _ & _ & _ & _ & _ & -> & _).
    exact Hin.
  - destruct (PullRequestService_SetMerge now prID db) as [db' res] eqn:E.
    apply SetMerge_inv in E. simpl.
    destruct res as [pr| |]; try (subst; exact Hin).
    destruct E as (_ & -> & _). exact Hin.
Qed.

Lemma run_keeps_team cs db name :
  In name (teams db) -> In name (teams (run cs db)).
Proof.
  revert db; induction cs as [|c cs IH]; simpl; intros db H; auto.
  apply IH. now apply exec_keeps_team.
Qed.

(** X17.  [CreateTeamWithMembers] refuses a team without a name and a
    team without members with [ErrOneOfParametersNil] (400), writing
    nothing.  And the name of a team is taken for good: after a successful
    creation, and whatever commands follow, a creation under the same name
    is answered [ErrTeamExists] (409) and writes nothing. *)
Theorem team_name_stays_taken team db :
  (t_Name team = "" \/ t_Members team = [] ->
   TeamService_CreateTeamWithMembers team db = (db, Err ErrOneOfParametersNil) /\
   CreateTeam_responseError ErrOneOfParametersNil = (400%Z, codeParametersIncorrect)) /\
  (forall db1 t,
     TeamService_CreateTeamWithMembers team db = (db1, Ok t) ->
     forall cs members,
       members <> [] ->
       TeamService_CreateTeamWithMembers (mkTeam (t_Name team) members) (run cs db1)
         = (run cs db1, Err ErrTeamExists) /\
       CreateTeam_responseError ErrTeamExists = (409%Z, codeTeamExists)).
Proof.
  split.
  - intros H. split; [|reflexivity].
    unfold TeamService_CreateTeamWithMembers. unfold_m.
    destruct (String.eqb_spec (t_Name team) ""); [reflexivity|].
    destruct H as [H|H]; [contradiction|]. rewrite H. reflexivity.
  - intros db1 t H cs members Hne. split; [|reflexivity].
    apply CreateTeamWithMembers_inv in H. destruct H as (_ & Hname & Hsave).
    apply save_members_effect in Hsave. destruct Hsave as (Ht & _).
    assert (Hin : In (t_Name team) (teams (run cs db1))).
    { apply run_keeps_team. rewrite Ht. simpl. apply in_or_app. right. now left. }
    unfold TeamService_CreateTeamWithMembers, TeamRepository_ExistsTeam. unfold_m.
    cbn [t_Name t_Members]. apply String.eqb_neq in Hname. rewrite Hname.
    destruct members as [|m ms]; [contradiction|]. cbn [length Nat.eqb].
    assert (Hk : team_known (run cs db1) (t_Name team) = true).
    { unfold team_known. apply existsb_exists. exists (t_Name team).
      split; [exact Hin|apply String.eqb_refl]. }
    rewrite Hk. reflexivity.
Qed.

(** X18.  A successful [CreateTeamWithMembers] adds the name to the
    teams and leaves pull requests and reviewer rows alone.  It writes over
    a user it is given: when the ids of the request are distinct, looking a
    member up afterwards gives the name and flag of the request and the new
    team, whatever the directory held for that id (a user of another team
    is moved).  A user the request does not name is read as before. *)
Theorem CreateTeam_overwrites_its_members team db db' t :
  TeamService_CreateTeamWithMembers team db = (db', Ok t) ->
  teams db' = teams db ++ [t_Name team] /\
  pull_requests db' = pull_requests db /\
  pull_request_reviewers db' = pull_request_reviewers db /\
  (forall id, ~ In id (map u_ID (t_Members team)) ->
     UserRepository_GetUserByID id db' = UserRepository_GetUserByID id db) /\
  (NoDup (map u_ID (t_Members team)) ->
   forall m, In m (t_Members team) ->
     UserRepository_GetUserByID (u_ID m) db'
     = Ok (mkUser (u_ID m) (u_Username m) (u_IsActive m) (t_Name team))).
Proof.
  intros H. apply CreateTeamWithMembers_inv in H. destruct H as (_ & _ & Hsave).
  pose proof (save_members_effect _ _ _ _ Hsave) as (Ht & Hp & Hr & _).
  pose proof (save_members_find _ _ _ _ Hsave) as (Hother & Hmem & _).
  cbn [users teams pull_requests pull_request_reviewers set_teams]
    in Ht, Hp, Hr, Hother, Hmem.
  repeat split; auto.
  - intros id Hid. unfold UserRepository_GetUserByID. now rewrite Hother.
  - intros Hnd m Hm. unfold UserRepository_GetUserByID. now rewrite Hmem.
Qed.

(** X19.  [UserService.SaveUser] refuses a user whose id is [uuid.Nil]
    with [ErrUserIDNil] and, the team name being a foreign key, a user of a
    team that does not exist; nothing is written then.  Otherwise the user
    is stored: [GetUserByID] reads back exactly the user saved, whether the
    id was new or known, and every other user is read as before. *)
Theorem SaveUser_then_GetUserByID user db :
  (u_ID user = uuid_Nil ->
   UserService_SaveUser user db = (db, Err ErrUserIDNil)) /\
  (u_ID user <> uuid_Nil -> ~ In (u_TeamName user) (teams db) ->
   exists err, UserService_SaveUser user db = (db, Err err)) /\
  (u_ID user <> uuid_Nil -> In (u_TeamName user) (teams db) ->
   exists db',
     UserService_SaveUser user db = (db', Ok tt) /\
     UserRepository_GetUserByID (u_ID user) db' = Ok user /\
     (forall other, other <> u_ID user ->
        UserRepository_GetUserByID other db' = UserRepository_GetUserByID other db) /\
     teams db' = teams db /\ pull_requests db' = pull_requests db /\
     pull_request_reviewers db' = pull_request_reviewers db).
Proof.
  unfold UserService_SaveUser, UserRepository_SaveUser, exec_saveUserQuery. unfold_m.
  split; [|split].
  - intros Hnil. apply uuid_eqb_eq in Hnil. now rewrite Hnil.
  - intros Hnil Hteam. apply uuid_eqb_neq in Hnil. rewrite Hnil.
    destruct (team_known db (u_TeamName user)) eqn:Hk.
    + exfalso. apply Hteam. unfold team_known in Hk. apply existsb_exists in Hk.
      destruct Hk as (x & Hx & E). apply String.eqb_eq in E. now subst.
    + eexists. reflexivity.
  - intros Hnil Hteam. apply uuid_eqb_neq in Hnil. rewrite Hnil.
    assert (Hk : team_known db (u_TeamName user) = true).
    { unfold team_known. apply existsb_exists. exists (u_TeamName user).
      split; [exact Hteam|apply String.eqb_refl]. }
    rewrite Hk. eexists. split; [reflexivity|].
    unfold UserRepository_GetUserByID. cbn [users set_users teams pull_requests
      pull_request_reviewers].
    split; [|split; [|auto]].
    + rewrite find_upsert_user. unfold uuid_eqb. now rewrite N.eqb_refl.
    + intros other Hother. rewrite find_upsert_user.
      destruct (uuid_eqb (u_ID user) other) eqn:E; [|reflexivity].
      apply uuid_eqb_eq in E. congruence.
Qed.


(** ** More on the candidate selector *)

(** X20.  Outside the counts the service uses: on a list that is not
    empty a negative count makes [getRandomReviewers] panic (the length
    given to [make] is negative), while on the empty list any count, a
    negative one too, gives the empty answer; a count of 0 gives the empty
    answer on every list. *)
Theorem getRandomReviewers_edge_counts rnd users count :
  (users <> [] -> (count < 0)%Z -> getRandomReviewers rnd users count = None) /\
  getRandomReviewers rnd [] count = Some ([], []) /\
  (exists users', getRandomReviewers rnd users 0 = Some (users', [])).
Proof.
  split; [|split].
  - intros Hne Hneg. unfold getRandomReviewers.
    destruct users as [|u us]; [contradiction|]. cbn [length Nat.eqb].
    set (us' := Shuffle rnd (S (length us)) (u :: us)).
    destruct (Z.ltb_spec (Z.of_nat (length us')) count) as [H|H]; [lia|].
    destruct (Z.ltb_spec count 0); [reflexivity|lia].
  - reflexivity.
  - unfold getRandomReviewers. destruct (length users =? 0); [eauto|].
    destruct (Z.ltb_spec (Z.of_nat (length (Shuffle rnd (length users) users))) 0);
      [lia|].
    simpl. eauto.
Qed.

Lemma swap_same {A} (l : list A) i : swap l i i = l.
Proof.
  unfold swap. destruct (nth_error l i) as [a|] eqn:E; [|reflexivity].
  rewrite (update_same l i a E). now apply update_same.
Qed.

Lemma Shuffle_loop_identity {A} (rnd : Rand) i (l : list A) :
  (forall t, 1 <= t <= i -> rnd t mod (t + 1) = t) -> Shuffle_loop rnd i l = l.
Proof.
  induction i as [|i IH]; cbn [Shuffle_loop]; intros H; [reflexivity|].
  rewrite (H (S i)) by lia.
  rewrite swap_same. apply IH. intros t Ht. apply H. lia.
Qed.

Lemma draw_to_front_other k t : t <> k -> draw_to_front k t mod (t + 1) = t.
Proof.
  intros Hne. unfold draw_to_front.
  destruct (Nat.eqb_spec t k); [contradiction|].
  apply Nat.mod_small. lia.
Qed.

Lemma Shuffle_loop_to_front {A} k i (l : list A) :
  1 <= k -> k <= i -> Shuffle_loop (draw_to_front k) i l = swap l k 0.
Proof.
  intros Hk. induction i as [|i IH]; intros Hle; [lia|]. cbn [Shuffle_loop].
  destruct (Nat.eq_dec (S i) k) as [E|E].
  - subst k. unfold draw_to_front at 2. rewrite Nat.eqb_refl.
    rewrite Nat.Div0.mod_0_l.
    apply Shuffle_loop_identity. intros t Ht. apply draw_to_front_other. lia.
  - rewrite (draw_to_front_other k (S i) E), swap_same. apply IH. lia.
Qed.

Lemma hd_swap_front {A} (l : list A) k x :
  nth_error l k = Some x -> exists tl, swap l k 0 = x :: tl.
Proof.
  intros Hk. unfold swap. rewrite Hk.
  destruct l as [|a t]; [destruct k; discriminate|]. simpl.
  destruct k as [|k]; simpl; eauto.
Qed.

(** X21.  The selector shuts nobody out: for every candidate of the
    list and every count of at least 1, some outcome of the random draws
    makes that candidate the first id returned. *)
Theorem any_candidate_can_come_first users u count :
  In u users -> (1 <= count)%Z ->
  exists rnd users' rest,
    getRandomReviewers rnd users count = Some (users', u_ID u :: rest).
Proof.
  intros Hin Hc. apply In_nth_error in Hin. destruct Hin as [k Hk].
  assert (Hlt : k < length users) by (apply nth_error_Some; congruence).
  exists (draw_to_front k).
  assert (Hhd : exists tl, Shuffle (draw_to_front k) (length users) users = u :: tl).
  { unfold Shuffle. destruct k as [|k].
    - rewrite Shuffle_loop_identity.
      + destruct users as [|a t]; [discriminate|]. simpl in Hk. inversion Hk. eauto.
      + intros t Ht. apply draw_to_front_other. lia.
    - rewrite Shuffle_loop_to_front by lia. now apply hd_swap_front. }
  destruct Hhd as [tl Htl].
  unfold getRandomReviewers.
  destruct (Nat.eqb_spec (length users) 0) as [E|E]; [lia|].
  rewrite Htl.
  set (n := if (Z.of_nat (length (u :: tl)) <? count)%Z
            then Z.of_nat (length (u :: tl)) else count).
  assert (Hn : (1 <= n)%Z).
  { subst n. cbn [length]. destruct (Z.ltb_spec (Z.of_nat (S (length tl))) count); lia. }
  destruct (Z.ltb_spec n 0) as [Hneg|_]; [lia|].
  destruct (Z.to_nat n) as [|m] eqn:Em; [lia|].
  simpl. eauto.
Qed.


(** ** More on reassignment *)



(** X23.  In every state the service can reach, asking to replace the
    author of an open pull request is answered [ErrAuthorCannotDelete] and
    writes nothing; the handler has no case for this error and reports it
    as 500 INTERNAL_ERROR. *)
Theorem reassigning_the_author_is_refused rnd prID db pr :
  reachable db ->
  PullRequestRepository_GetPRByID prID db = Ok pr ->
  pr_Status pr = StatusOpen ->
  PullRequestService_ReassignmentReviewers rnd prID (pr_AuthorID pr) db
    = (db, Err ErrAuthorCannotDelete) /\
  Reassign_responseError ErrAuthorCannotDelete = (500%Z, codeInternalError).
Proof.
  intros Hreach Hget Hopen. split; [|reflexivity].
  pose proof (reachable_inv db Hreach) as Hinv.
  unfold PullRequestRepository_GetPRByID in Hget.
  destruct (find (row_has_id prID) (pull_requests db)) as [r|] eqn:Hr; [|discriminate].
  inversion Hget; subst pr; clear Hget. simpl in *.
  pose proof (find_row _ _ _ Hr) as [Hrin _].
  destruct (inv_author db Hinv r Hrin) as [Hnil Hknown].
  destruct (find_user_Some _ _ Hknown) as [author Hau].
  pose proof (find_user _ _ _ Hau) as [_ Hid].
  unfold PullRequestService_ReassignmentReviewers, UserService_GetUserByID,
    PullRequestRepository_Exists, UserRepository_GetUserByID.
  unfold_m. rewrite (find_Some_existsb _ _ _ Hr). cbn [negb].
  unfold PullRequestRepository_GetPRByID. rewrite Hr.
  cbn [pr_Status pr_AuthorID]. rewrite Hopen. cbn [StatusPR_eqb].
  apply uuid_eqb_neq in Hnil. rewrite Hnil, Hau.
  apply uuid_eqb_eq in Hid. rewrite Hid. reflexivity.
Qed.

(** ** When the commands succeed *)

(** A row naming a stored pull request and a known user, and not yet in
    the table, breaks neither the key nor a foreign key of the schema one
    would expect. *)
Lemma schema_ok_accepts db id r :
  existsb (row_has_id id) (pull_requests db) = true ->
  In r (map u_ID (users db)) ->
  ~ In (id, r) (pull_request_reviewers db) ->
  schema_ok db id r = true.
Proof.
  intros Hpr Hu Hnew. unfold schema_ok.
  change (fun p => String.eqb (row_id p) id) with (row_has_id id).
  change (fun u => uuid_eqb (u_ID u) r) with (user_has_id r).
  change (fun x : string * UUID => String.eqb (fst x) id && uuid_eqb (snd x) r)
    with (is_row id r).
  rewrite Hpr. apply existsb_user_has_id in Hu. rewrite Hu. cbn [andb].
  destruct (existsb (is_row id r) (pull_request_reviewers db)) eqn:E; [|reflexivity].
  exfalso. apply existsb_exists in E. destruct E as (x & Hx & E).
  apply is_row_true in E. subst x. contradiction.
Qed.

(** The rows [CopyFrom] sends are accepted one after the other when they
    name a stored pull request and known users, none twice, and none is in
    the table already. *)
Lemma copy_reviewers_accepted db id ids :
  (forall d i r, schema_ok d i r = true -> reviewer_row_ok d i r = true) ->
  existsb (row_has_id id) (pull_requests db) = true ->
  (forall r, In r ids -> In r (map u_ID (users db))) ->
  NoDup ids ->
  (forall r, In r ids -> ~ In (id, r) (pull_request_reviewers db)) ->
  exists db', copy_reviewers db id ids = Some db'.
Proof.
  intros Hschema. revert db.
  induction ids as [|r rest IH]; intros db Hpr Hus Hnd Hnew; simpl; [eauto|].
  inversion Hnd as [|? ? Hnotin Hnd']; subst.
  unfold exec_insertSpecificReviewerQuery.
  rewrite (Hschema db id r)
    by (apply schema_ok_accepts; [exact Hpr|apply Hus; now left|apply Hnew; now left]).
  apply IH.
  - exact Hpr.
  - intros r' Hr'. apply Hus. now right.
  - exact Hnd'.
  - intros r' Hr' C. cbn [pull_request_reviewers set_pull_request_reviewers] in C.
    apply in_app_or in C. destruct C as [C|[C|[]]].
    + apply (Hnew r'); [now right|exact C].
    + inversion C; subst. contradiction.
Qed.

(** X24.  Let the table of reviewers refuse no row that names a stored
    pull request and a known user and is not in the table already (it has
    at most the pair as its key and the two foreign keys).  Then in every
    state the service can reach, [CreatePR] under an id not yet taken, by a
    known and active author whose id is not [uuid.Nil], succeeds: the rows
    of the reviewers it picked are all accepted. *)
Theorem CreatePR_succeeds rnd now prID prName authorID db author :
  (forall d i r, schema_ok d i r = true -> reviewer_row_ok d i r = true) ->
  reachable db ->
  existsb (row_has_id prID) (pull_requests db) = false ->
  authorID <> uuid_Nil ->
  UserRepository_GetUserByID authorID db = Ok author ->
  u_IsActive author = true ->
  exists db' pr,
    PullRequestService_CreatePR rnd now prID prName authorID db = (db', Ok pr).
Proof.
  intros Hschema Hreach Hex Hnil Hget Hact.
  pose proof (reachable_inv db Hreach) as Hinv.
  unfold UserRepository_GetUserByID in Hget.
  destruct (find (user_has_id authorID) (users db)) as [a|] eqn:Hau; [|discriminate].
  inversion Hget; subst a; clear Hget.
  pose proof (find_user _ _ _ Hau) as [Hauin Hid].
  pose proof (inv_team_names db Hinv author Hauin) as Hteam.
  unfold PullRequestService_CreatePR, UserService_GetUserByID,
    UserService_GetActiveTeamMembers, PullRequestRepository_Exists,
    UserRepository_GetUserByID, UserRepository_GetActiveTeamMembers,
    PullRequestRepository_Create.
  unfold_m. rewrite Hex.
  apply uuid_eqb_neq in Hnil. rewrite Hnil, Hau, Hact. cbn [negb].
  apply String.eqb_neq in Hteam. rewrite Hteam.
  destruct (getRandomReviewers_total rnd
              (filter (active_member (u_TeamName author) [u_ID author]) (users db))
              countReviewers) as (users' & ids & Hsel); [unfold countReviewers; lia|].
  rewrite Hsel.
  unfold exec_createPullRequestQuery.
  cbn [pr_ID pr_Name pr_Status pr_AuthorID pr_AssignedReviewers pr_CreatedAt].
  rewrite Hex.
  assert (Hfk : existsb (user_has_id authorID) (users db) = true).
  { apply existsb_user_has_id. rewrite <- Hid. now apply in_map. }
  rewrite Hfk. cbn [negb].
  destruct (0 <? length ids); [|eauto].
  match goal with
  | |- context [copy_reviewers ?d prID ids] =>
      destruct (copy_reviewers_accepted d prID ids Hschema) as [db2 Hcopy]
  end.
  - cbn [pull_requests set_pull_requests]. rewrite existsb_app. simpl.
    unfold row_has_id at 2. cbn [row_id]. rewrite String.eqb_refl.
    apply orb_true_iff. right. reflexivity.
  - intros r Hr. cbn [users set_pull_requests].
    destruct (getRandomReviewers_In _ _ _ _ _ r Hsel Hr) as (u & Hu & <-).
    apply filter_In in Hu. apply in_map. apply Hu.
  - apply (getRandomReviewers_NoDup _ _ _ _ _ Hsel).
    apply NoDup_map_filter, (inv_users_key db Hinv).
  - intros r _ C. cbn [pull_request_reviewers set_pull_requests] in C.
    apply (inv_reviewer_pr db Hinv) in C. cbn [fst] in C.
    apply existsb_row_has_id in C. congruence.
  - rewrite Hcopy. eauto.
Qed.

(** X25.  Under the same condition on the table of reviewers: in every
    state the service can reach, asking to replace a reviewer who is
    assigned to an open pull request succeeds whenever the pool of eligible
    replacements is not empty; the row of the replacement is accepted
    because the candidates leave out everyone already assigned. *)
Theorem reassignment_succeeds rnd prID oldUserID db pr :
  (forall d i r, schema_ok d i r = true -> reviewer_row_ok d i r = true) ->
  reachable db ->
  PullRequestRepository_GetPRByID prID db = Ok pr ->
  pr_Status pr = StatusOpen ->
  In oldUserID (pr_AssignedReviewers pr) ->
  replacement_pool db prID <> [] ->
  exists db' updated newUserID,
    PullRequestService_ReassignmentReviewers rnd prID oldUserID db
      = (db', Ok (updated, newUserID)).
Proof.
  intros Hschema Hreach Hget Hopen Hin Hpool.
  pose proof (reachable_inv db Hreach) as Hinv.
  unfold PullRequestRepository_GetPRByID in Hget.
  destruct (find (row_has_id prID) (pull_requests db)) as [r|] eqn:Hr; [|discriminate].
  inversion Hget; subst pr; clear Hget. simpl in *.
  pose proof (find_row _ _ _ Hr) as [Hrin Hrid].
  destruct (inv_author db Hinv r Hrin) as [Hnil Hknown].
  destruct (find_user_Some _ _ Hknown) as [author Hau].
  pose proof (find_user _ _ _ Hau) as [Hauin Hid].
  assert (Hold : u_ID author <> oldUserID).
  { intros C. apply (inv_no_self_review db Hinv r Hrin).
    rewrite Hrid, <- Hid, C. now apply In_reviewers_of. }
  rewrite (ReassignmentReviewers_after_checks rnd prID oldUserID db r author); auto;
    [|now apply (inv_team_names db Hinv)].
  rewrite (replacement_pool_candidates db prID r author Hr Hau).
  destruct (getRandomReviewers_total rnd (replacement_pool db prID) countReassignReviewer)
    as (users' & ids & Hsel); [unfold countReassignReviewer; lia|].
  rewrite Hsel.
  destruct ids as [|newUserID rest].
  { exfalso. pose proof (getRandomReviewers_Some _ _ _ _ _ Hsel) as (_ & n & Hids & Hn & _).
    specialize (Hn Hpool). unfold countReassignReviewer in Hn.
    destruct (replacement_pool db prID) as [|c cs] eqn:Ep; [contradiction|].
    assert (n = 1) by (simpl length in Hn; lia). subst n.
    pose proof (getRandomReviewers_Some _ _ _ _ _ Hsel) as (HP & _).
    destruct users' as [|a l]; [apply Permutation_length in HP; discriminate|].
    discriminate. }
  destruct (getRandomReviewers_In _ _ _ _ _ newUserID Hsel (or_introl eq_refl))
    as (u & Hu & Huid).
  rewrite <- (replacement_pool_candidates db prID r author Hr Hau) in Hu.
  apply active_member_In in Hu. destruct Hu as (Huin & _ & _ & Hnot).
  assert (Hnew : ~ In (prID, newUserID) (pull_request_reviewers db)).
  { intros Cin. apply Hnot. rewrite Huid. apply in_or_app. left.
    now apply In_reviewers_of. }
  assert (Hrow : reviewer_row_ok
                   (set_pull_request_reviewers db
                      (filter (fun x => negb (is_row prID oldUserID x))
                              (pull_request_reviewers db)))
                   prID newUserID = true).
  { apply Hschema, schema_ok_accepts.
    - cbn [pull_requests set_pull_request_reviewers].
      now apply (find_Some_existsb _ _ r).
    - cbn [users set_pull_request_reviewers]. rewrite <- Huid. now apply in_map.
    - cbn [pull_request_reviewers set_pull_request_reviewers].
      intros C. apply filter_In in C. now apply Hnew. }
  assert (Hdone : PullRequestRepository_ReassignReviewer
                    (mkReassignment prID oldUserID newUserID) db
                  = (set_pull_request_reviewers db
                       (reassigned_rows db prID oldUserID newUserID), Ok tt)).
  { unfold PullRequestRepository_ReassignReviewer.
    cbn [ra_PullRequestID ra_OldUserID ra_NewUserID].
    destruct (_ =? 0) eqn:Hrows.
    - exfalso. apply Nat.eqb_eq in Hrows.
      pose proof (proj1 (filter_negb_length _ _) Hrows (prID, oldUserID)) as C.
      apply In_reviewers_of in Hin. specialize (C Hin).
      assert (is_row prID oldUserID (prID, oldUserID) = true) by now apply is_row_true.
      congruence.
    - unfold exec_insertSpecificReviewerQuery. rewrite Hrow. reflexivity. }
  rewrite Hdone.
  match goal with
  | |- context [PullRequestRepository_GetPRByID prID ?d] =>
      assert (Hg : exists p, PullRequestRepository_GetPRByID prID d = Ok p)
  end.
  { unfold PullRequestRepository_GetPRByID.
    cbn [pull_requests set_pull_request_reviewers]. rewrite Hr. eauto. }
  destruct Hg as [p Hg]. rewrite Hg. eauto.
Qed.

(** ** The creation time, handed back and read back *)

Lemma timestamptz_bounds t : (timestamptz t <= t < timestamptz t + 1000)%Z.
Proof.
  unfold timestamptz.
  pose proof (Z.div_mod t 1000 ltac:(lia)).
  pose proof (Z.mod_pos_bound t 1000 ltac:(lia)). lia.
Qed.

Lemma timestamptz_fixed t : timestamptz t = t <-> (t mod 1000 = 0)%Z.
Proof.
  unfold timestamptz.
  pose proof (Z.div_mod t 1000 ltac:(lia)). lia.
Qed.

(** X26.  What [CreatePR] hands back and what the store then gives for
    the same id differ in the creation time only.  The pull request handed
    back carries the reading of [time.Now()] as it is; the one read back
    has the same id, name, status, author and reviewers and no merge time,
    and as creation time the microsecond that reading fell in: at most as
    late, less than a microsecond earlier, and the same exactly when the
    reading was a whole number of microseconds. *)
Theorem created_at_is_read_back_in_microseconds
    rnd now prID prName authorID db db' pr :
  reachable db ->
  PullRequestService_CreatePR rnd now prID prName authorID db = (db', Ok pr) ->
  pr_CreatedAt pr = now /\
  exists stored,
    PullRequestRepository_GetPRByID prID db' = Ok stored /\
    pr_ID stored = pr_ID pr /\ pr_Name stored = pr_Name pr /\
    pr_Status stored = pr_Status pr /\ pr_AuthorID stored = pr_AuthorID pr /\
    pr_MergedAt stored = pr_MergedAt pr /\
    Permutation (pr_AssignedReviewers stored) (pr_AssignedReviewers pr) /\
    pr_CreatedAt stored = timestamptz now /\
    (pr_CreatedAt stored <= pr_CreatedAt pr < pr_CreatedAt stored + 1000)%Z /\
    (pr_CreatedAt stored = pr_CreatedAt pr <-> (now mod 1000 = 0)%Z).
Proof.
  intros Hreach H. pose proof (reachable_inv db Hreach) as Hinv.
  pose proof (CreatePR_stored rnd now prID prName authorID db db' pr
                (inv_reviewer_pr db Hinv) H) as Hst.
  apply CreatePR_inv in H.
  destruct H as (author & users' & _ & _ & _ & _ & _ & _ & Hpr & _).
  assert (Hnow : pr_CreatedAt pr = now) by (rewrite Hpr; reflexivity).
  split; [exact Hnow|].
  eexists. split; [exact Hst|].
  cbn [pr_ID pr_Name pr_Status pr_AuthorID pr_MergedAt pr_AssignedReviewers pr_CreatedAt].
  rewrite Hnow.
  split; [now rewrite Hpr|]. split; [now rewrite Hpr|].
  split; [now rewrite Hpr|]. split; [now rewrite Hpr|].
  split; [now rewrite Hpr|]. split; [apply Permutation_refl|].
  split; [reflexivity|]. split; [apply timestamptz_bounds|apply timestamptz_fixed].
Qed.

End Program.

(** ** The statements at work on the sample data *)

Lemma getRandomReviewers_min_count_witness :
  (0 <= 2)%Z /\
  exists users' ids,
    getRandomReviewers draw_zero [bob; carol; dave] 2 = Some (users', ids) /\
    Z.of_nat (length ids) = Z.min 2 (Z.of_nat (length [bob; carol; dave])) /\
    (forall id, In id ids -> exists u, In u [bob; carol; dave] /\ u_ID u = id) /\
    (exists others, Permutation (ids ++ others) (map u_ID [bob; carol; dave])) /\
    ([bob; carol; dave] = [] -> ids = []) /\
    ((Z.of_nat (length [bob; carol; dave]) < 2)%Z ->
     Permutation ids (map u_ID [bob; carol; dave])).
Proof.
  split; [lia|].
  apply (getRandomReviewers_min_count draw_zero [bob; carol; dave] 2). lia.
Defined.

(** C8, as stated, fails: with two candidates and a draw of 0 the two
    cells of the caller's slice are exchanged. *)
Lemma getRandomReviewers_reorders_input :
  getRandomReviewers draw_zero [bob; carol] 1 = Some ([carol; bob], [3%N]) /\
  [carol; bob] <> [bob; carol].
Proof.
  split; [reflexivity|discriminate].
Qed.

Lemma getRandomReviewers_rearranges_input_witness :
  getRandomReviewers draw_zero [bob; carol] 1 = Some ([carol; bob], [3%N]) /\
  Permutation [bob; carol] [carol; bob] /\
  length [carol; bob] = length [bob; carol] /\
  (length [bob; carol] <= 1 -> [carol; bob] = [bob; carol]).
Proof.
  split; [reflexivity|].
  apply (getRandomReviewers_rearranges_input draw_zero [bob; carol] 1 [carol; bob] [3%N]).
  reflexivity.
Defined.

(** The store after [sample_commands]: alice's "pr-1" is reviewed by carol
    and dave. *)
Lemma sample_store :
  run schema_ok sample_commands empty_db =
  mkDB [mkUser 1%N "alice" true "T"; mkUser 2%N "bob" true "T";
        mkUser 3%N "carol" true "T"; mkUser 4%N "dave" true "T"]
       ["T"]
       [mkPRRow "pr-1" "title" StatusOpen 1%N 1000%Z None]
       [("pr-1", 3%N); ("pr-1", 4%N)].
Proof. reflexivity. Qed.

Lemma sample_reachable : reachable schema_ok (run schema_ok sample_commands empty_db).
Proof. exists sample_commands. reflexivity. Defined.

Lemma solo_reachable : reachable schema_ok (run schema_ok solo_commands empty_db).
Proof. exists solo_commands. reflexivity. Defined.

Lemma author_is_never_reviewer_witness :
  reachable schema_ok (run schema_ok sample_commands empty_db) /\
  (exists db' pr,
     PullRequestService_CreatePR schema_ok draw_zero 2500%Z "pr-2" "second" 2%N
       (run schema_ok sample_commands empty_db) = (db', Ok pr) /\
     pr_AuthorID pr = 2%N /\
     ~ In (pr_AuthorID pr) (pr_AssignedReviewers pr) /\
     exists stored,
       PullRequestRepository_GetPRByID "pr-2" db' = Ok stored /\
       pr_AuthorID stored = 2%N /\
       Permutation (pr_AssignedReviewers stored) (pr_AssignedReviewers pr) /\
       ~ In (pr_AuthorID stored) (pr_AssignedReviewers stored)) /\
  (exists db' updated newUserID,
     PullRequestService_ReassignmentReviewers schema_ok draw_zero "pr-1" 3%N
       (run schema_ok sample_commands empty_db) = (db', Ok (updated, newUserID)) /\
     ~ In (pr_AuthorID updated) (pr_AssignedReviewers updated) /\
     PullRequestRepository_GetPRByID "pr-1" db' = Ok updated).
Proof.
  split; [exact sample_reachable|].
  destruct (author_is_never_reviewer schema_ok _ sample_reachable) as [Hcreate Hreassign].
  split.
  - eexists _, _. split; [lazy; reflexivity|].
    apply (Hcreate draw_zero 2500%Z "pr-2" "second" 2%N). vm_compute. reflexivity.
  - eexists _, _, _. split; [lazy; reflexivity|].
    apply (Hreassign draw_zero "pr-1" 3%N _ _ 2%N). vm_compute. reflexivity.
Defined.

Lemma unassigned_reviewer_is_rejected_witness :
  ~ In 2%N (reviewers_of (run schema_ok sample_commands empty_db) "pr-1") /\
  reaches_mutation draw_zero "pr-1" 2%N (run schema_ok sample_commands empty_db) 2%N /\
  PullRequestService_ReassignmentReviewers schema_ok draw_zero "pr-1" 2%N
    (run schema_ok sample_commands empty_db)
  = (run schema_ok sample_commands empty_db, Err ErrUserNotAssigned).
Proof.
  assert (Hnot : ~ In 2%N (reviewers_of (run schema_ok sample_commands empty_db) "pr-1")).
  { rewrite sample_store. intros [C|[C|[]]]; discriminate C. }
  assert (Hreach : reaches_mutation draw_zero "pr-1" 2%N
                     (run schema_ok sample_commands empty_db) 2%N).
  { rewrite sample_store.
    exists (mkPRRow "pr-1" "title" StatusOpen 1%N 1000%Z None),
           (mkUser 1%N "alice" true "T"), [mkUser 2%N "bob" true "T"], [].
    repeat split; try reflexivity; intros C; discriminate C. }
  split; [exact Hnot|]. split; [exact Hreach|].
  exact (proj1 (proj2 (unassigned_reviewer_is_rejected schema_ok draw_zero "pr-1"
                         2%N 2%N _ Hnot)) Hreach).
Defined.

Lemma merge_is_final_witness :
  exists db1 pr,
    PullRequestService_SetMerge 20%Z "pr-1"
      (run schema_ok sample_commands empty_db) = (db1, Ok pr) /\
    pr_Status pr = StatusMerged /\
    PullRequestService_ReassignmentReviewers schema_ok draw_zero "pr-1" 3%N
      (run schema_ok [CmdSetUserActive 2%N false; CmdSetMerge 30%Z "pr-1"] db1)
    = (run schema_ok [CmdSetUserActive 2%N false; CmdSetMerge 30%Z "pr-1"] db1,
       Err ErrPRMerged).
Proof.
  eexists _, _. split; [lazy; reflexivity|].
  pose proof (merge_is_final schema_ok 20%Z "pr-1"
                (run schema_ok sample_commands empty_db) _ _ eq_refl) as (Hst & _ & Hfin).
  split; [exact Hst|].
  exact (proj2 (Hfin [CmdSetUserActive 2%N false; CmdSetMerge 30%Z "pr-1"] draw_zero 3%N)).
Defined.

Lemma reassign_unknown_pull_request_witness :
  existsb (row_has_id "pr-404") (pull_requests empty_db) = false /\
  PullRequestService_ReassignmentReviewers schema_ok draw_zero "pr-404" 2%N empty_db
    = (empty_db, Err ErrPRExists) /\
  Reassign_responseError ErrPRExists = (500%Z, codeInternalError).
Proof.
  split; [reflexivity|].
  pose proof (reassign_unknown_pull_request schema_ok draw_zero "pr-404" 2%N empty_db
                eq_refl) as (H1 & _ & H3 & _).
  split; [exact H1|exact H3].
Defined.

Lemma reassignment_picks_eligible_witness :
  exists db' updated,
    PullRequestService_ReassignmentReviewers schema_ok draw_zero "pr-1" 3%N
      (run schema_ok sample_commands empty_db) = (db', Ok (updated, 2%N)) /\
    exists before author,
      PullRequestRepository_GetPRByID "pr-1" (run schema_ok sample_commands empty_db)
        = Ok before /\
      UserRepository_GetUserByID (pr_AuthorID before)
        (run schema_ok sample_commands empty_db) = Ok author /\
      ~ In 2%N (pr_AssignedReviewers before) /\
      2%N <> pr_AuthorID before /\
      (exists u, In u (users (run schema_ok sample_commands empty_db)) /\
                 u_ID u = 2%N /\ u_IsActive u = true /\
                 u_TeamName u = u_TeamName author) /\
      In 2%N (pr_AssignedReviewers updated).
Proof.
  eexists _, _. split; [lazy; reflexivity|].
  eapply (reassignment_picks_eligible schema_ok draw_zero "pr-1" 3%N).
  lazy. reflexivity.
Defined.

(** C6, as stated, fails: erin is alone in team S and the author of
    "pr-9", which is open and whose pool of replacements is empty; asked to
    replace erin, the service answers [ErrAuthorCannotDelete], the check on
    the author coming before the search for candidates. *)
Lemma empty_pool_author_named :
  reachable schema_ok (run schema_ok solo_commands empty_db) /\
  status_of (run schema_ok solo_commands empty_db) "pr-9" = Some StatusOpen /\
  replacement_pool (run schema_ok solo_commands empty_db) "pr-9" = [] /\
  PullRequestService_ReassignmentReviewers schema_ok draw_zero "pr-9" 5%N
    (run schema_ok solo_commands empty_db)
  = (run schema_ok solo_commands empty_db, Err ErrAuthorCannotDelete) /\
  snd (PullRequestService_ReassignmentReviewers schema_ok draw_zero "pr-9" 5%N
         (run schema_ok solo_commands empty_db))
  <> Err ErrNoCandidate.
Proof.
  split; [exact solo_reachable|].
  repeat split; intros C; discriminate C.
Qed.

Lemma empty_pool_is_no_candidate_witness :
  reachable schema_ok (run schema_ok solo_commands empty_db) /\
  find (row_has_id "pr-9") (pull_requests (run schema_ok solo_commands empty_db))
    = Some (created_row 1500%Z "pr-9" "solo" 5%N) /\
  row_status (created_row 1500%Z "pr-9" "solo" 5%N) = StatusOpen /\
  7%N <> row_author_id (created_row 1500%Z "pr-9" "solo" 5%N) /\
  replacement_pool (run schema_ok solo_commands empty_db) "pr-9" = [] /\
  PullRequestService_ReassignmentReviewers schema_ok draw_zero "pr-9" 7%N
    (run schema_ok solo_commands empty_db)
  = (run schema_ok solo_commands empty_db, Err ErrNoCandidate).
Proof.
  assert (Hold : 7%N <> row_author_id (created_row 1500%Z "pr-9" "solo" 5%N))
    by (intros C; discriminate C).
  split; [exact solo_reachable|].
  split; [reflexivity|]. split; [reflexivity|]. split; [exact Hold|].
  split; [reflexivity|].
  exact (proj1 (empty_pool_is_no_candidate schema_ok draw_zero "pr-9" 7%N _ _
                  solo_reachable eq_refl eq_refl Hold eq_refl)).
Defined.

Lemma review_stats_count_and_rank_witness :
  reachable schema_ok (run schema_ok sample_commands empty_db) /\
  exists stats,
    StatsService_GetUserReviewStats (run schema_ok sample_commands empty_db)
      = (run schema_ok sample_commands empty_db, Ok stats) /\
    (forall s, In s stats ->
       st_ReviewCount s
       = prs_reviewed_by (run schema_ok sample_commands empty_db) (st_UserID s)) /\
    StronglySorted count_desc stats.
Proof.
  split; [exact sample_reachable|].
  destruct (review_stats_count_and_rank schema_ok _ sample_reachable)
    as (stats & H1 & _ & _ & _ & H5 & H6).
  exists stats. auto.
Defined.

Lemma created_members_join_the_team_witness :
  exists db',
    TeamService_CreateTeamWithMembers team_T empty_db = (db', Ok team_T) /\
    (exists u, In u (users db') /\ u_ID u = u_ID alice /\ u_TeamName u = "T") /\
    (exists u, UserRepository_GetUserByID (u_ID alice) db' = Ok u /\ u_TeamName u = "T").
Proof.
  eexists. split; [lazy; reflexivity|].
  pose proof (created_members_join_the_team team_T empty_db _ team_T eq_refl)
    as (H1 & _ & H3).
  split.
  - apply (H1 alice). now left.
  - apply (H3 (NoDup_nil _) alice). now left.
Defined.

(** ** The further statements at work on the sample data *)

Lemma team_reachable : reachable schema_ok (run schema_ok [CmdCreateTeam team_T] empty_db).
Proof. exists [CmdCreateTeam team_T]. reflexivity. Defined.

Lemma merged_reachable : reachable schema_ok (run schema_ok merged_commands empty_db).
Proof. exists merged_commands. reflexivity. Defined.

Lemma empty_reachable : reachable schema_ok empty_db.
Proof. exists []. reflexivity. Defined.

Lemma sample_pr_stored :
  PullRequestRepository_GetPRByID "pr-1" (run schema_ok sample_commands empty_db)
  = Ok sample_pr.
Proof. reflexivity. Qed.


Lemma pull_request_is_permanent_witness :
  PullRequestRepository_GetPRByID "pr-1" (run schema_ok sample_commands empty_db)
    = Ok sample_pr /\
  exists later,
    PullRequestRepository_GetPRByID "pr-1"
      (run schema_ok [CmdSetMerge 20%Z "pr-1"; CmdSetUserActive 1%N false]
         (run schema_ok sample_commands empty_db)) = Ok later /\
    pr_ID later = pr_ID sample_pr /\ pr_Name later = pr_Name sample_pr /\
    pr_AuthorID later = pr_AuthorID sample_pr /\
    pr_CreatedAt later = pr_CreatedAt sample_pr.
Proof.
  split; [exact sample_pr_stored|].
  exact (pull_request_is_permanent schema_ok "pr-1" _ sample_pr
           [CmdSetMerge 20%Z "pr-1"; CmdSetUserActive 1%N false] sample_pr_stored).
Defined.

Lemma pull_request_id_stays_taken_witness :
  exists db1 pr,
    PullRequestService_CreatePR schema_ok draw_zero 1500%Z "pr-1" "title" 1%N
      (run schema_ok [CmdCreateTeam team_T] empty_db) = (db1, Ok pr) /\
    PullRequestService_CreatePR schema_ok draw_zero 30%Z "pr-1" "other" 2%N
      (run schema_ok [CmdSetMerge 20%Z "pr-1"] db1)
    = (run schema_ok [CmdSetMerge 20%Z "pr-1"] db1, Err ErrPRExists).
Proof.
  eexists _, _. split; [lazy; reflexivity|].
  eapply proj1.
  eapply (pull_request_id_stays_taken schema_ok draw_zero 1500%Z "pr-1" "title" 1%N
            (run schema_ok [CmdCreateTeam team_T] empty_db)).
  lazy. reflexivity.
Defined.

Lemma merged_at_iff_merged_witness :
  reachable schema_ok (run schema_ok merged_commands empty_db) /\
  PullRequestRepository_GetPRByID "pr-1" (run schema_ok merged_commands empty_db)
    = Ok (mkPullRequest "pr-1" "title" StatusMerged 1%N [3%N; 4%N] 1000%Z (Some 20%Z)) /\
  (pr_Status (mkPullRequest "pr-1" "title" StatusMerged 1%N [3%N; 4%N] 1000%Z (Some 20%Z))
     = StatusMerged
   <-> pr_MergedAt (mkPullRequest "pr-1" "title" StatusMerged 1%N [3%N; 4%N] 1000%Z
                      (Some 20%Z)) <> None).
Proof.
  assert (H : PullRequestRepository_GetPRByID "pr-1"
                (run schema_ok merged_commands empty_db)
              = Ok (mkPullRequest "pr-1" "title" StatusMerged 1%N [3%N; 4%N] 1000%Z
                      (Some 20%Z))) by reflexivity.
  split; [exact merged_reachable|]. split; [exact H|].
  exact (merged_at_iff_merged schema_ok _ "pr-1" _ merged_reachable H).
Defined.

Lemma reviewers_are_few_and_known_witness :
  reachable schema_ok (run schema_ok sample_commands empty_db) /\
  PullRequestRepository_GetPRByID "pr-1" (run schema_ok sample_commands empty_db)
    = Ok sample_pr /\
  length (pr_AssignedReviewers sample_pr) <= 2 /\
  NoDup (pr_AssignedReviewers sample_pr) /\
  (forall r, In r (pr_AssignedReviewers sample_pr) ->
     exists u, UserRepository_GetUserByID r (run schema_ok sample_commands empty_db)
               = Ok u /\ u_ID u = r) /\
  (exists a, UserRepository_GetUserByID (pr_AuthorID sample_pr)
               (run schema_ok sample_commands empty_db) = Ok a /\
             u_ID a = pr_AuthorID sample_pr).
Proof.
  split; [exact sample_reachable|]. split; [exact sample_pr_stored|].
  exact (reviewers_are_few_and_known schema_ok _ "pr-1" sample_pr
           sample_reachable sample_pr_stored).
Defined.

Lemma CreatePR_assigns_up_to_two_witness :
  reachable schema_ok (run schema_ok [CmdCreateTeam team_T] empty_db) /\
  exists db' pr,
    PullRequestService_CreatePR schema_ok draw_zero 1500%Z "pr-1" "title" 1%N
      (run schema_ok [CmdCreateTeam team_T] empty_db) = (db', Ok pr) /\
    exists author,
      UserRepository_GetUserByID 1%N (run schema_ok [CmdCreateTeam team_T] empty_db)
        = Ok author /\
      u_IsActive author = true /\
      pr = mkPullRequest "pr-1" "title" StatusOpen 1%N (pr_AssignedReviewers pr) 1500%Z None /\
      Z.of_nat (length (pr_AssignedReviewers pr))
        = Z.min 2 (Z.of_nat (length (filter (active_member (u_TeamName author) [1%N])
                     (users (run schema_ok [CmdCreateTeam team_T] empty_db))))) /\
      NoDup (pr_AssignedReviewers pr) /\
      (forall r, In r (pr_AssignedReviewers pr) ->
         r <> 1%N /\
         exists u, In u (users (run schema_ok [CmdCreateTeam team_T] empty_db)) /\
                   u_ID u = r /\ u_IsActive u = true /\
                   u_TeamName u = u_TeamName author).
Proof.
  split; [exact team_reachable|].
  eexists _, _. split; [lazy; reflexivity|].
  eapply (CreatePR_assigns_up_to_two schema_ok draw_zero 1500%Z "pr-1" "title" 1%N
            (run schema_ok [CmdCreateTeam team_T] empty_db));
    [exact team_reachable | lazy; reflexivity].
Defined.

Lemma CreatePR_refuses_bad_author_witness :
  existsb (row_has_id "pr-7") (pull_requests (run schema_ok sample_commands empty_db))
    = false /\
  9%N <> uuid_Nil /\
  ~ In 9%N (map u_ID (users (run schema_ok sample_commands empty_db))) /\
  PullRequestService_CreatePR schema_ok draw_zero 11%Z "pr-7" "seventh" 9%N
    (run schema_ok sample_commands empty_db)
  = (run schema_ok sample_commands empty_db, Err ErrNotFound).
Proof.
  assert (Hex : existsb (row_has_id "pr-7")
                  (pull_requests (run schema_ok sample_commands empty_db)) = false)
    by reflexivity.
  assert (Hnil : 9%N <> uuid_Nil) by (intros C; discriminate C).
  assert (Hnot : ~ In 9%N (map u_ID (users (run schema_ok sample_commands empty_db)))).
  { rewrite sample_store. intros [C|[C|[C|[C|[]]]]]; discriminate C. }
  split; [exact Hex|]. split; [exact Hnil|]. split; [exact Hnot|].
  exact (proj1 (proj1 (proj2 (CreatePR_refuses_bad_author schema_ok draw_zero 11%Z
                                "pr-7" "seventh" 9%N _ Hex)) Hnil Hnot)).
Defined.

Lemma deactivated_user_is_left_out_witness :
  exists db1 user,
    UserService_SetIsActive 2%N false (run schema_ok sample_commands empty_db)
      = (db1, Ok user) /\
    u_IsActive user = false /\
    PullRequestService_CreatePR schema_ok draw_zero 11%Z "pr-2" "second" 2%N db1
      = (db1, Err ErrAuthorIsInactive).
Proof.
  eexists _, _. split; [lazy; reflexivity|].
  pose proof (deactivated_user_is_left_out schema_ok 2%N
                (run schema_ok sample_commands empty_db) _ _ eq_refl)
    as (H1 & _ & _ & H4).
  split; [exact H1|].
  apply (H4 draw_zero 11%Z "pr-2" "second"). reflexivity.
Defined.

Lemma SetIsActive_sets_one_flag_witness :
  2%N <> uuid_Nil /\
  UserRepository_GetUserByID 2%N (run schema_ok sample_commands empty_db)
    = Ok (mkUser 2%N "bob" true "T") /\
  exists db',
    UserService_SetIsActive 2%N false (run schema_ok sample_commands empty_db)
      = (db', Ok (mkUser 2%N "bob" false "T")) /\
    UserRepository_GetUserByID 2%N db' = Ok (mkUser 2%N "bob" false "T").
Proof.
  assert (Hnil : 2%N <> uuid_Nil) by (intros C; discriminate C).
  assert (Hget : UserRepository_GetUserByID 2%N (run schema_ok sample_commands empty_db)
                 = Ok (mkUser 2%N "bob" true "T")) by reflexivity.
  split; [exact Hnil|]. split; [exact Hget|].
  destruct (proj2 (proj2 (SetIsActive_sets_one_flag 2%N false
                            (run schema_ok sample_commands empty_db)))
              _ Hnil Hget) as (db' & H1 & H2 & _).
  exists db'. split; [exact H1|exact H2].
Defined.

Lemma SetMerge_stamps_the_pull_request_witness :
  PullRequestRepository_GetPRByID "pr-1" (run schema_ok sample_commands empty_db)
    = Ok sample_pr /\
  exists db',
    PullRequestService_SetMerge 20%Z "pr-1" (run schema_ok sample_commands empty_db)
      = (db', Ok (mkPullRequest "pr-1" "title" StatusMerged 1%N [3%N; 4%N] 1000%Z
                    (Some 20%Z))) /\
    pull_request_reviewers db'
      = pull_request_reviewers (run schema_ok sample_commands empty_db).
Proof.
  split; [exact sample_pr_stored|].
  destruct (SetMerge_stamps_the_pull_request 20%Z "pr-1"
              (run schema_ok sample_commands empty_db) sample_pr sample_pr_stored)
    as (db' & H1 & _ & _ & _ & H5).
  exists db'. split; [exact H1|exact H5].
Defined.

Lemma SetMerge_unknown_id_is_internal_error_witness :
  PullRequestRepository_GetPRByID "pr-404" (run schema_ok sample_commands empty_db)
    = Err ErrNotFound /\
  PullRequestService_SetMerge 20%Z "pr-404" (run schema_ok sample_commands empty_db)
    = (run schema_ok sample_commands empty_db, Err ErrPRNotExist) /\
  SetMerge_responseError ErrPRNotExist = (500%Z, codeInternalError) /\
  SetMerge_responseError (Errorf "failed to get pull request" ErrNotFound)
    = (404%Z, codeNotFound).
Proof.
  assert (Hget : PullRequestRepository_GetPRByID "pr-404"
                   (run schema_ok sample_commands empty_db) = Err ErrNotFound)
    by reflexivity.
  pose proof (SetMerge_unknown_id_is_internal_error 20%Z "pr-404"
                (run schema_ok sample_commands empty_db) Hget) as (H1 & _ & H3 & H4).
  split; [exact Hget|]. split; [exact H1|]. split; [exact H3|].
  exact (H4 "failed to get pull request").
Defined.

Lemma GetReviewsForUser_lists_assignments_witness :
  reachable schema_ok (run schema_ok sample_commands empty_db) /\
  In 3%N (map u_ID (users (run schema_ok sample_commands empty_db))) /\
  exists prs,
    UserService_GetReviewsForUser 3%N (run schema_ok sample_commands empty_db)
      = (run schema_ok sample_commands empty_db, Ok prs) /\
    NoDup (map pr_ID prs) /\
    (forall prID, In prID (map pr_ID prs)
                  <-> In 3%N (reviewers_of (run schema_ok sample_commands empty_db) prID)).
Proof.
  assert (Hin : In 3%N (map u_ID (users (run schema_ok sample_commands empty_db)))).
  { rewrite sample_store. simpl. auto. }
  split; [exact sample_reachable|]. split; [exact Hin|].
  destruct (proj2 (GetReviewsForUser_lists_assignments schema_ok 3%N
                     (run schema_ok sample_commands empty_db))
              sample_reachable Hin) as (prs & stats & H1 & H2 & H3 & _).
  exists prs. auto.
Defined.

Lemma review_counts_add_up_witness :
  reachable schema_ok (run schema_ok sample_commands empty_db) /\
  exists stats,
    StatsService_GetUserReviewStats (run schema_ok sample_commands empty_db)
      = (run schema_ok sample_commands empty_db, Ok stats) /\
    total_reviews stats
    = length (pull_request_reviewers (run schema_ok sample_commands empty_db)).
Proof.
  split; [exact sample_reachable|].
  exact (review_counts_add_up schema_ok _ sample_reachable).
Defined.


Lemma created_team_is_read_back_witness :
  reachable schema_ok empty_db /\
  exists db' t,
    TeamService_CreateTeamWithMembers team_T empty_db = (db', Ok t) /\
    exists got,
      TeamService_GetTeamByName None "T" db' = (db', Ok got) /\
      t_Name got = "T" /\
      In 2%N (map u_ID (t_Members got)).
Proof.
  split; [exact empty_reachable|].
  eexists _, _. split; [lazy; reflexivity|].
  destruct (created_team_is_read_back schema_ok None team_T empty_db _ _
              empty_reachable eq_refl) as (got & H1 & H2 & _ & H4).
  exists got. split; [exact H1|]. split; [exact H2|].
  apply (H4 bob); [simpl; auto | intros C; discriminate C].
Defined.

Lemma CreateTeam_echoes_the_request_witness :
  FromTeamDomain (ToTeamDomain team_T_request) = team_T_request /\
  exists db' t,
    TeamService_CreateTeamWithMembers (ToTeamDomain team_T_request) empty_db
      = (db', Ok t) /\
    FromTeamDomain t = team_T_request.
Proof.
  destruct (CreateTeam_echoes_the_request team_T_request) as [H1 H2].
  split; [exact H1|].
  eexists _, _. split; [lazy; reflexivity|].
  apply (H2 empty_db _ _ eq_refl).
Defined.

Lemma team_name_stays_taken_witness :
  exists db1 t,
    TeamService_CreateTeamWithMembers team_T empty_db = (db1, Ok t) /\
    [erin] <> [] /\
    TeamService_CreateTeamWithMembers (mkTeam "T" [erin])
      (run schema_ok [CmdCreatePR draw_zero 1500%Z "pr-1" "title" 1%N] db1)
    = (run schema_ok [CmdCreatePR draw_zero 1500%Z "pr-1" "title" 1%N] db1,
       Err ErrTeamExists).
Proof.
  assert (Hne : [erin] <> []) by (intros C; discriminate C).
  eexists _, _. split; [lazy; reflexivity|]. split; [exact Hne|].
  exact (proj1 (proj2 (team_name_stays_taken schema_ok team_T empty_db) _ _ eq_refl
                  [CmdCreatePR draw_zero 1500%Z "pr-1" "title" 1%N] [erin] Hne)).
Defined.

Lemma CreateTeam_overwrites_its_members_witness :
  exists db' t,
    TeamService_CreateTeamWithMembers (mkTeam "S" [mkUser 2%N "robert" false ""])
      (run schema_ok sample_commands empty_db) = (db', Ok t) /\
    teams db' = ["T"; "S"] /\
    UserRepository_GetUserByID 2%N db' = Ok (mkUser 2%N "robert" false "S") /\
    UserRepository_GetUserByID 3%N db'
    = UserRepository_GetUserByID 3%N (run schema_ok sample_commands empty_db).
Proof.
  eexists _, _. split; [lazy; reflexivity|].
  destruct (CreateTeam_overwrites_its_members
              (mkTeam "S" [mkUser 2%N "robert" false ""])
              (run schema_ok sample_commands empty_db) _ _ eq_refl)
    as (H1 & _ & _ & H4 & H5).
  split; [exact H1|]. split.
  - apply (H5 (NoDup_cons _ (@in_nil _ _) (NoDup_nil _)) (mkUser 2%N "robert" false "")).
    now left.
  - apply H4. simpl. intros [C|[]]. discriminate C.
Defined.

Lemma SaveUser_then_GetUserByID_witness :
  u_ID (mkUser 5%N "erin" true "T") <> uuid_Nil /\
  In "T" (teams (run schema_ok sample_commands empty_db)) /\
  exists db',
    UserService_SaveUser (mkUser 5%N "erin" true "T")
      (run schema_ok sample_commands empty_db) = (db', Ok tt) /\
    UserRepository_GetUserByID 5%N db' = Ok (mkUser 5%N "erin" true "T").
Proof.
  assert (Hnil : u_ID (mkUser 5%N "erin" true "T") <> uuid_Nil)
    by (intros C; discriminate C).
  assert (Hin : In "T" (teams (run schema_ok sample_commands empty_db))).
  { rewrite sample_store. simpl. auto. }
  split; [exact Hnil|]. split; [exact Hin|].
  destruct (proj2 (proj2 (SaveUser_then_GetUserByID (mkUser 5%N "erin" true "T")
                            (run schema_ok sample_commands empty_db))) Hnil Hin)
    as (db' & H1 & H2 & _).
  exists db'. split; [exact H1|exact H2].
Defined.

Lemma getRandomReviewers_edge_counts_witness :
  [bob] <> [] /\ (-1 < 0)%Z /\
  getRandomReviewers draw_zero [bob] (-1) = None.
Proof.
  assert (Hne : [bob] <> []) by (intros C; discriminate C).
  assert (Hneg : (-1 < 0)%Z) by reflexivity.
  split; [exact Hne|]. split; [exact Hneg|].
  exact (proj1 (getRandomReviewers_edge_counts draw_zero [bob] (-1)) Hne Hneg).
Defined.

Lemma any_candidate_can_come_first_witness :
  In carol [bob; carol; dave] /\ (1 <= 1)%Z /\
  exists rnd users' rest,
    getRandomReviewers rnd [bob; carol; dave] 1 = Some (users', u_ID carol :: rest).
Proof.
  assert (Hin : In carol [bob; carol; dave]) by (simpl; auto).
  assert (Hc : (1 <= 1)%Z) by (intros C; discriminate C).
  split; [exact Hin|]. split; [exact Hc|].
  exact (any_candidate_can_come_first [bob; carol; dave] carol 1 Hin Hc).
Defined.


Lemma reassigning_the_author_is_refused_witness :
  reachable schema_ok (run schema_ok sample_commands empty_db) /\
  PullRequestRepository_GetPRByID "pr-1" (run schema_ok sample_commands empty_db)
    = Ok sample_pr /\
  pr_Status sample_pr = StatusOpen /\
  PullRequestService_ReassignmentReviewers schema_ok draw_zero "pr-1"
    (pr_AuthorID sample_pr) (run schema_ok sample_commands empty_db)
  = (run schema_ok sample_commands empty_db, Err ErrAuthorCannotDelete).
Proof.
  split; [exact sample_reachable|]. split; [exact sample_pr_stored|].
  split; [reflexivity|].
  exact (proj1 (reassigning_the_author_is_refused schema_ok draw_zero "pr-1" _ sample_pr
                  sample_reachable sample_pr_stored eq_refl)).
Defined.

Lemma CreatePR_succeeds_witness :
  (forall d i r, schema_ok d i r = true -> schema_ok d i r = true) /\
  reachable schema_ok (run schema_ok [CmdCreateTeam team_T] empty_db) /\
  existsb (row_has_id "pr-1")
    (pull_requests (run schema_ok [CmdCreateTeam team_T] empty_db)) = false /\
  1%N <> uuid_Nil /\
  UserRepository_GetUserByID 1%N (run schema_ok [CmdCreateTeam team_T] empty_db)
    = Ok (mkUser 1%N "alice" true "T") /\
  exists db' pr,
    PullRequestService_CreatePR schema_ok draw_zero 1500%Z "pr-1" "title" 1%N
      (run schema_ok [CmdCreateTeam team_T] empty_db) = (db', Ok pr).
Proof.
  assert (Hschema : forall d i r, schema_ok d i r = true -> schema_ok d i r = true)
    by (intros d i r H; exact H).
  assert (Hnil : 1%N <> uuid_Nil) by (intros C; discriminate C).
  split; [exact Hschema|]. split; [exact team_reachable|].
  split; [reflexivity|]. split; [exact Hnil|]. split; [reflexivity|].
  exact (CreatePR_succeeds schema_ok draw_zero 1500%Z "pr-1" "title" 1%N
           (run schema_ok [CmdCreateTeam team_T] empty_db)
           (mkUser 1%N "alice" true "T")
           Hschema team_reachable eq_refl Hnil eq_refl eq_refl).
Defined.

Lemma reassignment_succeeds_witness :
  (forall d i r, schema_ok d i r = true -> schema_ok d i r = true) /\
  reachable schema_ok (run schema_ok sample_commands empty_db) /\
  PullRequestRepository_GetPRByID "pr-1" (run schema_ok sample_commands empty_db)
    = Ok sample_pr /\
  In 3%N (pr_AssignedReviewers sample_pr) /\
  replacement_pool (run schema_ok sample_commands empty_db) "pr-1" <> [] /\
  exists db' updated newUserID,
    PullRequestService_ReassignmentReviewers schema_ok draw_zero "pr-1" 3%N
      (run schema_ok sample_commands empty_db) = (db', Ok (updated, newUserID)).
Proof.
  assert (Hschema : forall d i r, schema_ok d i r = true -> schema_ok d i r = true)
    by (intros d i r H; exact H).
  assert (Hin : In 3%N (pr_AssignedReviewers sample_pr)) by (simpl; auto).
  assert (Hpool : replacement_pool (run schema_ok sample_commands empty_db) "pr-1"
                  <> []) by (intros C; discriminate C).
  split; [exact Hschema|]. split; [exact sample_reachable|].
  split; [exact sample_pr_stored|]. split; [exact Hin|]. split; [exact Hpool|].
  exact (reassignment_succeeds schema_ok draw_zero "pr-1" 3%N _ sample_pr
           Hschema sample_reachable sample_pr_stored eq_refl Hin Hpool).
Defined.

Lemma created_at_is_read_back_in_microseconds_witness :
  reachable schema_ok (run schema_ok [CmdCreateTeam team_T] empty_db) /\
  exists db' pr stored,
    PullRequestService_CreatePR schema_ok draw_zero 1500%Z "pr-1" "title" 1%N
      (run schema_ok [CmdCreateTeam team_T] empty_db) = (db', Ok pr) /\
    pr_CreatedAt pr = 1500%Z /\
    PullRequestRepository_GetPRByID "pr-1" db' = Ok stored /\
    pr_CreatedAt stored = 1000%Z.
Proof.
  split; [exact team_reachable|].
  destruct (created_at_is_read_back_in_microseconds schema_ok draw_zero 1500%Z
              "pr-1" "title" 1%N (run schema_ok [CmdCreateTeam team_T] empty_db)
              _ _ team_reachable eq_refl)
    as (Hnow & stored & Hget & _ & _ & _ & _ & _ & _ & Hat & _).
  eexists _, _, stored. split; [lazy; reflexivity|].
  split; [exact Hnow|]. split; [exact Hget|exact Hat].
Defined.
